(** * gnmi-exporter: a shallow embedding of the path utility, the plugin
      framework, the openconfig-interfaces plugin, the encoding selection,
      the routing and the watchdog of the session engine, and the scrape
      collector.

    Conventions of the embedding.
    - Python [str] is [string] over the ASCII alphabet (code points below 128).
    - A Python [dict] is an association list in insertion order ([Dict]):
      assigning an existing key replaces its value in place, a new key goes
      to the end, exactly the iteration order Python guarantees.
    - A raised exception is a value of [result]; a method of an object returns
      the new object state together with its outcome, so that the state left
      behind by an exception is still observable.
    - Locks are not modelled: every method body runs as one atomic step, which
      is what the mutexes of the source guarantee for the buffer operations.
      The watchdog, whose loop spans several critical sections, is a step
      system in which the calls of the other threads fall between the steps
      of its own; the mutex of the collector, the one that is taken and
      given back by hand, has a model of its own beside the collector's.
    - [time.time()] is an oracle [clk : nat -> Z]: [clk k] is the k-th reading
      taken during one call. *)

From Stdlib Require Import Bool Arith ZArith List String Ascii Lia.
From Stdlib Require Import Sorted Permutation DecimalString ListSet.
Import ListNotations.

Open Scope string_scope.
Open Scope list_scope.
Open Scope nat_scope.

Set Implicit Arguments.

(* ------------------------------------------------------------------ *)
(** ** Exceptions *)

Inductive exn : Type :=
| XpathError   (* src/gnmi_client/utils.py *)
| DialError    (* src/gnmi_client/client.py *)
| TypeError
| ValueError.

Inductive result (A : Type) : Type :=
| Ok (a : A)
| Raise (e : exn).
Arguments Ok {A} a.
Arguments Raise {A} e.

Definition bind {A B : Type} (r : result A) (f : A -> result B) : result B :=
  match r with
  | Ok a => f a
  | Raise e => Raise e
  end.

Notation "x <- r ;; k" := (bind r (fun x => k))
  (at level 61, r at next level, right associativity).

(* ------------------------------------------------------------------ *)
(** ** Python string primitives *)

Module PyStr.

Definition code (c : ascii) : nat := nat_of_ascii c.

Definition between (lo hi : nat) (c : ascii) : bool :=
  (lo <=? code c) && (code c <=? hi).

(** [\d] on ASCII text. *)
Definition is_digit (c : ascii) : bool := between 48 57 c.

(** [\w] on ASCII text: letters, digits and the underscore. *)
Definition is_word (c : ascii) : bool :=
  between 97 122 c || between 65 90 c || is_digit c || Ascii.eqb c "_".

Definition is_newline (c : ascii) : bool := Ascii.eqb c "010".

(** [s.strip(chars)] with a one-character [chars]: every leading and every
    trailing occurrence goes. *)
Fixpoint lstrip (ch : ascii) (s : string) : string :=
  match s with
  | String c t => if Ascii.eqb c ch then lstrip ch t else s
  | EmptyString => EmptyString
  end.

Fixpoint rstrip (ch : ascii) (s : string) : string :=
  match s with
  | String c t =>
      match rstrip ch t with
      | EmptyString => if Ascii.eqb c ch then EmptyString else String c EmptyString
      | t' => String c t'
      end
  | EmptyString => EmptyString
  end.

Definition strip (ch : ascii) (s : string) : string := rstrip ch (lstrip ch s).

(** [s.split(sep)] with a one-character separator: never empty. *)
Fixpoint split (sep : ascii) (s : string) : list string :=
  match s with
  | EmptyString => [EmptyString]
  | String c t =>
      if Ascii.eqb c sep then EmptyString :: split sep t
      else match split sep t with
           | p :: ps => String c p :: ps
           | [] => [String c EmptyString]
           end
  end.

(** [l[0]] and [l[-1]] of a list known to be non-empty. *)
Definition first (l : list string) : string := hd EmptyString l.
Definition lastp (l : list string) : string := last l EmptyString.

(** [''.join(l)]. *)
Definition join (l : list string) : string := fold_right append EmptyString l.

(** [s.replace(a, b)] for one-character [a] and [b]. *)
Fixpoint replace (a b : ascii) (s : string) : string :=
  match s with
  | EmptyString => EmptyString
  | String c t => String (if Ascii.eqb c a then b else c) (replace a b t)
  end.

(** [x in l] for a list of strings. *)
Definition mem (x : string) (l : list string) : bool :=
  existsb (String.eqb x) l.

(** [re.match(lit, s)] for a pattern without metacharacters: [lit] is a
    prefix of [s]. *)
Definition startswith (lit s : string) : bool := String.prefix lit s.

End PyStr.

(* ------------------------------------------------------------------ *)
(** ** Insertion-ordered dictionaries with string keys *)

Module Dict.
Section WithValue.
Variable V : Type.

Definition t : Type := list (string * V).

Fixpoint get (k : string) (d : t) : option V :=
  match d with
  | [] => None
  | (k', v) :: d' => if String.eqb k k' then Some v else get k d'
  end.

(** [d[k] = v] *)
Fixpoint set (k : string) (v : V) (d : t) : t :=
  match d with
  | [] => [(k, v)]
  | (k', v') :: d' =>
      if String.eqb k k' then (k', v) :: d' else (k', v') :: set k v d'
  end.

Definition mem (k : string) (d : t) : bool :=
  match get k d with Some _ => true | None => false end.

Definition keys (d : t) : list string := map fst d.
Definition values (d : t) : list V := map snd d.
End WithValue.
End Dict.

(* ------------------------------------------------------------------ *)
(** ** A backtracking matcher for the regular expressions of the source

    The three patterns of [utils.py] use greedy repetition, an optional
    group, named groups, the anchors [^] and [$] and one lookahead.  The
    matcher follows Python's [re]: alternatives are tried left to right,
    repetition takes as many iterations as it can before giving one back,
    and the first overall success wins. *)

Module Re.

Inductive re : Type :=
| Eps
| Chr (p : ascii -> bool)          (* one character of a class *)
| Cat (r1 r2 : re)
| Alt (r1 r2 : re)
| Star (r : re)                    (* greedy [r*] *)
| Grp (name : string) (r : re)     (* capturing group *)
| Bol                              (* [^] *)
| Eol                              (* [$] without MULTILINE *)
| Ahead (r : re).                  (* [(?=r)] *)

Definition lit (c : ascii) : re := Chr (Ascii.eqb c).
Definition plus (r : re) : re := Cat r (Star r).     (* [r+] *)
Definition opt (r : re) : re := Alt r Eps.           (* [r?] *)

(** A position in the subject: characters consumed so far, what is left,
    and the groups that took part in the match. *)
Record cfg : Type := mkCfg {
  pos : nat;
  rest : string;
  caps : Dict.t string
}.

Definition step (c : cfg) (t : string) : cfg :=
  mkCfg (S (pos c)) t (caps c).

Definition capture (name : string) (c c1 : cfg) : cfg :=
  mkCfg (pos c1) (rest c1)
        (Dict.set name (substring 0 (pos c1 - pos c) (rest c)) (caps c1)).

Fixpoint run (r : re) (c : cfg) (k : cfg -> option cfg) : option cfg :=
  match r with
  | Eps => k c
  | Chr p =>
      match rest c with
      | String a t => if p a then k (step c t) else None
      | EmptyString => None
      end
  | Cat r1 r2 => run r1 c (fun c1 => run r2 c1 k)
  | Alt r1 r2 =>
      match run r1 c k with
      | Some c' => Some c'
      | None => run r2 c k
      end
  | Star r1 =>
      (fix loop (n : nat) (c : cfg) {struct n} : option cfg :=
         match n with
         | O => k c
         | S n' =>
             match run r1 c (fun c1 =>
                     if String.length (rest c1) <? String.length (rest c)
                     then loop n' c1 else None) with
             | Some c' => Some c'
             | None => k c
             end
         end) (String.length (rest c)) c
  | Grp name r1 => run r1 c (fun c1 => k (capture name c c1))
  | Bol => if pos c =? 0 then k c else None
  | Eol =>
      match rest c with
      | EmptyString => k c
      | String a EmptyString => if PyStr.is_newline a then k c else None
      | _ => None
      end
  | Ahead r1 =>
      match run r1 c (fun c1 => Some c1) with
      | Some c1 => k (mkCfg (pos c) (rest c) (caps c1))
      | None => None
      end
  end.

(** A match object: where the match starts and the position it ends at. *)
Definition matchobj : Type := (nat * cfg)%type.

Definition group (m : matchobj) (name : string) : option string :=
  Dict.get name (caps (snd m)).

(** The leftmost match at or after position [i], [s] being the subject
    from [i] on. *)
Fixpoint search_from (r : re) (i : nat) (s : string) : option matchobj :=
  match run r (mkCfg i s []) (fun c => Some c) with
  | Some c => Some (i, c)
  | None =>
      match s with
      | EmptyString => None
      | String _ t => search_from r (S i) t
      end
  end.

(** [pattern.search(s)] *)
Definition search (r : re) (s : string) : option matchobj :=
  search_from r 0 s.

(** The non-overlapping matches, left to right. *)
Fixpoint finditer_from (fuel : nat) (r : re) (i : nat) (s : string)
  : list matchobj :=
  match fuel with
  | O => []
  | S fuel' =>
      match search_from r i s with
      | None => []
      | Some (st, c) =>
          (st, c) ::
          (if st <? pos c then finditer_from fuel' r (pos c) (rest c)
           else match rest c with
                | EmptyString => []
                | String _ t => finditer_from fuel' r (S st) t
                end)
      end
  end.

Definition finditer (r : re) (s : string) : list matchobj :=
  finditer_from (S (String.length s)) r 0 s.

(** [re.findall(pattern, s)] for a pattern with exactly one group, named
    [g] here: the texts of that group. *)
Definition findall (r : re) (g : string) (s : string) : list string :=
  map (fun m => match group m g with Some x => x | None => EmptyString end)
      (finditer r s).

(** [re.split(pattern, s)] for a pattern without capturing groups. *)
Fixpoint cut (s : string) (from : nat) (ms : list matchobj) : list string :=
  match ms with
  | [] => [substring from (String.length s - from) s]
  | (st, c) :: ms' => substring from (st - from) s :: cut s (pos c) ms'
  end.

Definition split (r : re) (s : string) : list string :=
  cut s 0 (finditer r s).

End Re.

(* ------------------------------------------------------------------ *)
(** ** src/gnmi_client/utils.py *)

Module Utils.
Import Re.

Record PathElem : Type := mkPathElem {
  name : string;
  key : Dict.t string
}.

Record Path : Type := mkPath {
  elem : list PathElem;
  origin : string;
  target : string
}.

Definition not_char (x : ascii) (c : ascii) : bool := negb (Ascii.eqb c x).
Definition non_bracket (c : ascii) : bool :=
  negb (Ascii.eqb c "[") && negb (Ascii.eqb c "]").
Definition non_digit (c : ascii) : bool := negb (PyStr.is_digit c).
Definition dot (c : ascii) : bool := negb (PyStr.is_newline c).

(** The pattern is compiled with re.VERBOSE, blanks do not count:
    [^ (?P<pname>[^[]+) ( \[ (?P<key>\w\D+) = (?P<value>. * ) \] )? $] *)
Definition _RE_PATH_COMPONENT : re :=
  Cat Bol
 (Cat (Grp "pname" (plus (Chr (not_char "["))))
 (Cat (opt (Grp "2"
        (Cat (lit "[")
        (Cat (Grp "key" (Cat (Chr PyStr.is_word) (plus (Chr non_digit))))
        (Cat (lit "=")
        (Cat (Grp "value" (Star (Chr dot)))
             (lit "]")))))))
      Eol)).

(** [/(?=(?:[^\[\]]|\[[^\[\]]+\])*$)] *)
Definition _RE_SLASH : re :=
  Cat (lit "/")
      (Ahead (Cat (Star (Alt (Chr non_bracket)
                             (Cat (lit "[")
                             (Cat (plus (Chr non_bracket)) (lit "]")))))
                  Eol)).

(** The pattern of the findall: an opening bracket, group 1 holding the
    longest run of characters other than a closing bracket, a closing
    bracket. *)
Definition _RE_BRACKET : re :=
  Cat (lit "[") (Cat (Grp "1" (Star (Chr (not_char "]")))) (lit "]")).

(** The components the loop of [xpath_to_gnmi] walks over. *)
Definition p_names (xpath : string) : list string :=
  Re.split _RE_SLASH (PyStr.strip "/" (PyStr.strip "/" xpath)).

(** The inner loop over the bracket fragments of one component.  The
    element is appended inside the loop, once per fragment; the message
    constructor copies the dictionary as it stands at that moment. *)
Fixpoint key_loop (pname : string) (xs : list string)
         (tmp_key : Dict.t string) (gnmi_elems : list PathElem)
  : list PathElem :=
  match xs with
  | [] => gnmi_elems
  | x :: xs' =>
      let tmp_key' :=
        Dict.set (PyStr.first (PyStr.split "=" x))
                 (PyStr.lastp (PyStr.split "=" x)) tmp_key in
      key_loop pname xs' tmp_key' (gnmi_elems ++ [mkPathElem pname tmp_key'])
  end.

(** The body of the loop over the components. *)
Definition word_step (word : string) (gnmi_elems : list PathElem)
  : result (list PathElem) :=
  match Re.search _RE_PATH_COMPONENT word with
  | None => Raise XpathError
  | Some word_search =>
      match Re.group word_search "key" with
      | Some _ =>
          let pname :=
            match Re.group word_search "pname" with
            | Some p => p
            | None => EmptyString
            end in
          Ok (key_loop pname (Re.findall _RE_BRACKET "1" word) [] gnmi_elems)
      | None => Ok (gnmi_elems ++ [mkPathElem word []])
      end
  end.

Fixpoint word_loop (words : list string) (gnmi_elems : list PathElem)
  : result (list PathElem) :=
  match words with
  | [] => Ok gnmi_elems
  | word :: words' =>
      elems <- word_step word gnmi_elems ;;
      word_loop words' elems
  end.

(** [target=None] leaves the field of the message at its default, the empty
    string. *)
Definition xpath_to_gnmi (xpath : string) (origin : string)
           (target : option string) : result Path :=
  if String.eqb xpath "" || String.eqb xpath "/" then Raise XpathError
  else
    elems <- word_loop (p_names xpath) [] ;;
    Ok (mkPath elems origin
               (match target with Some t => t | None => EmptyString end)).

End Utils.

(* ------------------------------------------------------------------ *)
(** ** Python values carried by updates and table entries

    The value of an update is the member of the TypedValue oneof that is
    set: a [str], an [int], a [bool] or a [bytes] object ([None] before a
    message is filled in).  The floating-point and message-typed members are
    outside the embedding. *)

Module PyVal.

Inductive pyval : Type :=
| PyNone
| PyStr (s : string)
| PyInt (z : Z)
| PyBool (b : bool)
| PyBytes (b : string).

Definition str_of_Z (z : Z) : string := NilZero.string_of_int (Z.to_int z).

Definition hex_digit (n : nat) : ascii :=
  if n <? 10 then ascii_of_nat (48 + n) else ascii_of_nat (87 + n).

(** One byte inside the repr of a [bytes] object delimited by [q]. *)
Definition repr_byte (q : ascii) (c : ascii) : string :=
  let bs : ascii := "\"%char in
  if Ascii.eqb c q || Ascii.eqb c bs then String bs (String c "")
  else if Ascii.eqb c "009" then String bs "t"
  else if Ascii.eqb c "010" then String bs "n"
  else if Ascii.eqb c "013" then String bs "r"
  else if (PyStr.code c <? 32) || (126 <? PyStr.code c) then
    String bs (String "x" (String (hex_digit (PyStr.code c / 16))
                          (String (hex_digit (PyStr.code c mod 16)) "")))
  else String c "".

Fixpoint has_char (x : ascii) (s : string) : bool :=
  match s with
  | EmptyString => false
  | String c t => Ascii.eqb c x || has_char x t
  end.

Fixpoint repr_body (q : ascii) (s : string) : string :=
  match s with
  | EmptyString => EmptyString
  | String c t => repr_byte q c ++ repr_body q t
  end.

Definition repr_bytes (b : string) : string :=
  let q : ascii :=
    (if has_char "'" b && negb (has_char "034" b) then "034" else "'")%char in
  String "b" (String q (repr_body q b ++ String q "")).

(** [str(v)] *)
Definition py_str (v : pyval) : string :=
  match v with
  | PyNone => "None"
  | PyStr s => s
  | PyInt z => str_of_Z z
  | PyBool true => "True"
  | PyBool false => "False"
  | PyBytes b => repr_bytes b
  end.

Definition is_space (c : ascii) : bool :=
  PyStr.between 9 13 c || Ascii.eqb c " ".

Fixpoint lstrip_space (s : string) : string :=
  match s with
  | String c t => if is_space c then lstrip_space t else s
  | EmptyString => EmptyString
  end.

Fixpoint rstrip_space (s : string) : string :=
  match s with
  | String c t =>
      match rstrip_space t with
      | EmptyString => if is_space c then EmptyString else String c EmptyString
      | t' => String c t'
      end
  | EmptyString => EmptyString
  end.

(** What came just before in a decimal literal. *)
Inductive lit_state : Type := AtStart | AfterDigit | AfterUnderscore.

(** Digits with single underscores between them; the literal ends on a
    digit. *)
Fixpoint digits (st : lit_state) (acc : Z) (s : string) : option Z :=
  match s with
  | EmptyString =>
      match st with AfterDigit => Some acc | _ => None end
  | String c t =>
      if PyStr.is_digit c then
        digits AfterDigit (acc * 10 + Z.of_nat (PyStr.code c - 48)) t
      else if Ascii.eqb c "_" then
        match st with
        | AfterDigit => digits AfterUnderscore acc t
        | _ => None
        end
      else None
  end.

(** [int(s)] in base ten for a text literal. *)
Definition parse_int (s : string) : option Z :=
  match rstrip_space (lstrip_space s) with
  | String "-" t => option_map Z.opp (digits AtStart 0%Z t)
  | String "+" t => digits AtStart 0%Z t
  | t => digits AtStart 0%Z t
  end.

(** [int(v)] *)
Definition py_int (v : pyval) : result Z :=
  match v with
  | PyNone => Raise TypeError
  | PyStr s | PyBytes s =>
      match parse_int s with
      | Some z => Ok z
      | None => Raise ValueError
      end
  | PyInt z => Ok z
  | PyBool b => Ok (if b then 1%Z else 0%Z)
  end.

End PyVal.
Export PyVal.

(* ------------------------------------------------------------------ *)
(** ** src/common_types.py *)

Module CommonTypes.

Record GnmiPaths : Type := mkGnmiPaths {
  xpath_list : list string;
  datamodels : list string;
  origin : string;
  target : string
}.

Record GnmiMetric : Type := mkGnmiMetric {
  labelval : list pyval;
  val : pyval;
  ts : Z
}.

(** [GnmiMetric()] *)
Definition GnmiMetric_default : GnmiMetric := mkGnmiMetric [] (PyInt 0) 0%Z.

Inductive GnmiMetricType : Type := UNKNOWN | COUNTER | GAUGE.

Definition GnmiMetricType_eqb (a b : GnmiMetricType) : bool :=
  match a, b with
  | UNKNOWN, UNKNOWN | COUNTER, COUNTER | GAUGE, GAUGE => true
  | _, _ => false
  end.

Record GnmiMetricBundle : Type := mkGnmiMetricBundle {
  type : GnmiMetricType;
  device_name : string;
  metric_name : string;
  documentation : string;
  labelset : list string;
  metrics : list GnmiMetric
}.

Definition set_metrics (b : GnmiMetricBundle) (ms : list GnmiMetric)
  : GnmiMetricBundle :=
  mkGnmiMetricBundle (type b) (device_name b) (metric_name b)
                     (documentation b) (labelset b) ms.

(** [GnmiMetricBundle.is_valid]; the isinstance test on [metric_name] is
    settled by the field's type. *)
Definition is_valid (self : GnmiMetricBundle) : bool :=
  if String.eqb (device_name self) ""
     || String.eqb (metric_name self) ""
     || GnmiMetricType_eqb (type self) UNKNOWN
  then false
  else forallb (fun mt => List.length (labelval mt) =? List.length (labelset self))
               (metrics self).

End CommonTypes.
Export CommonTypes.

(* ------------------------------------------------------------------ *)
(** ** gnmi_pb2: the fields of the protocol messages the code reads *)

Module Gnmi.

Record Update : Type := mkUpdate {
  upd_path : Utils.Path;
  upd_val : option pyval;     (* the member of the oneof that is set *)
  upd_duplicates : Z
}.

Record Notification : Type := mkNotification {
  nf_timestamp : Z;
  nf_atomic : bool;
  nf_prefix : Utils.Path;
  nf_update : list Update;
  nf_delete : list Utils.Path
}.

(** [SubscribeResponse]: the member of the oneof [response] that is set.
    [HasField('update')] holds for the first constructor only and
    [HasField('sync_response')] for the second only; the third stands for a
    message with the deprecated error member or with no member set. *)
Inductive SubscribeResponse : Type :=
| sr_update (update : Notification)
| sr_sync_response (sync_response : bool)
| sr_other.

End Gnmi.
Export Gnmi.

(* ------------------------------------------------------------------ *)
(** ** [list.sort(key=...)]: stable, ascending *)

Section SortByKey.
Variable A : Type.
Variable key : A -> Z.

Fixpoint insert_by_key (x : A) (l : list A) : list A :=
  match l with
  | [] => [x]
  | y :: l' =>
      if (key x <=? key y)%Z then x :: y :: l' else y :: insert_by_key x l'
  end.

Fixpoint sort_by_key (l : list A) : list A :=
  match l with
  | [] => []
  | x :: l' => insert_by_key x (sort_by_key l')
  end.
End SortByKey.

(* ------------------------------------------------------------------ *)
(** ** src/plugins/base_plug.py *)

Module BasePlug.

(** [_GnmiMessage] *)
Record GnmiMessage : Type := mkGnmiMessage {
  timestamp : Z;
  atomic : bool;
  path : list string;
  path_keys : list (Dict.t string)
}.

Definition scan_gnmi_path (self : GnmiMessage) (p : Utils.Path) : GnmiMessage :=
  mkGnmiMessage (timestamp self) (atomic self)
                (path self ++ map Utils.name (Utils.elem p))
                (path_keys self ++ map Utils.key (Utils.elem p)).

(** [_GnmiMessage.__init__] *)
Definition GnmiMessage_init (nf : Notification) : GnmiMessage :=
  scan_gnmi_path (mkGnmiMessage (nf_timestamp nf) (nf_atomic nf) [] [])
                 (nf_prefix nf).

Definition get_path_key (self : GnmiMessage) (index : nat) (name : string)
  : string :=
  match nth_error (path_keys self) index with
  | Some d =>
      match Dict.get name d with
      | Some v => v
      | None => "not_available"          (* KeyError *)
      end
  | None => "not_available"              (* IndexError *)
  end.

(** [GnmiUpdate] extends [_GnmiMessage]. *)
Record GnmiUpdate : Type := mkGnmiUpdate {
  msg : GnmiMessage;
  val : pyval;
  duplicates : Z
}.

(** [GnmiDelete] extends [_GnmiMessage] without a field of its own. *)
Definition GnmiDelete : Type := GnmiMessage.

Definition GnmiUpdate_init (nf : Notification) : GnmiUpdate :=
  mkGnmiUpdate (GnmiMessage_init nf) PyNone 0%Z.

(** [WhichOneof] returns [None] when no member is set, and [getattr] with
    that name raises [TypeError]. *)
Definition new_upd_msg (self : GnmiUpdate) (upd_msg : Update)
  : result GnmiUpdate :=
  let m := scan_gnmi_path (msg self) (upd_path upd_msg) in
  match upd_val upd_msg with
  | Some v => Ok (mkGnmiUpdate m v (upd_duplicates upd_msg))
  | None => Raise TypeError
  end.

Definition new_del_msg (self : GnmiDelete) (del_msg : Utils.Path)
  : GnmiDelete :=
  scan_gnmi_path self del_msg.

Record BasePluginConfig : Type := mkBasePluginConfig {
  instance_name : string;
  dev_name : string;
  metric_prefix : string
}.

Record BasePlugin : Type := mkBasePlugin {
  config : BasePluginConfig;
  _buffer : list Notification;
  _on_sync : bool;
  update_list : list GnmiUpdate;
  delete_list : list GnmiDelete
}.

Definition set_buffer (self : BasePlugin) (b : list Notification) : BasePlugin :=
  mkBasePlugin (config self) b (_on_sync self)
               (update_list self) (delete_list self).

Definition set_on_sync (self : BasePlugin) (s : bool) : BasePlugin :=
  mkBasePlugin (config self) (_buffer self) s
               (update_list self) (delete_list self).

Definition set_lists (self : BasePlugin) (ul : list GnmiUpdate)
           (dl : list GnmiDelete) : BasePlugin :=
  mkBasePlugin (config self) (_buffer self) (_on_sync self) ul dl.

(** [_parse_config]; a configuration dictionary is a [Dict.t string]. *)
Definition _parse_config (global_cfg device_cfg : Dict.t string)
  : BasePluginConfig :=
  let pick k d (dflt : string) :=
    match Dict.get k d with Some v => v | None => dflt end in
  mkBasePluginConfig (pick "instance_name" global_cfg "default")
                     (pick "name" device_cfg "default")
                     (pick "metric_prefix" global_cfg "gnmi").

(** [BasePlugin.__init__], the registration with the exporter apart (it is
    in [GnmiClient_init]). *)
Definition BasePlugin_init (global_cfg device_cfg : Dict.t string)
  : BasePlugin :=
  mkBasePlugin (_parse_config global_cfg device_cfg) [] false [] [].

Definition gnmi_notification_handler (self : BasePlugin) (m : Notification)
  : BasePlugin :=
  set_buffer self (_buffer self ++ [m]).

Definition set_sync_status (self : BasePlugin) (on_sync : bool) : BasePlugin :=
  let self1 :=
    if negb on_sync && _on_sync self then set_buffer self [] else self in
  set_on_sync self1 on_sync.

(** The loop over [nf.update]. *)
Fixpoint upd_loop (g_update : GnmiUpdate) (ups : list Update)
         (ul : list GnmiUpdate) : list GnmiUpdate * result unit :=
  match ups with
  | [] => (ul, Ok tt)
  | nf_upd :: ups' =>
      match new_upd_msg g_update nf_upd with
      | Ok m => upd_loop g_update ups' (ul ++ [m])
      | Raise e => (ul, Raise e)
      end
  end.

(** The loop over [nf.delete]. *)
Definition del_loop (g_delete : GnmiDelete) (dels : list Utils.Path)
           (dl : list GnmiDelete) : list GnmiDelete :=
  dl ++ map (new_del_msg g_delete) dels.

(** The loop over the drained notifications. *)
Fixpoint nf_loop (nf_buf : list Notification) (ul : list GnmiUpdate)
         (dl : list GnmiDelete)
  : list GnmiUpdate * list GnmiDelete * result unit :=
  match nf_buf with
  | [] => (ul, dl, Ok tt)
  | nf :: nf_buf' =>
      match upd_loop (GnmiUpdate_init nf) (nf_update nf) ul with
      | (ul1, Ok _) =>
          nf_loop nf_buf' ul1 (del_loop (GnmiMessage_init nf) (nf_delete nf) dl)
      | (ul1, Raise e) => (ul1, dl, Raise e)
      end
  end.

(** The critical section of [checkout]: what is taken out of the buffer,
    and the plugin it leaves. *)
Definition drain (self : BasePlugin) : list Notification * BasePlugin :=
  if _on_sync self then (_buffer self, set_buffer self []) else ([], self).

Definition upd_ts (m : GnmiUpdate) : Z := timestamp (msg m).

Definition checkout (self : BasePlugin) : BasePlugin * result unit :=
  let self0 := set_lists self [] [] in
  let '(nf_buf, self1) := drain self0 in
  match nf_loop nf_buf [] [] with
  | (ul, dl, Ok _) =>
      (set_lists self1 (sort_by_key upd_ts ul) (sort_by_key timestamp dl),
       Ok tt)
  | (ul, dl, Raise e) => (set_lists self1 ul dl, Raise e)
  end.

End BasePlug.

(* ------------------------------------------------------------------ *)
(** ** src/plugins/oc_interfaces/oc_if.py *)

Module OcIf.
Import BasePlug.

Definition _DATA_MODEL : string := "openconfig-interfaces".

Definition _PATHS_TO_SUBSCRIBE : GnmiPaths :=
  mkGnmiPaths ["/interfaces/interface/state";
               "/interfaces/interface/subinterfaces/subinterface/state"]
              [_DATA_MODEL] "openconfig" "oc_interfaces".

Definition _PLUGIN_LABEL_SET : list string :=
  ["instance-name"; "data-model"; "device"].
Definition _SUBIFACE_LABEL_SET : list string :=
  ["name"; "index"; "mtu"; "description"; "ifindex"; "admin-status";
   "oper-status"].
Definition _SUBIFACE_METRIC_SET : list string :=
  ["in-octets"; "in-pkts"; "in-unicast-pkts"; "in-broadcast-pkts";
   "in-multicast-pkts"; "in-errors"; "in-discards"; "out-octets"; "out-pkts";
   "out-unicast-pkts"; "out-broadcast-pkts"; "out-multicast-pkts";
   "out-discards"; "out-errors"; "last-clear"; "last-change";
   "in-unknown-protos"; "in-fcs-errors"; "carrier-transitions"].
Definition _IFACE_LABEL_SET : list string :=
  ["name"; "mtu"; "description"; "ifindex"; "admin-status"; "oper-status"].
Definition _IFACE_METRIC_SET : list string :=
  _SUBIFACE_METRIC_SET ++ ["resets"].

Definition _IFACE_PATH_NAME : nat * string := (1, "name").
Definition _SUBIFACE_PATH_INDEX : nat * string := (3, "index").

(** *** IfaceTable *)

Definition IfaceTable : Type := Dict.t (Dict.t pyval).

Definition add_table_entry (table : IfaceTable) (if_full_name : string)
           (label_tpl metric_tpl : list string) : IfaceTable :=
  if Dict.mem if_full_name table then table
  else
    let row0 : Dict.t pyval := [("name", PyStr "")] in
    let row1 := fold_left (fun row label => Dict.set label (PyStr "") row)
                          label_tpl row0 in
    let row2 := fold_left (fun row metric => Dict.set metric (PyInt 0) row)
                          metric_tpl row1 in
    Dict.set if_full_name row2 table.

Definition update_table_entry (table : IfaceTable)
           (if_full_name entry_name : string) (entry_val : pyval)
  : IfaceTable :=
  match Dict.get if_full_name table with
  | Some row => Dict.set if_full_name (Dict.set entry_name entry_val row) table
  | None => table                                   (* KeyError, logged *)
  end.

Definition items (table : IfaceTable) : list string := Dict.keys table.

Definition get_entry (table : IfaceTable) (if_name entry_name : string)
  : pyval :=
  match Dict.get if_name table with
  | Some row =>
      match Dict.get entry_name row with
      | Some v => v
      | None => PyStr " "
      end
  | None => PyStr " "
  end.

(** *** MetricTable *)

Definition MetricTable : Type := Dict.t (list GnmiMetric).

Definition add_metric (table : MetricTable) (name : string)
           (metric : GnmiMetric) : MetricTable :=
  match Dict.get name table with
  | Some l => Dict.set name (l ++ [metric]) table
  | None => Dict.set name [metric] table
  end.

Definition get_metrics (table : MetricTable) (name : string)
  : list GnmiMetric :=
  match Dict.get name table with
  | Some l => l
  | None => [GnmiMetric_default]                    (* KeyError, logged *)
  end.

(** *** OcInterfaces *)

Record OcInterfaces : Type := mkOcInterfaces {
  base : BasePlugin;
  iface_table : IfaceTable;
  subiface_table : IfaceTable;
  iface_metrics_table : MetricTable;
  subiface_metrics_table : MetricTable;
  bundle_list : list GnmiMetricBundle
}.

Definition OcInterfaces_init (global_cfg device_cfg : Dict.t string)
  : OcInterfaces :=
  mkOcInterfaces (BasePlugin_init global_cfg device_cfg) [] [] [] [] [].

Definition get_paths (self : OcInterfaces) : GnmiPaths := _PATHS_TO_SUBSCRIBE.

Definition set_base (self : OcInterfaces) (b : BasePlugin) : OcInterfaces :=
  mkOcInterfaces b (iface_table self) (subiface_table self)
                 (iface_metrics_table self) (subiface_metrics_table self)
                 (bundle_list self).

Definition set_tables (self : OcInterfaces) (it st : IfaceTable)
  : OcInterfaces :=
  mkOcInterfaces (base self) it st
                 (iface_metrics_table self) (subiface_metrics_table self)
                 (bundle_list self).

Definition set_metric_tables (self : OcInterfaces) (im sm : MetricTable)
  : OcInterfaces :=
  mkOcInterfaces (base self) (iface_table self) (subiface_table self)
                 im sm (bundle_list self).

Definition set_bundle_list (self : OcInterfaces)
           (bl : list GnmiMetricBundle) : OcInterfaces :=
  mkOcInterfaces (base self) (iface_table self) (subiface_table self)
                 (iface_metrics_table self) (subiface_metrics_table self) bl.

(** The methods inherited from the base plugin. *)
Definition gnmi_notification_handler (self : OcInterfaces) (m : Notification)
  : OcInterfaces :=
  set_base self (BasePlug.gnmi_notification_handler (base self) m).

Definition set_sync_status (self : OcInterfaces) (on_sync : bool)
  : OcInterfaces :=
  set_base self (BasePlug.set_sync_status (base self) on_sync).

Definition clear_all_tables (self : OcInterfaces) : OcInterfaces :=
  mkOcInterfaces (base self) [] [] [] [] [].

Definition iface_fullname (update : GnmiUpdate) : string :=
  get_path_key (msg update) (fst _IFACE_PATH_NAME) (snd _IFACE_PATH_NAME).

Definition subiface_fullname (update : GnmiUpdate) : string :=
  PyStr.join
    [get_path_key (msg update) (fst _IFACE_PATH_NAME) (snd _IFACE_PATH_NAME);
     ".";
     get_path_key (msg update) (fst _SUBIFACE_PATH_INDEX)
                  (snd _SUBIFACE_PATH_INDEX)].

(** The body of the loop of [build_tables]; both [re.fullmatch] patterns
    are plain text, so they hold on equal strings only. *)
Definition build_tables_step (tabs : IfaceTable * IfaceTable)
           (update : GnmiUpdate) : IfaceTable * IfaceTable :=
  let path_str := PyStr.join (path (msg update)) in
  let it :=
    if String.eqb path_str "interfacesinterfacestatename" then
      add_table_entry (fst tabs) (iface_fullname update)
                      _IFACE_LABEL_SET _IFACE_METRIC_SET
    else fst tabs in
  let st :=
    if String.eqb path_str
         "interfacesinterfacesubinterfacessubinterfacestatename" then
      add_table_entry (snd tabs) (subiface_fullname update)
                      _SUBIFACE_LABEL_SET _SUBIFACE_METRIC_SET
    else snd tabs in
  (it, st).

Definition build_tables (self : OcInterfaces) : OcInterfaces :=
  let '(it, st) :=
    fold_left build_tables_step (update_list (base self))
              (iface_table self, subiface_table self) in
  set_tables self it st.

(** [update.path[-1]]; it is read only after a non-empty pattern matched
    the joined path, so the path has an element. *)
Definition leaf (update : GnmiUpdate) : string :=
  last (path (msg update)) EmptyString.

(** What one half of the loop body of [update_tables] does. *)
Inductive flow (A : Type) : Type :=
| Next (a : A)        (* fall through to the rest of the body *)
| Continue            (* [continue] *)
| Abort (e : exn).    (* the exception leaves the method *)
Arguments Next {A} a.
Arguments Continue {A}.
Arguments Abort {A} e.

Definition iface_half (it : IfaceTable) (update : GnmiUpdate)
  : flow IfaceTable :=
  let path_str := PyStr.join (path (msg update)) in
  if PyStr.startswith "interfacesinterfacestate" path_str then
    if PyStr.mem (leaf update) _IFACE_LABEL_SET then
      Next (update_table_entry it (iface_fullname update) (leaf update)
                               (PyStr (py_str (val update))))
    else if PyStr.mem (leaf update) _IFACE_METRIC_SET then
      match py_int (val update) with
      | Ok z => Next (update_table_entry it (iface_fullname update)
                                         (leaf update) (PyInt z))
      | Raise e => Abort e
      end
    else Continue
  else Next it.

Definition subiface_half (st : IfaceTable) (update : GnmiUpdate)
  : flow IfaceTable :=
  let path_str := PyStr.join (path (msg update)) in
  if PyStr.startswith "interfacesinterfacesubinterfacessubinterfacestate"
                      path_str then
    if PyStr.mem (leaf update) _SUBIFACE_LABEL_SET then
      let value :=
        if String.eqb (leaf update) "name" then iface_fullname update
        else py_str (val update) in
      Next (update_table_entry st (subiface_fullname update) (leaf update)
                               (PyStr value))
    else if PyStr.mem (leaf update) _SUBIFACE_METRIC_SET then
      match py_int (val update) with
      | Ok z => Next (update_table_entry st (subiface_fullname update)
                                         (leaf update) (PyInt z))
      | Raise e => Abort e
      end
    else Continue
  else Next st.

(** The loop of [update_tables]: the tables as far as they got, and how
    the loop ended. *)
Fixpoint update_tables_loop (ups : list GnmiUpdate) (it st : IfaceTable)
  : IfaceTable * IfaceTable * result unit :=
  match ups with
  | [] => (it, st, Ok tt)
  | update :: ups' =>
      match iface_half it update with
      | Abort e => (it, st, Raise e)
      | Continue => update_tables_loop ups' it st
      | Next it1 =>
          match subiface_half st update with
          | Abort e => (it1, st, Raise e)
          | Continue => update_tables_loop ups' it1 st
          | Next st1 => update_tables_loop ups' it1 st1
          end
      end
  end.

Definition update_tables (self : OcInterfaces) : OcInterfaces * result unit :=
  let '(it, st, r) :=
    update_tables_loop (update_list (base self))
                       (iface_table self) (subiface_table self) in
  (set_tables self it st, r).

(** One metric of [build_metrics]: the three plugin labels, the labels of
    the interface, its value, and the clock reading. *)
Definition build_metric (cfg : BasePluginConfig) (table : IfaceTable)
           (label_set : list string) (metric iface : string) (now : Z)
  : GnmiMetric :=
  mkGnmiMetric
    ([PyStr (instance_name cfg); PyStr _DATA_MODEL; PyStr (dev_name cfg)]
       ++ map (fun label => get_entry table iface label) label_set)
    (get_entry table iface metric) now.

(** The inner loop over the interfaces; [n] counts the clock readings. *)
Fixpoint build_metrics_ifaces (clk : nat -> Z) (cfg : BasePluginConfig)
         (table : IfaceTable) (label_set : list string) (metric : string)
         (ifaces : list string) (mt : MetricTable) (n : nat)
  : MetricTable * nat :=
  match ifaces with
  | [] => (mt, n)
  | iface :: ifaces' =>
      build_metrics_ifaces clk cfg table label_set metric ifaces'
        (add_metric mt metric
                    (build_metric cfg table label_set metric iface (clk n)))
        (S n)
  end.

(** The outer loop over the metric names. *)
Fixpoint build_metrics_names (clk : nat -> Z) (cfg : BasePluginConfig)
         (table : IfaceTable) (label_set : list string)
         (names : list string) (mt : MetricTable) (n : nat)
  : MetricTable * nat :=
  match names with
  | [] => (mt, n)
  | metric :: names' =>
      let '(mt1, n1) :=
        build_metrics_ifaces clk cfg table label_set metric (items table)
                             mt n in
      build_metrics_names clk cfg table label_set names' mt1 n1
  end.

Definition build_metrics (clk : nat -> Z) (self : OcInterfaces)
  : OcInterfaces :=
  let cfg := config (base self) in
  let '(im, n1) :=
    build_metrics_names clk cfg (iface_table self) _IFACE_LABEL_SET
                        _IFACE_METRIC_SET (iface_metrics_table self) 0 in
  let '(sm, _) :=
    build_metrics_names clk cfg (subiface_table self) _SUBIFACE_LABEL_SET
                        _SUBIFACE_METRIC_SET (subiface_metrics_table self)
                        n1 in
  set_metric_tables self im sm.

Definition make_label_set (labels : list string) : list string :=
  map (PyStr.replace "-" "_") labels.

Definition make_bundle (cfg : BasePluginConfig) (infix : string)
           (label_set : list string) (table : MetricTable) (name : string)
  : GnmiMetricBundle :=
  mkGnmiMetricBundle COUNTER (dev_name cfg)
    (PyStr.join [metric_prefix cfg; infix; PyStr.replace "-" "_" name])
    "" label_set (get_metrics table name).

Definition build_bundle_list (self : OcInterfaces) : OcInterfaces :=
  let cfg := config (base self) in
  let iface_bundles :=
    map (make_bundle cfg "_iface_"
           (make_label_set (_PLUGIN_LABEL_SET ++ _IFACE_LABEL_SET))
           (iface_metrics_table self)) _IFACE_METRIC_SET in
  let subiface_bundles :=
    map (make_bundle cfg "_subiface_"
           (make_label_set (_PLUGIN_LABEL_SET ++ _SUBIFACE_LABEL_SET))
           (subiface_metrics_table self)) _SUBIFACE_METRIC_SET in
  set_bundle_list self (bundle_list self ++ iface_bundles ++ subiface_bundles).

(** What [fetch_metric_bundles] hands back: a new empty list, or the
    plugin's own [bundle_list] object, which the next call clears in
    place. *)
Inductive returned : Type :=
| FreshEmpty
| SelfBundleList.

(** The contents of the returned list, read in the plugin state [self]. *)
Definition contents (self : OcInterfaces) (r : returned)
  : list GnmiMetricBundle :=
  match r with
  | FreshEmpty => []
  | SelfBundleList => bundle_list self
  end.

Definition fetch_metric_bundles (clk : nat -> Z) (self : OcInterfaces)
  : OcInterfaces * result returned :=
  let self1 := clear_all_tables self in
  match checkout (base self1) with
  | (b, Raise e) => (set_base self1 b, Raise e)
  | (b, Ok _) =>
      let self2 := set_base self1 b in
      match update_list (base self2) with
      | [] => (self2, Ok FreshEmpty)
      | _ :: _ =>
          let self3 := build_tables self2 in
          match update_tables self3 with
          | (self4, Raise e) => (self4, Raise e)
          | (self4, Ok _) =>
              let self5 := build_metrics clk self4 in
              let self6 := build_bundle_list self5 in
              (self6, Ok SelfBundleList)
          end
      end
  end.

(** The method as the collector calls it: the contents of the list it is
    handed, read when the call returns. *)
Definition fetch_metric_bundles_contents (clk : nat -> Z) (self : OcInterfaces)
  : OcInterfaces * result (list GnmiMetricBundle) :=
  let '(self', r) := fetch_metric_bundles clk self in
  (self', match r with
          | Ok ret => Ok (contents self' ret)
          | Raise e => Raise e
          end).

End OcIf.

(* ------------------------------------------------------------------ *)
(** ** src/exporter/promexp.py

    The collector is written against the [Plugin] protocol: any object with
    a [fetch_metric_bundles] method.  The bundles a plugin returns are taken
    as distinct objects with lists of their own, which is how the plugin of
    this repository builds them. *)

Module PromExp.

Record PromClientConfig : Type := mkPromClientConfig {
  instance_name : string;
  listen_address : string;
  listen_port : Z;
  metric_prefix : string
}.

Definition _parse_config (global_cfg : Dict.t string)
  : result PromClientConfig :=
  let pick k (dflt : string) :=
    match Dict.get k global_cfg with Some v => v | None => dflt end in
  port <- match Dict.get "listen_port" global_cfg with
          | Some v => py_int (PyStr v)
          | None => Ok 9456%Z
          end ;;
  Ok (mkPromClientConfig (pick "instance_name" "default")
                         (pick "listen_address" "0.0.0.0")
                         port
                         (pick "metric_prefix" "gnmi")).

Section WithPlugin.
Variable Plugin : Type.
Variable fetch_metric_bundles :
  Plugin -> Plugin * result (list GnmiMetricBundle).

Record PromClient : Type := mkPromClient {
  _config : PromClientConfig;
  _plugin_list : list Plugin;
  _bundle_table : Dict.t GnmiMetricBundle;
  _collected_devices : nat;
  _collected_plugins : nat
}.

Definition PromClient_init (global_cfg : Dict.t string) : result PromClient :=
  cfg <- _parse_config global_cfg ;;
  Ok (mkPromClient cfg [] [] 0 0).

Definition register_plugin (self : PromClient) (plug : Plugin) : PromClient :=
  mkPromClient (_config self) (_plugin_list self ++ [plug])
               (_bundle_table self)
               (_collected_devices self) (_collected_plugins self).

Definition unregister_all (self : PromClient) : PromClient :=
  mkPromClient (_config self) [] (_bundle_table self)
               (_collected_devices self) (_collected_plugins self).

(** [asyncio.gather] over coroutines that never suspend: every plugin is
    queried, in the order of the list, and the first exception, if any,
    is the one that reaches the caller. *)
Fixpoint gather (ps : list Plugin)
  : list Plugin * result (list (list GnmiMetricBundle)) :=
  match ps with
  | [] => ([], Ok [])
  | p :: ps' =>
      let '(p1, r) := fetch_metric_bundles p in
      let '(ps1, rs) := gather ps' in
      (p1 :: ps1, (x <- r ;; xs <- rs ;; Ok (x :: xs)))
  end.

(** The test that opens the walk over one plugin's answer. *)
Definition returned_something (plugin : list GnmiMetricBundle) : bool :=
  match plugin with
  | b :: _ => is_valid b
  | [] => false
  end.

(** The body of the loop over the bundles of one answer. *)
Definition bundle_step (st : Dict.t GnmiMetricBundle * list string)
           (bundle : GnmiMetricBundle)
  : Dict.t GnmiMetricBundle * list string :=
  let '(table, device_names) := st in
  if is_valid bundle then
    (match Dict.get (metric_name bundle) table with
     | None => Dict.set (metric_name bundle) bundle table
     | Some b0 =>
         Dict.set (metric_name bundle)
                  (set_metrics b0 (metrics b0 ++ metrics bundle)) table
     end,
     ListSet.set_add string_dec (device_name bundle) device_names)
  else st.

(** The counters and the table while the answers are walked. *)
Record walk : Type := mkWalk {
  w_table : Dict.t GnmiMetricBundle;
  w_devices : nat;
  w_plugins : nat
}.

(** The body of the loop over the answers. *)
Definition response_step (w : walk) (plugin : list GnmiMetricBundle) : walk :=
  if returned_something plugin then
    let '(table, device_names) :=
      fold_left bundle_step plugin (w_table w, ListSet.empty_set string) in
    mkWalk table (List.length device_names) (S (w_plugins w))
  else w.

Definition _query_plugins (self : PromClient) : PromClient * result unit :=
  match _plugin_list self with
  | [] =>
      (mkPromClient (_config self) [] (_bundle_table self) 0 0, Ok tt)
  | _ :: _ =>
      match gather (_plugin_list self) with
      | (ps, Raise e) =>
          (mkPromClient (_config self) ps (_bundle_table self) 0 0, Raise e)
      | (ps, Ok response) =>
          let w := fold_left response_step response
                             (mkWalk (_bundle_table self) 0 0) in
          (mkPromClient (_config self) ps (w_table w)
                        (w_devices w) (w_plugins w), Ok tt)
      end
  end.

Definition stat_bundle (self : PromClient) (suffix documentation : string)
           (v : nat) (now : Z) : GnmiMetricBundle :=
  mkGnmiMetricBundle GAUGE ""
    (metric_prefix (_config self) ++ suffix) documentation
    ["instance_name"]
    [mkGnmiMetric [PyStr (instance_name (_config self))]
                  (PyInt (Z.of_nat v)) now].

Definition set_table (self : PromClient) (t : Dict.t GnmiMetricBundle)
  : PromClient :=
  mkPromClient (_config self) (_plugin_list self) t
               (_collected_devices self) (_collected_plugins self).

Definition put (self : PromClient) (k : string) (g : GnmiMetricBundle)
  : PromClient :=
  set_table self (Dict.set k g (_bundle_table self)).

Definition _compute_stats (clk : nat -> Z) (self : PromClient) : PromClient :=
  let self1 :=
    put self "configured_devices"
        (stat_bundle self "_configured_devices"
           "Number of configured devices"
           (List.length (_plugin_list self)) (clk 0)) in
  let self2 :=
    put self1 "collected_devices"
        (stat_bundle self1 "_collected_devices"
           "Number of actively monitored devices"
           (_collected_devices self1) (clk 1)) in
  let self3 :=
    put self2 "collected_plugins"
        (stat_bundle self2 "_collected_plugins"
           "Number of actively monitored plugin instances"
           (_collected_plugins self2) (clk 2)) in
  let self4 :=
    put self3 "collected_metrics"
        (stat_bundle self3 "_collected_metrics"
           "Number of collected metrics"
           (List.length (_bundle_table self3) + 1) (clk 3)) in
  let collected_series :=
    fold_left (fun acc metric => acc + List.length (metrics metric))
              (Dict.values (_bundle_table self4)) 0 in
  put self4 "collected_series"
      (stat_bundle self4 "_collected_series"
         "Number of collected series" collected_series (clk 4)).

(** [collect] up to its export loop: the collector as the loop leaves it when
    it has run through, and the bundles the loop turns into metric families,
    in the order of the table.  A COUNTER bundle becomes a counter family
    with [float()] applied to every value, a GAUGE bundle a gauge family
    with every value as it is; an UNKNOWN bundle is passed over. *)
Definition collect (clk : nat -> Z) (self : PromClient)
  : PromClient * result (list GnmiMetricBundle) :=
  match _query_plugins self with
  | (self1, Raise e) => (self1, Raise e)
  | (self1, Ok _) =>
      let self2 := _compute_stats clk self1 in
      (set_table self2 [],
       Ok (filter (fun bundle =>
                     negb (GnmiMetricType_eqb (type bundle) UNKNOWN))
                  (Dict.values (_bundle_table self2))))
  end.

(** *** The mutex of the collector

    [register_plugin] and [unregister_all] hold the mutex in a [with]
    block; [_query_plugins] takes it with [acquire] before it queries the
    plugins of a list that is not empty and gives it back with [release]
    when [gather] has returned, so an exception of [gather] leaves the
    function with the mutex taken.  [locked] says whether the mutex is
    taken when the call starts; the result is [None] for a call that waits
    for the mutex, which no thread gives back, and else the state of the
    mutex after the call with what the call does. *)
Definition _query_plugins_locking (locked : bool) (self : PromClient)
  : option (bool * (PromClient * result unit)) :=
  match _plugin_list self with
  | [] => Some (locked, _query_plugins self)
  | _ :: _ =>
      if locked then None
      else Some (match snd (gather (_plugin_list self)) with
                 | Raise _ => true
                 | Ok _ => false
                 end,
                 _query_plugins self)
  end.

Definition collect_locking (clk : nat -> Z) (locked : bool)
           (self : PromClient)
  : option (bool * (PromClient * result (list GnmiMetricBundle))) :=
  match _query_plugins_locking locked self with
  | None => None
  | Some (locked', _) => Some (locked', collect clk self)
  end.

Definition register_plugin_locking (locked : bool) (self : PromClient)
           (plug : Plugin) : option PromClient :=
  if locked then None else Some (register_plugin self plug).

Definition unregister_all_locking (locked : bool) (self : PromClient)
  : option PromClient :=
  if locked then None else Some (unregister_all self).

End WithPlugin.

End PromExp.

(* ------------------------------------------------------------------ *)
(** ** src/gnmi_client/client.py: configuration, plugin loading and the
       capability check *)

Module Client.

Inductive _EncodingTypes : Type := JSON | BYTES | PROTO | ASCII | JSON_IETF.

Definition value (e : _EncodingTypes) : Z :=
  match e with
  | JSON => 0 | BYTES => 1 | PROTO => 2 | ASCII => 3 | JSON_IETF => 4
  end%Z.

Definition name (e : _EncodingTypes) : string :=
  match e with
  | JSON => "JSON" | BYTES => "BYTES" | PROTO => "PROTO" | ASCII => "ASCII"
  | JSON_IETF => "JSON_IETF"
  end.

Definition _PREFERRED_ENCODINGS : list _EncodingTypes :=
  [PROTO; JSON; JSON_IETF; ASCII].

Record _GnmiClientConfig : Type := mkGnmiClientConfig {
  scrape_interval : Z;
  oversampling : Z;
  wd_multiplier : Z;
  force_encoding : string;
  bypass_msg_routing : bool;
  dev_name : string;
  ip : string;
  port : Z;
  user : string;
  password : string;
  plugins : list string
}.

(** A device entry as [App._parse_raw_cfg] leaves it: every value is a
    string, but ['plugins'], which is a set of names (listed here in the
    order the set is iterated, so without a repeated name). *)
Record DeviceCfg : Type := mkDeviceCfg {
  dc_entries : Dict.t string;
  dc_plugins : list string
}.

Definition _parse_config (global_cfg : Dict.t string) (device_cfg : DeviceCfg)
  : result _GnmiClientConfig :=
  let int_of k d (dflt : Z) :=
    match Dict.get k d with Some v => py_int (PyStr v) | None => Ok dflt end in
  let str_of k d (dflt : string) :=
    match Dict.get k d with Some v => v | None => dflt end in
  let nonempty_of k d (dflt : string) :=
    match Dict.get k d with
    | Some v => if String.eqb v "" then dflt else v
    | None => dflt
    end in
  let d := dc_entries device_cfg in
  si <- int_of "scrape_interval" global_cfg 60%Z ;;
  os <- int_of "oversampling" global_cfg 2%Z ;;
  wd <- int_of "wd_multiplier" global_cfg 3%Z ;;
  pt <- int_of "port" d 0%Z ;;
  Ok (mkGnmiClientConfig si os wd
        (str_of "force_encoding" d "")
        (match Dict.get "bypass_msg_routing" d with
         | Some v => negb (String.eqb v "")
         | None => false
         end)
        (nonempty_of "name" d "default")
        (nonempty_of "ip" d "")
        pt
        (str_of "user" d "")
        (str_of "password" d "")
        (dc_plugins device_cfg)).

Record GnmiClient : Type := mkGnmiClient {
  _config : _GnmiClientConfig;
  _exit : bool;
  _plugin_table : Dict.t OcIf.OcInterfaces;
  _path_list : list GnmiPaths;
  _selected_encoding : _EncodingTypes
}.

Definition Exporter : Type := PromExp.PromClient OcIf.OcInterfaces.

(** The loop of [__init__] that loads the plugins: a plugin registers
    itself with the exporter when it is constructed. *)
Fixpoint load_plugins (global_cfg : Dict.t string) (device_cfg : DeviceCfg)
         (names : list string) (table : Dict.t OcIf.OcInterfaces)
         (paths : list GnmiPaths) (exporter : Exporter)
  : Dict.t OcIf.OcInterfaces * list GnmiPaths * Exporter :=
  match names with
  | [] => (table, paths, exporter)
  | plugin :: names' =>
      if String.eqb plugin "oc_interfaces" then
        let p := OcIf.OcInterfaces_init global_cfg (dc_entries device_cfg) in
        load_plugins global_cfg device_cfg names'
                     (Dict.set plugin p table)
                     (paths ++ [OcIf.get_paths p])
                     (PromExp.register_plugin exporter p)
      else load_plugins global_cfg device_cfg names' table paths exporter
  end.

(** [GnmiClient.__init__] *)
Definition GnmiClient_init (global_cfg : Dict.t string)
           (device_cfg : DeviceCfg) (exporter : Exporter)
  : result (GnmiClient * Exporter) :=
  cfg <- _parse_config global_cfg device_cfg ;;
  let '(table, paths, exporter1) :=
    load_plugins global_cfg device_cfg (plugins cfg) [] [] exporter in
  Ok (mkGnmiClient cfg false table paths JSON, exporter1).

Record ModelData : Type := mkModelData {
  md_name : string;
  md_organization : string;
  md_version : string
}.

Record CapabilityResponse : Type := mkCapabilityResponse {
  supported_models : list ModelData;
  supported_encodings : list Z
}.

Definition set_selected (self : GnmiClient) (e : _EncodingTypes) : GnmiClient :=
  mkGnmiClient (_config self) (_exit self) (_plugin_table self)
               (_path_list self) e.

(** The test of the data models: the first required model the device does
    not list raises. *)
Definition models_supported (self : GnmiClient) (resp : CapabilityResponse)
  : bool :=
  forallb (fun plugin =>
             forallb (fun model =>
                        PyStr.mem model (map md_name (supported_models resp)))
                     (datamodels plugin))
          (_path_list self).

(** The loop of the forced branch: no [break], every match assigns. *)
Definition pick_forced (self : GnmiClient) : GnmiClient :=
  fold_left (fun s enc =>
               if String.eqb (name enc) (force_encoding (_config self))
               then set_selected s enc else s)
            _PREFERRED_ENCODINGS self.

(** The loop of the other branch: the first match assigns and breaks. *)
Fixpoint pick_supported (encs : list _EncodingTypes) (supported : list Z)
         (self : GnmiClient) : GnmiClient :=
  match encs with
  | [] => self
  | enc :: encs' =>
      if existsb (Z.eqb (value enc)) supported then set_selected self enc
      else pick_supported encs' supported self
  end.

(** [_check_caps]; [rpc] is what [stub.Capabilities] did: [None] stands for
    a [grpc.RpcError]. *)
Definition _check_caps (self : GnmiClient) (rpc : option CapabilityResponse)
  : GnmiClient * result unit :=
  match rpc with
  | None => (self, Raise DialError)
  | Some resp =>
      if negb (models_supported self resp) then (self, Raise DialError)
      else if negb (String.eqb (force_encoding (_config self)) "") then
        (pick_forced self, Ok tt)
      else
        (pick_supported _PREFERRED_ENCODINGS (supported_encodings resp) self,
         Ok tt)
  end.

Definition set_plugin_table (self : GnmiClient)
           (table : Dict.t OcIf.OcInterfaces) : GnmiClient :=
  mkGnmiClient (_config self) (_exit self) table (_path_list self)
               (_selected_encoding self).

(** [for plugin in self._plugin_table.values(): f(plugin)]: every plugin of
    the table is changed in place, the table keeps its keys and their
    order. *)
Definition for_each_plugin (f : OcIf.OcInterfaces -> OcIf.OcInterfaces)
           (table : Dict.t OcIf.OcInterfaces) : Dict.t OcIf.OcInterfaces :=
  map (fun kv => (fst kv, f (snd kv))) table.

(** [route_gnmi_sr]; the error that is logged for a target that is not a
    key of the table changes nothing. *)
Definition route_gnmi_sr (self : GnmiClient) (sr : SubscribeResponse)
  : GnmiClient :=
  match sr with
  | sr_update update =>
      if bypass_msg_routing (_config self) then
        set_plugin_table self
          (for_each_plugin (fun plugin =>
                              OcIf.gnmi_notification_handler plugin update)
                           (_plugin_table self))
      else
        let target := Utils.target (nf_prefix update) in
        match Dict.get target (_plugin_table self) with
        | Some plugin =>
            set_plugin_table self
              (Dict.set target (OcIf.gnmi_notification_handler plugin update)
                        (_plugin_table self))
        | None => self
        end
  | sr_sync_response sync_response =>
      set_plugin_table self
        (for_each_plugin (fun plugin =>
                            OcIf.set_sync_status plugin sync_response)
                         (_plugin_table self))
  | sr_other => self
  end.

(** *** _WatchDog

    The watchdog is an object shared by three threads: its own, which runs
    [run], the collector's, which calls [kick], and the session's, which
    calls [stop].  The thread of [run] is modelled by the place it has
    reached and moves in two kinds of steps, the test of the [while] and
    the wait with the critical section that follows it; [kick] and [stop]
    take the mutex, so they fall between two such steps. *)

Inductive _WatchDog_pc : Type :=
| AtTest       (* about to test [while self._counter] *)
| AtWait       (* in [self._event.wait(1)] *)
| Fired        (* [self._fire()] called, [run] returned *)
| Stopped.     (* [run] returned on [self._exit] *)

Record _WatchDog : Type := mkWatchDog {
  wd_timeout : Z;
  wd_counter : Z;
  wd_exit : bool;
  wd_pc : _WatchDog_pc
}.

(** [_WatchDog.__init__], with the thread at the start of [run]. *)
Definition WatchDog_init (timeout : Z) : _WatchDog :=
  mkWatchDog timeout timeout false AtTest.

(** One step of the thread of [run]. *)
Definition run_step (self : _WatchDog) : _WatchDog :=
  match wd_pc self with
  | AtTest =>
      if Z.eqb (wd_counter self) 0
      then mkWatchDog (wd_timeout self) (wd_counter self) (wd_exit self) Fired
      else mkWatchDog (wd_timeout self) (wd_counter self) (wd_exit self) AtWait
  | AtWait =>
      if wd_exit self
      then mkWatchDog (wd_timeout self) (wd_counter self) (wd_exit self) Stopped
      else mkWatchDog (wd_timeout self) (wd_counter self - 1) (wd_exit self)
                      AtTest
  | Fired => self
  | Stopped => self
  end.

Definition kick (self : _WatchDog) : _WatchDog :=
  mkWatchDog (wd_timeout self) (wd_timeout self) (wd_exit self) (wd_pc self).

(** [stop] up to its [join]: the flag is set and the event wakes the
    thread. *)
Definition stop (self : _WatchDog) : _WatchDog :=
  mkWatchDog (wd_timeout self) (wd_counter self) true (wd_pc self).

(** What happens to the watchdog, in the order it happens. *)
Inductive _WatchDog_action : Type := Step | Kick | Stop.

Definition act (self : _WatchDog) (a : _WatchDog_action) : _WatchDog :=
  match a with
  | Step => run_step self
  | Kick => kick self
  | Stop => stop self
  end.

(** *** _GnmiCollector

    [run] over the responses the stream yields before it ends or fails:
    every response kicks the watchdog and is handed to the session. *)
Definition GnmiCollector_run (stream : list SubscribeResponse)
           (st : _WatchDog * GnmiClient) : _WatchDog * GnmiClient :=
  fold_left (fun st sr => (kick (fst st), route_gnmi_sr (snd st) sr))
            stream st.

End Client.

(* ------------------------------------------------------------------ *)
(** ** src/core.py: what [App.start] builds *)

Module Core.

Fixpoint load_clients (global_cfg : Dict.t string)
         (devices_cfg : list Client.DeviceCfg)
         (devices_list : list Client.GnmiClient) (exporter : Client.Exporter)
  : result (list Client.GnmiClient * Client.Exporter) :=
  match devices_cfg with
  | [] => Ok (devices_list, exporter)
  | dev_cfg :: rest =>
      r <- Client.GnmiClient_init global_cfg dev_cfg exporter ;;
      load_clients global_cfg rest (devices_list ++ [fst r]) (snd r)
  end.

(** [App.start] up to the wait for the termination signal: the exporter
    and the sessions it has created. *)
Definition start (global_cfg : Dict.t string)
           (devices_cfg : list Client.DeviceCfg)
  : result (list Client.GnmiClient * Client.Exporter) :=
  prom_client <- PromExp.PromClient_init OcIf.OcInterfaces global_cfg ;;
  load_clients global_cfg devices_cfg [] prom_client.

End Core.


(* ================================================================== *)
(** * Vocabulary of the statements *)

(** Order and selection by a key, for the sorted lists. *)
Definition key_le (A : Type) (key : A -> Z) (a b : A) : Prop :=
  (key a <= key b)%Z.

Definition with_key (A : Type) (key : A -> Z) (t : Z) (a : A) : bool :=
  (key a =? t)%Z.

(** Bundle contents with the timestamps left out. *)
Definition erase_ts (b : GnmiMetricBundle) : GnmiMetricBundle :=
  set_metrics b (map (fun m => mkGnmiMetric (labelval m) (CommonTypes.val m) 0%Z)
                     (metrics b)).

Definition same_contents (l1 l2 : list GnmiMetricBundle) : Prop :=
  map erase_ts l1 = map erase_ts l2.

(** Two calls of [fetch_metric_bundles] in a row, nothing delivered in
    between, give the same contents. *)
Definition fetch_twice_same (clk1 clk2 : nat -> Z) (self : OcIf.OcInterfaces)
  : Prop :=
  forall s1 r1 s2 r2,
    OcIf.fetch_metric_bundles clk1 self = (s1, Ok r1) ->
    OcIf.fetch_metric_bundles clk2 s1 = (s2, Ok r2) ->
    same_contents (OcIf.contents s1 r1) (OcIf.contents s2 r2).

(** The bundles of a scrape that the collector accepts, in the order it
    meets them. *)
Definition accepted_bundles (response : list (list GnmiMetricBundle))
  : list GnmiMetricBundle :=
  flat_map (fun plugin =>
              if PromExp.returned_something plugin
              then filter is_valid plugin else [])
           response.

Definition named (n : string) (b : GnmiMetricBundle) : bool :=
  String.eqb (metric_name b) n.

(** The set of the device names of a list of bundles. *)
Definition device_set (bs : list GnmiMetricBundle) : list string :=
  nodup string_dec (map device_name bs).

(** The first of the preferred encodings the device lists. *)
Definition first_preferred (supported : list Z) : option Client._EncodingTypes :=
  find (fun enc => existsb (Z.eqb (Client.value enc)) supported)
       Client._PREFERRED_ENCODINGS.

(** The selection rule with JSON as the fallback of every capability
    check. *)
Definition selects_first_or_json (self : Client.GnmiClient)
           (resp : Client.CapabilityResponse) : Prop :=
  Client.force_encoding (Client._config self) = "" ->
  forall self',
    Client._check_caps self (Some resp) = (self', Ok tt) ->
    Client._selected_encoding self'
    = match first_preferred (Client.supported_encodings resp) with
      | Some enc => enc
      | None => Client.JSON
      end.

(** A plugin name the session knows how to load. *)
Definition loadable (plugin : string) : bool := String.eqb plugin "oc_interfaces".

(** What a table entry becomes when one more bundle of its name is merged:
    the first occurrence is the entry, a later one has its metrics appended. *)
Definition merge_step (entry : option GnmiMetricBundle) (b : GnmiMetricBundle)
  : option GnmiMetricBundle :=
  match entry with
  | None => Some b
  | Some b0 => Some (set_metrics b0 (metrics b0 ++ metrics b))
  end.

(** The metrics of [b] followed by those of the bundles [bs], in order. *)
Definition appended (b : GnmiMetricBundle) (bs : list GnmiMetricBundle)
  : list GnmiMetric :=
  fold_left (fun acc x => acc ++ metrics x) bs (metrics b).

(** The device names one answer adds up, as the collector's set does. *)
Definition devices_of_answer (plugin : list GnmiMetricBundle) : list string :=
  fold_left (fun names b => ListSet.set_add string_dec (device_name b) names)
            (filter is_valid plugin) (ListSet.empty_set string).

(** The bundle behind the configured-devices gauge when the plugin list has
    [n] entries. *)
Definition configured_devices_gauge (cfg : PromExp.PromClientConfig) (n : nat)
           (now : Z) : GnmiMetricBundle :=
  mkGnmiMetricBundle GAUGE ""
    (PromExp.metric_prefix cfg ++ "_configured_devices")
    "Number of configured devices" ["instance_name"]
    [mkGnmiMetric [PyStr (PromExp.instance_name cfg)] (PyInt (Z.of_nat n)) now].

(** The plugin instances the sessions of a device list load. *)
Definition loaded_plugins (devices_cfg : list Client.DeviceCfg) : nat :=
  list_sum (map (fun dev => List.length (filter loadable (Client.dc_plugins dev)))
                devices_cfg).

(** The notifications a [checkout] takes out of the buffer: all of them when
    the plugin is in sync, none otherwise. *)
Definition drained (self : BasePlug.BasePlugin) : list Notification :=
  if BasePlug._on_sync self then BasePlug._buffer self else [].

(** Whether an update writes the entry [e] of the interface [i] in the loop
    of [update_tables]: its path starts with interfaces/interface/state, it
    names the interface and its last path element is [e]. *)
Definition writes_iface_entry (u : BasePlug.GnmiUpdate) (i e : string) : bool :=
  PyStr.startswith "interfacesinterfacestate"
                   (PyStr.join (BasePlug.path (BasePlug.msg u)))
  && String.eqb (OcIf.iface_fullname u) i
  && String.eqb (OcIf.leaf u) e.

(** What such an update stores: the text of its value for a label, its value
    as an integer for a metric. *)
Definition iface_value (u : BasePlug.GnmiUpdate) : option pyval :=
  if PyStr.mem (OcIf.leaf u) OcIf._IFACE_LABEL_SET then
    Some (PyStr (py_str (BasePlug.val u)))
  else if PyStr.mem (OcIf.leaf u) OcIf._IFACE_METRIC_SET then
    match py_int (BasePlug.val u) with
    | Ok z => Some (PyInt z)
    | Raise _ => None
    end
  else None.

(** A list with an element, as a boolean. *)
Definition nonempty (A : Type) (l : list A) : bool :=
  match l with [] => false | _ :: _ => true end.

(** The metrics [build_metrics] makes for one metric name: one for every
    interface of the table, in the order of the table, the k-th with the
    clock reading number [n + k]. *)
Definition metrics_of (clk : nat -> Z) (cfg : BasePlug.BasePluginConfig)
           (table : OcIf.IfaceTable) (label_set : list string)
           (metric : string) (ifaces : list string) (n : nat)
  : list GnmiMetric :=
  map (fun p => OcIf.build_metric cfg table label_set metric (fst p) (clk (snd p)))
      (combine ifaces (seq n (List.length ifaces))).

(** A metric without its timestamp. *)
Definition series (m : GnmiMetric) : list pyval * pyval :=
  (labelval m, CommonTypes.val m).

(** The keys under which [_compute_stats] stores the self-statistics. *)
Definition stat_keys : list string :=
  ["configured_devices"; "collected_devices"; "collected_plugins";
   "collected_metrics"; "collected_series"].

(** The value of the single metric of the bundle stored under a key. *)
Definition stat_value (table : Dict.t GnmiMetricBundle) (k : string)
  : option pyval :=
  match Dict.get k table with
  | Some b =>
      match metrics b with
      | [m] => Some (CommonTypes.val m)
      | _ => None
      end
  | None => None
  end.

(** The number of metrics over all the bundles of a table. *)
Definition total_series (table : Dict.t GnmiMetricBundle) : nat :=
  list_sum (map (fun b => List.length (metrics b)) (Dict.values table)).

(** Every update of every notification of the list carries a value: one of
    the members of its [TypedValue] is set. *)
Definition carry_values (nfs : list Notification) : Prop :=
  Forall (fun nf => Forall (fun u => upd_val u <> None) (nf_update nf)) nfs.

(** The devices of a list whose plugin set holds a name the session
    loads. *)
Definition devices_with_plugin (devices_cfg : list Client.DeviceCfg) : nat :=
  List.length (filter (fun dev => existsb loadable (Client.dc_plugins dev))
                      devices_cfg).

(** The session after the capability checks of its connection attempts,
    in order; an element is what the Capabilities call of that attempt
    did. *)
Definition checks (rpcs : list (option Client.CapabilityResponse))
           (self : Client.GnmiClient) : Client.GnmiClient :=
  fold_left (fun s rpc => fst (Client._check_caps s rpc)) rpcs self.

(** The watchdog after what happens to it, in order. *)
Definition wd_run (acts : list Client._WatchDog_action)
           (wd : Client._WatchDog) : Client._WatchDog :=
  fold_left Client.act acts wd.

Definition is_step (a : Client._WatchDog_action) : bool :=
  match a with Client.Step => true | _ => false end.

(** The steps the thread of the watchdog takes in [acts]. *)
Definition steps_in (acts : list Client._WatchDog_action) : nat :=
  List.length (filter is_step acts).

(** The thread of the watchdog takes fewer than [bound] steps between two
    kicks, and before the first one; [since] is the number of steps it has
    taken since the last kick. *)
Fixpoint kicked_in_time (bound since : nat)
         (acts : list Client._WatchDog_action) : bool :=
  match acts with
  | [] => true
  | Client.Kick :: acts' => kicked_in_time bound 0 acts'
  | Client.Step :: acts' =>
      (S since <? bound) && kicked_in_time bound (S since) acts'
  | Client.Stop :: acts' => kicked_in_time bound since acts'
  end.

(** The thread of the watchdog has returned. *)
Definition wd_returned (wd : Client._WatchDog) : Prop :=
  Client.wd_pc wd = Client.Fired \/ Client.wd_pc wd = Client.Stopped.

(** The steps the thread of the watchdog still needs before it calls the
    handler, when nothing else happens. *)
Definition steps_left (wd : Client._WatchDog) : Z :=
  match Client.wd_pc wd with
  | Client.AtTest => 2 * Client.wd_counter wd + 1
  | Client.AtWait => 2 * Client.wd_counter wd
  | Client.Fired => 0
  | Client.Stopped => 0
  end.

(* ------------------------------------------------------------------ *)
(** ** Concrete inputs *)

Module Sample.
Import BasePlug.

Definition pe (n : string) : Utils.PathElem := Utils.mkPathElem n [].
Definition pk (n k v : string) : Utils.PathElem := Utils.mkPathElem n [(k, v)].
Definition mkp (l : list Utils.PathElem) : Utils.Path :=
  Utils.mkPath l "openconfig" "oc_interfaces".

(** [interfaces/interface[name=eth0]/state/name = "eth0"] *)
Definition u_name : Update :=
  mkUpdate (mkp [pe "interfaces"; pk "interface" "name" "eth0"; pe "state";
                 pe "name"])
           (Some (PyStr "eth0")) 0%Z.

(** [interfaces/interface[name=eth0]/state/counters/in-octets = v] *)
Definition u_in_octets (v : pyval) : Update :=
  mkUpdate (mkp [pe "interfaces"; pk "interface" "name" "eth0"; pe "state";
                 pe "counters"; pe "in-octets"])
           (Some v) 0%Z.

(** An update with an unknown leaf and without the [name] key. *)
Definition u_unknown : Update :=
  mkUpdate (mkp [pe "interfaces"; pe "interface"; pe "state"; pe "colour"])
           (Some (PyStr "red")) 0%Z.

(** A label update without the [name] key. *)
Definition u_mtu_nokey : Update :=
  mkUpdate (mkp [pe "interfaces"; pe "interface"; pe "state"; pe "mtu"])
           (Some (PyInt 1500)) 0%Z.

Definition nf (t : Z) (ups : list Update) : Notification :=
  mkNotification t false (mkp []) ups [].

(** A 64-bit counter as JSON_IETF carries it: the digits between double
    quotes. *)
Definition quoted_1234 : string :=
  String "034" ("1234" ++ String "034" "").

Definition plugin0 : OcIf.OcInterfaces :=
  OcIf.OcInterfaces_init [("metric_prefix", "gnmi")] [("name", "r1")].

(** A plugin in sync with the notifications [nfs] in its buffer. *)
Definition synced (nfs : list Notification) : OcIf.OcInterfaces :=
  fold_left OcIf.gnmi_notification_handler nfs
            (OcIf.set_sync_status plugin0 true).

Definition clk (n : nat) : Z := Z.of_nat n.

(** A valid bundle with one metric for device [dev]. *)
Definition bundle (dev name : string) (v : Z) : GnmiMetricBundle :=
  mkGnmiMetricBundle COUNTER dev name "" ["device"]
                     [mkGnmiMetric [PyStr dev] (PyInt v) 0%Z].

(** A plugin that answers with the list it stands for. *)
Definition answer (p : list GnmiMetricBundle)
  : list GnmiMetricBundle * result (list GnmiMetricBundle) :=
  (p, Ok p).

Definition collector (ps : list (list GnmiMetricBundle))
  : PromExp.PromClient (list GnmiMetricBundle) :=
  PromExp.mkPromClient
    (PromExp.mkPromClientConfig "default" "0.0.0.0" 9456%Z "gnmi")
    ps [] 0 0.

Definition device (name : string) (plugins : list string) : Client.DeviceCfg :=
  Client.mkDeviceCfg [("name", name); ("ip", "192.0.2.1"); ("port", "57400")]
                     plugins.

(** The message of an update of the MTU of eth0 with timestamp [t]. *)
Definition mtu_msg (t v : Z) : GnmiUpdate :=
  mkGnmiUpdate
    (mkGnmiMessage t false ["interfaces"; "interface"; "state"; "mtu"]
                   [[]; [("name", "eth0")]; []; []])
    (PyInt v) 0%Z.

(** A table with the skeleton of eth0. *)
Definition eth0_table : OcIf.IfaceTable :=
  OcIf.add_table_entry [] "eth0" OcIf._IFACE_LABEL_SET OcIf._IFACE_METRIC_SET.

Definition exporter0 : Client.Exporter :=
  PromExp.mkPromClient
    (PromExp.mkPromClientConfig "default" "0.0.0.0" 9456%Z "gnmi")
    [] [] 0 0.

Definition caps (encodings : list Z) : Client.CapabilityResponse :=
  Client.mkCapabilityResponse
    [Client.mkModelData "openconfig-interfaces" "OpenConfig" "2.4.3"]
    encodings.
End Sample.

(* ================================================================== *)
(** * Properties *)

(* ------------------------------------------------------------------ *)
(** ** Dictionaries *)

Section DictFacts.
Variable V : Type.
Implicit Types (d : Dict.t V) (k : string) (v : V).

Lemma dict_get_set_same k v d : Dict.get k (Dict.set k v d) = Some v.
Proof.
  induction d as [|[k' v'] d IH]; simpl.
  - now rewrite String.eqb_refl.
  - destruct (String.eqb k k') eqn:E; simpl; rewrite E; auto.
Qed.

Lemma dict_get_set_other k k' v d :
  k <> k' -> Dict.get k (Dict.set k' v d) = Dict.get k d.
Proof.
  intros Hne. induction d as [|[k0 v0] d IH]; simpl.
  - destruct (String.eqb k k') eqn:E; auto.
    apply String.eqb_eq in E. contradiction.
  - destruct (String.eqb k' k0) eqn:E; simpl.
    + apply String.eqb_eq in E. subst k0.
      destruct (String.eqb k k') eqn:E'; auto.
      apply String.eqb_eq in E'. contradiction.
    + destruct (String.eqb k k0); auto.
Qed.

Lemma dict_get_set k k' v d :
  Dict.get k (Dict.set k' v d)
  = if String.eqb k k' then Some v else Dict.get k d.
Proof.
  destruct (String.eqb k k') eqn:E.
  - apply String.eqb_eq in E. subst. apply dict_get_set_same.
  - apply String.eqb_neq in E. now apply dict_get_set_other.
Qed.
End DictFacts.

(* ------------------------------------------------------------------ *)
(** ** The path utility *)

(** The inner loop appends one element for every bracket fragment. *)
Lemma key_loop_length pname xs tmp_key gnmi_elems :
  List.length (Utils.key_loop pname xs tmp_key gnmi_elems)
  = List.length gnmi_elems + List.length xs.
Proof.
  revert tmp_key gnmi_elems.
  induction xs as [|x xs IH]; intros; simpl.
  - lia.
  - rewrite IH, length_app. simpl. lia.
Qed.

(** The literal scenario of the specification: one key, one element per
    component. *)
Example xpath_scenario :
  Utils.xpath_to_gnmi "/interfaces/interface[name=eth0]/state/counters"
                      "openconfig" None
  = Ok (Utils.mkPath
          [Utils.mkPathElem "interfaces" [];
           Utils.mkPathElem "interface" [("name", "eth0")];
           Utils.mkPathElem "state" [];
           Utils.mkPathElem "counters" []]
          "openconfig" "").
Proof. vm_compute. reflexivity. Qed.

(** The elements one component gives: one for a component without a key,
    one for every bracket fragment otherwise. *)
Lemma word_step_length word gnmi_elems elems :
  Utils.word_step word gnmi_elems = Ok elems ->
  exists m,
    Re.search Utils._RE_PATH_COMPONENT word = Some m
    /\ List.length elems
       = List.length gnmi_elems
         + match Re.group m "key" with
           | Some _ => List.length (Re.findall Utils._RE_BRACKET "1" word)
           | None => 1
           end.
Proof.
  unfold Utils.word_step. intros H.
  destruct (Re.search Utils._RE_PATH_COMPONENT word) as [m|]; [|discriminate].
  exists m. split; [reflexivity|].
  destruct (Re.group m "key"); inversion H; subst.
  - apply key_loop_length.
  - rewrite length_app. reflexivity.
Qed.

(** C1, evaluated on the code: the xpath
    [/interfaces/interface[name=eth0][unit=x]/state] has three components,
    the second carrying two key fragments, and [xpath_to_gnmi] returns four
    elements for it: the component with two fragments gives two elements,
    the first holding only the first pair and the second holding both. *)
Theorem xpath_to_gnmi_two_fragments_two_elements :
  Utils.p_names "/interfaces/interface[name=eth0][unit=x]/state"
  = ["interfaces"; "interface[name=eth0][unit=x]"; "state"]
  /\ Utils.xpath_to_gnmi "/interfaces/interface[name=eth0][unit=x]/state"
                         "openconfig" None
     = Ok (Utils.mkPath
             [Utils.mkPathElem "interfaces" [];
              Utils.mkPathElem "interface" [("name", "eth0")];
              Utils.mkPathElem "interface" [("name", "eth0"); ("unit", "x")];
              Utils.mkPathElem "state" []]
             "openconfig" "").
Proof. split; vm_compute; reflexivity. Qed.

(* ------------------------------------------------------------------ *)
(** ** The stable sort *)

Section SortFacts.
Variable A : Type.
Variable key : A -> Z.

Lemma insert_by_key_perm x l :
  Permutation (x :: l) (insert_by_key key x l).
Proof.
  induction l as [|y l IH]; simpl; auto.
  destruct (key x <=? key y)%Z; auto.
  eapply perm_trans; [apply perm_swap|]. now constructor.
Qed.

Lemma sort_by_key_perm l : Permutation l (sort_by_key key l).
Proof.
  induction l as [|x l IH]; simpl; auto.
  eapply perm_trans; [|apply insert_by_key_perm]. now constructor.
Qed.

Lemma insert_by_key_sorted x l :
  StronglySorted (key_le key) l -> StronglySorted (key_le key) (insert_by_key key x l).
Proof.
  induction 1 as [|y l Hs IH Hall]; simpl.
  - repeat constructor.
  - destruct (key x <=? key y)%Z eqn:E.
    + apply Z.leb_le in E. constructor.
      * now constructor.
      * constructor; auto.
        eapply Forall_impl; [|exact Hall]. unfold key_le. intros; lia.
    + apply Z.leb_gt in E. constructor; auto.
      eapply Permutation_Forall; [apply insert_by_key_perm|].
      constructor; auto. unfold key_le. lia.
Qed.

Lemma sort_by_key_sorted l : StronglySorted (key_le key) (sort_by_key key l).
Proof.
  induction l; simpl; [constructor | now apply insert_by_key_sorted].
Qed.

(** Inserting [x] into a sorted list puts it ahead of the elements of its
    own key. *)
Lemma insert_by_key_stable t x l :
  StronglySorted (key_le key) l ->
  filter (with_key key t) (insert_by_key key x l) = filter (with_key key t) (x :: l).
Proof.
  induction 1 as [|y l Hs IH Hall]; auto.
  cbn [insert_by_key].
  destruct (key x <=? key y)%Z eqn:E; auto.
  apply Z.leb_gt in E.
  cbn [filter] in *. rewrite IH. unfold with_key.
  destruct (key x =? t)%Z eqn:Ex, (key y =? t)%Z eqn:Ey; auto.
  apply Z.eqb_eq in Ex, Ey. lia.
Qed.

Lemma sort_by_key_stable t l :
  filter (with_key key t) (sort_by_key key l) = filter (with_key key t) l.
Proof.
  induction l as [|x l IH]; auto.
  cbn [sort_by_key].
  rewrite insert_by_key_stable by apply sort_by_key_sorted.
  cbn [filter]. now rewrite IH.
Qed.

Lemma sort_by_key_nil_inv l : sort_by_key key l = [] -> l = [].
Proof.
  intros H. apply Permutation_nil. rewrite <- H.
  apply Permutation_sym, sort_by_key_perm.
Qed.
End SortFacts.

(* ------------------------------------------------------------------ *)
(** ** The plugin base: buffer, sync flag and checkout *)

Section BasePlugFacts.
Import BasePlug.

Lemma drain_ignores_lists self ul dl :
  fst (drain (set_lists self ul dl))
  = if _on_sync self then _buffer self else [].
Proof. unfold drain. simpl. now destruct (_on_sync self). Qed.

Lemma handler_fold_buffer nfs self :
  _buffer (fold_left gnmi_notification_handler nfs self) = _buffer self ++ nfs
  /\ _on_sync (fold_left gnmi_notification_handler nfs self) = _on_sync self.
Proof.
  revert self. induction nfs as [|m nfs IH]; intros self; simpl.
  - now rewrite app_nil_r.
  - destruct (IH (gnmi_notification_handler self m)) as [Hb Hs].
    rewrite Hb, Hs. simpl. now rewrite <- app_assoc.
Qed.

(** The loop over the updates keeps what it was given and adds one message
    for every update it is given. *)
Lemma upd_loop_ok g ups ul ul' :
  upd_loop g ups ul = (ul', Ok tt) ->
  (forall m, In m ul -> In m ul')
  /\ (forall u, In u ups -> exists m, new_upd_msg g u = Ok m /\ In m ul')
  /\ List.length ul' = List.length ul + List.length ups.
Proof.
  revert ul. induction ups as [|u ups IH]; intros ul H; simpl in H.
  - inversion H; subst. split; [auto|]. split; [intros ? []|simpl; lia].
  - destruct (new_upd_msg g u) as [m|e] eqn:E; [|discriminate].
    destruct (IH _ H) as (Hk & Hn & Hl).
    repeat split.
    + intros m' Hm'. apply Hk, in_or_app. now left.
    + intros u' [<-|Hu'].
      * exists m. split; auto. apply Hk, in_or_app. right. now left.
      * now apply Hn.
    + rewrite Hl, length_app. simpl. lia.
Qed.

Lemma nf_loop_ok nf_buf ul dl ul' dl' :
  nf_loop nf_buf ul dl = (ul', dl', Ok tt) ->
  (forall m, In m ul -> In m ul')
  /\ (forall nf u, In nf nf_buf -> In u (nf_update nf) ->
      exists m, new_upd_msg (GnmiUpdate_init nf) u = Ok m /\ In m ul')
  /\ List.length ul'
     = List.length ul + List.length (flat_map nf_update nf_buf).
Proof.
  revert ul dl. induction nf_buf as [|nf nf_buf IH]; intros ul dl H; simpl in H.
  - inversion H; subst. split; [auto|]. split; [intros ? ? []|simpl; lia].
  - destruct (upd_loop (GnmiUpdate_init nf) (nf_update nf) ul)
      as [ul1 [[]|e]] eqn:E; [|discriminate].
    destruct (upd_loop_ok _ _ _ E) as (Hk1 & Hn1 & Hl1).
    destruct (IH _ _ H) as (Hk & Hn & Hl).
    repeat split.
    + intros m Hm. auto.
    + intros nf' u [<-|Hnf] Hu.
      * destruct (Hn1 _ Hu) as (m & Hm & Hin). exists m. auto.
      * eapply Hn; eauto.
    + rewrite Hl, Hl1. simpl. rewrite length_app. lia.
Qed.

(** A notification whose updates all carry a value does not stop the
    expansion. *)
Lemma upd_loop_returns g ups ul :
  Forall (fun u => upd_val u <> None) ups ->
  snd (upd_loop g ups ul) = Ok tt.
Proof.
  intros H. revert ul. induction H as [|u ups Hu _ IH]; intros ul; simpl; auto.
  unfold new_upd_msg. destruct (upd_val u); [apply IH | contradiction].
Qed.

Lemma nf_loop_returns nf_buf ul dl :
  Forall (fun nf => Forall (fun u => upd_val u <> None) (nf_update nf)) nf_buf ->
  snd (nf_loop nf_buf ul dl) = Ok tt.
Proof.
  intros H. revert ul dl.
  induction H as [|nf nf_buf Hnf _ IH]; intros ul dl; simpl; auto.
  pose proof (upd_loop_returns (GnmiUpdate_init nf) ul Hnf) as Hr.
  destruct (upd_loop (GnmiUpdate_init nf) (nf_update nf) ul) as [ul1 r].
  simpl in Hr. subst r. apply IH.
Qed.

(** [checkout] returns whenever every buffered update carries a value. *)
Lemma checkout_returns self :
  Forall (fun nf => Forall (fun u => upd_val u <> None) (nf_update nf))
         (_buffer self) ->
  snd (checkout self) = Ok tt.
Proof.
  intros H. unfold checkout.
  destruct (drain (set_lists self [] [])) as [nf_buf self1] eqn:D.
  assert (Hbuf : Forall (fun nf => Forall (fun u => upd_val u <> None)
                                          (nf_update nf)) nf_buf).
  { pose proof (drain_ignores_lists self [] []) as Hd. rewrite D in Hd.
    simpl in Hd. subst nf_buf. destruct (_on_sync self); auto. }
  pose proof (nf_loop_returns [] [] Hbuf) as Hr.
  destruct (nf_loop nf_buf [] []) as [[ul dl] r]. simpl in Hr. now subst r.
Qed.

(** What a [checkout] that returns leaves in the two lists. *)
Lemma checkout_ok_inv self self' :
  checkout self = (self', Ok tt) ->
  exists ul dl,
    nf_loop (fst (drain (set_lists self [] []))) [] [] = (ul, dl, Ok tt)
    /\ update_list self' = sort_by_key upd_ts ul
    /\ delete_list self' = sort_by_key timestamp dl
    /\ _buffer self' = (if _on_sync self then [] else _buffer self)
    /\ _on_sync self' = _on_sync self
    /\ config self' = config self.
Proof.
  unfold checkout, drain. simpl. intros H.
  destruct (_on_sync self) eqn:S; simpl in *.
  - destruct (nf_loop (_buffer self) [] []) as [[ul dl] [[]|e]] eqn:N;
      inversion H; subst; clear H.
    exists ul, dl. simpl. rewrite S. repeat split; auto.
  - inversion H; subst; clear H.
    exists [], []. simpl. rewrite S. repeat split; auto.
Qed.

End BasePlugFacts.

(** C5: [set_sync_status] empties the buffer exactly on the transition from
    on_sync = true to on_sync = false; on the three other transitions the
    buffer is what it was.  In every case the flag takes the argument and
    nothing else of the plugin changes. *)
Theorem set_sync_status_clears_on_desync_only
        (self : BasePlug.BasePlugin) (on_sync : bool) :
  let self' := BasePlug.set_sync_status self on_sync in
  BasePlug._on_sync self' = on_sync
  /\ BasePlug._buffer self'
     = (if BasePlug._on_sync self && negb on_sync then []
        else BasePlug._buffer self)
  /\ BasePlug.config self' = BasePlug.config self
  /\ BasePlug.update_list self' = BasePlug.update_list self
  /\ BasePlug.delete_list self' = BasePlug.delete_list self.
Proof.
  destruct self as [c b s ul dl]. unfold BasePlug.set_sync_status. simpl.
  destruct on_sync, s; simpl; repeat split.
Qed.

(** C8: when [checkout] returns, [update_list] and [delete_list] are in
    non-decreasing order of timestamp, they hold the messages the expansion
    loop produced, and the messages of any one timestamp stand in the order
    the expansion produced them. *)
Theorem checkout_lists_sorted_stable (self self' : BasePlug.BasePlugin) :
  BasePlug.checkout self = (self', Ok tt) ->
  exists ul dl,
    BasePlug.nf_loop (fst (BasePlug.drain (BasePlug.set_lists self [] []))) [] []
    = (ul, dl, Ok tt)
    /\ StronglySorted (key_le BasePlug.upd_ts) (BasePlug.update_list self')
    /\ StronglySorted (key_le BasePlug.timestamp) (BasePlug.delete_list self')
    /\ Permutation ul (BasePlug.update_list self')
    /\ Permutation dl (BasePlug.delete_list self')
    /\ (forall t, filter (with_key BasePlug.upd_ts t) (BasePlug.update_list self')
                  = filter (with_key BasePlug.upd_ts t) ul)
    /\ (forall t, filter (with_key BasePlug.timestamp t) (BasePlug.delete_list self')
                  = filter (with_key BasePlug.timestamp t) dl).
Proof.
  intros H. destruct (@checkout_ok_inv _ _ H) as (ul & dl & Hn & Hu & Hd & _).
  exists ul, dl. rewrite Hu, Hd. split; [exact Hn|].
  repeat split.
  - apply sort_by_key_sorted.
  - apply sort_by_key_sorted.
  - apply sort_by_key_perm.
  - apply sort_by_key_perm.
  - intros t. apply sort_by_key_stable.
  - intros t. apply sort_by_key_stable.
Qed.

(** C9: notifications handed to the handler while the plugin is out of sync
    are appended to the buffer, [set_sync_status(true)] leaves them there,
    and the next [checkout] drains them: it leaves the buffer empty, it
    returns exactly when every update of the buffered notifications carries
    a value, and when it returns every update of every such notification
    has its message in [update_list]. *)
Theorem out_of_sync_notifications_reach_first_drain
        (self : BasePlug.BasePlugin) (nfs : list Notification) :
  BasePlug._on_sync self = false ->
  let self1 := fold_left BasePlug.gnmi_notification_handler nfs self in
  let self2 := BasePlug.set_sync_status self1 true in
  BasePlug._buffer self1 = BasePlug._buffer self ++ nfs
  /\ BasePlug._on_sync self1 = false
  /\ BasePlug._buffer self2 = BasePlug._buffer self ++ nfs
  /\ BasePlug._on_sync self2 = true
  /\ fst (BasePlug.drain (BasePlug.set_lists self2 [] []))
     = BasePlug._buffer self ++ nfs
  /\ BasePlug._buffer (fst (BasePlug.checkout self2)) = []
  /\ (snd (BasePlug.checkout self2) = Ok tt
      <-> carry_values (BasePlug._buffer self ++ nfs))
  /\ (carry_values (BasePlug._buffer self ++ nfs) ->
      forall nf u, In nf nfs -> In u (nf_update nf) ->
        exists m, BasePlug.new_upd_msg (BasePlug.GnmiUpdate_init nf) u = Ok m
                  /\ In m (BasePlug.update_list
                             (fst (BasePlug.checkout self2))))
  /\ forall self3,
      BasePlug.checkout self2 = (self3, Ok tt) ->
      forall nf u, In nf nfs -> In u (nf_update nf) ->
        exists m, BasePlug.new_upd_msg (BasePlug.GnmiUpdate_init nf) u = Ok m
                  /\ In m (BasePlug.update_list self3).
Proof.
  intros Hoff self1 self2.
  destruct (handler_fold_buffer nfs self) as [Hb Hs].
  fold self1 in Hb, Hs. rewrite Hoff in Hs.
  assert (Hb2 : BasePlug._buffer self2 = BasePlug._buffer self ++ nfs).
  { unfold self2, BasePlug.set_sync_status. simpl. exact Hb. }
  assert (Hs2 : BasePlug._on_sync self2 = true) by reflexivity.
  assert (Hd : fst (BasePlug.drain (BasePlug.set_lists self2 [] []))
               = BasePlug._buffer self ++ nfs).
  { rewrite drain_ignores_lists, Hs2. exact Hb2. }
  assert (Hin : forall self3,
             BasePlug.checkout self2 = (self3, Ok tt) ->
             forall nf u, In nf (BasePlug._buffer self ++ nfs) ->
                          In u (nf_update nf) ->
               exists m,
                 BasePlug.new_upd_msg (BasePlug.GnmiUpdate_init nf) u = Ok m
                 /\ In m (BasePlug.update_list self3)).
  { intros self3 Hc nf u Hnf Hu.
    destruct (@checkout_ok_inv _ _ Hc) as (ul & dl & Hn & Hul & _).
    rewrite Hd in Hn.
    destruct (nf_loop_ok _ _ _ Hn) as (_ & Hi & _).
    destruct (Hi nf u) as (m & Hm & Hmin); auto.
    exists m. split; auto. rewrite Hul.
    eapply Permutation_in; [apply sort_by_key_perm | exact Hmin]. }
  assert (Hret : carry_values (BasePlug._buffer self ++ nfs) ->
                 snd (BasePlug.checkout self2) = Ok tt).
  { intros Hv. apply checkout_returns. rewrite Hb2. exact Hv. }
  repeat split; auto.
  - unfold BasePlug.checkout.
    destruct (BasePlug.drain (BasePlug.set_lists self2 [] []))
      as [nf_buf self'] eqn:D.
    unfold BasePlug.drain in D.
    change (BasePlug._on_sync (BasePlug.set_lists self2 [] []))
      with (BasePlug._on_sync self2) in D.
    rewrite Hs2 in D. injection D as _ <-.
    destruct (BasePlug.nf_loop nf_buf [] []) as [[ul dl] [[]|e]]; reflexivity.
  - intros Hok.
    destruct (BasePlug.checkout self2) as [self3 r] eqn:Hc.
    simpl in Hok. subst r.
    apply Forall_forall. intros nf Hnf. apply Forall_forall. intros u Hu.
    destruct (Hin self3 eq_refl nf u Hnf Hu) as (m & Hm & _).
    unfold BasePlug.new_upd_msg in Hm. intros Hnone. rewrite Hnone in Hm.
    discriminate Hm.
  - intros Hv nf u Hnf Hu.
    pose proof (Hret Hv) as Hok.
    destruct (BasePlug.checkout self2) as [self3 r] eqn:Hc.
    simpl in Hok. subst r. cbn [fst].
    apply (Hin self3 eq_refl nf u); auto.
    apply in_or_app. now right.
  - intros self3 Hc nf u Hnf Hu.
    apply (Hin self3 Hc nf u); auto.
    apply in_or_app. now right.
Qed.

(* ------------------------------------------------------------------ *)
(** ** The openconfig-interfaces render *)

Section OcIfFacts.
Import BasePlug OcIf.

Lemma build_tables_frame self :
  base (build_tables self) = base self
  /\ bundle_list (build_tables self) = bundle_list self.
Proof.
  unfold build_tables.
  destruct (fold_left _ _ _) as [it st]. now split.
Qed.

Lemma update_tables_frame self :
  base (fst (update_tables self)) = base self
  /\ bundle_list (fst (update_tables self)) = bundle_list self.
Proof.
  unfold update_tables.
  destruct (update_tables_loop _ _ _) as [[it st] r]. now split.
Qed.

Lemma build_metrics_frame clk self :
  base (build_metrics clk self) = base self
  /\ bundle_list (build_metrics clk self) = bundle_list self.
Proof.
  unfold build_metrics.
  destruct (build_metrics_names _ _ _ _ _ _ _) as [im n1].
  destruct (build_metrics_names _ _ _ _ _ _ _) as [sm n2]. now split.
Qed.

Lemma build_bundle_list_frame self :
  base (build_bundle_list self) = base self
  /\ List.length (bundle_list (build_bundle_list self))
     = List.length (bundle_list self) + 39.
Proof.
  unfold build_bundle_list. split; [reflexivity|].
  cbn [bundle_list set_bundle_list].
  rewrite !length_app, !length_map. reflexivity.
Qed.

(** Whatever its outcome, the render leaves the plugin base as [checkout]
    left it. *)
Lemma fetch_base clk self :
  base (fst (fetch_metric_bundles clk self)) = fst (checkout (base self)).
Proof.
  unfold fetch_metric_bundles. cbn [clear_all_tables base].
  destruct (checkout (base self)) as [b [[]|e]]; [|reflexivity].
  cbn [set_base base fst].
  destruct (update_list b) as [|u ul] eqn:U; [reflexivity|].
  match goal with
  | |- context [update_tables (build_tables ?s0)] =>
      pose proof (update_tables_frame (build_tables s0)) as [Hu _];
      pose proof (build_tables_frame s0) as [Hb _];
      destruct (update_tables (build_tables s0)) as [s4 [[]|e]]
  end; cbn [fst base] in *.
  - destruct (build_bundle_list_frame (build_metrics clk s4)) as [H1 _].
    destruct (build_metrics_frame clk s4) as [H2 _].
    rewrite H1, H2, Hu, Hb. reflexivity.
  - rewrite Hu, Hb. reflexivity.
Qed.

(** The outcome of the render, by the outcome of [checkout]. *)
Lemma fetch_outcome clk self :
  match checkout (base self) with
  | (b, Raise e) => snd (fetch_metric_bundles clk self) = Raise e
  | (b, Ok _) =>
      match update_list b with
      | [] => snd (fetch_metric_bundles clk self) = Ok FreshEmpty
      | _ :: _ =>
          (exists e, snd (fetch_metric_bundles clk self) = Raise e)
          \/ (snd (fetch_metric_bundles clk self) = Ok SelfBundleList
              /\ List.length (bundle_list (fst (fetch_metric_bundles clk self)))
                 = 39)
      end
  end.
Proof.
  unfold fetch_metric_bundles. cbn [clear_all_tables base].
  destruct (checkout (base self)) as [b [[]|e]]; [|reflexivity].
  cbn [set_base base fst].
  destruct (update_list b) as [|u ul] eqn:U; [reflexivity|].
  match goal with
  | |- context [update_tables (build_tables ?s0)] =>
      pose proof (update_tables_frame (build_tables s0)) as [_ Hu];
      pose proof (build_tables_frame s0) as [_ Hb];
      destruct (update_tables (build_tables s0)) as [s4 [[]|e]]
  end; cbn [fst snd bundle_list] in *.
  - right. split; [reflexivity|].
    destruct (build_bundle_list_frame (build_metrics clk s4)) as [_ H1].
    destruct (build_metrics_frame clk s4) as [_ H2].
    rewrite H1, H2, Hu, Hb. reflexivity.
  - left. now exists e.
Qed.

(** Once drained, or out of sync, [checkout] finds nothing. *)
Lemma checkout_nothing self :
  _on_sync self = false \/ _buffer self = [] ->
  snd (checkout self) = Ok tt /\ update_list (fst (checkout self)) = [].
Proof.
  intros H. unfold checkout, drain. simpl.
  destruct (_on_sync self) eqn:S.
  - destruct H as [H|H]; [discriminate|]. rewrite H. simpl. now split.
  - simpl. now split.
Qed.

(** After a [checkout], whatever its outcome, the next one has nothing to
    drain. *)
Lemma checkout_drained self :
  _on_sync (fst (checkout self)) = false \/ _buffer (fst (checkout self)) = [].
Proof.
  unfold checkout, drain. simpl.
  destruct (_on_sync self) eqn:S.
  - right. destruct (nf_loop (_buffer self) [] []) as [[ul dl] [[]|e]];
      reflexivity.
  - left. simpl. exact S.
Qed.

Lemma no_updates_length (nf_buf : list Notification) :
  List.length (flat_map nf_update nf_buf) = 0
  <-> Forall (fun nf => nf_update nf = []) nf_buf.
Proof.
  induction nf_buf as [|nf nf_buf IH]; simpl.
  - split; auto.
  - rewrite length_app. split.
    + intros H. constructor.
      * destruct (nf_update nf); [reflexivity | simpl in H; lia].
      * apply IH. lia.
    + intros H. inversion H as [|? ? H1 H2]; subst.
      rewrite H1. simpl. now apply IH.
Qed.

(** A [checkout] that returns leaves no update exactly when the plugin is
    out of sync or no buffered notification carries one. *)
Lemma checkout_no_update self self' :
  checkout self = (self', Ok tt) ->
  (update_list self' = []
   <-> _on_sync self = false
       \/ Forall (fun nf => nf_update nf = []) (_buffer self)).
Proof.
  intros H.
  destruct (@checkout_ok_inv _ _ H) as (ul & dl & Hn & Hu & _).
  rewrite drain_ignores_lists in Hn.
  destruct (nf_loop_ok _ _ _ Hn) as (_ & _ & Hl). simpl in Hl.
  rewrite Hu. split.
  - intros E. apply sort_by_key_nil_inv in E. subst ul. simpl in Hl.
    destruct (_on_sync self); [right|now left].
    apply no_updates_length. lia.
  - intros [E|E].
    + rewrite E in Hl. simpl in Hl.
      destruct ul; [reflexivity | simpl in Hl; lia].
    + destruct (_on_sync self).
      * apply no_updates_length in E. rewrite E in Hl.
        destruct ul; [reflexivity | simpl in Hl; lia].
      * simpl in Hl. destruct ul; [reflexivity | simpl in Hl; lia].
Qed.

(** The loop of [update_tables] stops early only on a cast that fails. *)
Lemma update_tables_loop_returns ups it st :
  Forall (fun u => exists z, py_int (val u) = Ok z) ups ->
  snd (update_tables_loop ups it st) = Ok tt.
Proof.
  intros H. revert it st.
  induction H as [|u ups [z Hz] _ IH]; intros it st; [reflexivity|].
  cbn [update_tables_loop]. unfold iface_half, subiface_half. rewrite Hz.
  repeat match goal with
         | |- context [if ?c then _ else _] => destruct c
         end; apply IH.
Qed.

End OcIfFacts.

(** C2, as it stands, fails: a plugin in sync that holds one notification
    with two updates returns 39 bundles on the first call and none on the
    second, the first call having drained the buffer. *)
Lemma fetch_twice_differs :
  ~ fetch_twice_same Sample.clk Sample.clk
      (Sample.synced [Sample.nf 10 [Sample.u_name;
                                    Sample.u_in_octets (PyInt 100)]]).
Proof.
  intros H.
  specialize (H _ _ _ _ eq_refl eq_refl).
  vm_compute in H. discriminate H.
Qed.

(** C2, amended: for every plugin state, a second [fetch_metric_bundles]
    with no notification delivered since the first returns a new empty list
    (and by then the list object the first call handed out has been cleared
    in place); when the first call returned, its contents equal those of the
    second exactly when it had nothing to render: the plugin was out of sync
    or no buffered notification carried an update. *)
Theorem fetch_metric_bundles_second_call_empty
        (clk1 clk2 : nat -> Z) (self : OcIf.OcInterfaces) :
  let s1 := fst (OcIf.fetch_metric_bundles clk1 self) in
  let s2 := fst (OcIf.fetch_metric_bundles clk2 s1) in
  snd (OcIf.fetch_metric_bundles clk2 s1) = Ok OcIf.FreshEmpty
  /\ OcIf.bundle_list s2 = []
  /\ forall r1,
      snd (OcIf.fetch_metric_bundles clk1 self) = Ok r1 ->
      (same_contents (OcIf.contents s1 r1) (OcIf.contents s2 OcIf.FreshEmpty)
       <-> BasePlug._on_sync (OcIf.base self) = false
           \/ Forall (fun nf => nf_update nf = [])
                     (BasePlug._buffer (OcIf.base self))).
Proof.
  intros s1 s2.
  assert (Hsecond : OcIf.fetch_metric_bundles clk2 s1
                    = (s2, Ok OcIf.FreshEmpty) /\ OcIf.bundle_list s2 = []).
  { pose proof (fetch_base clk1 self) as Hb. fold s1 in Hb.
    pose proof (checkout_drained (OcIf.base self)) as Hd. rewrite <- Hb in Hd.
    destruct (@checkout_nothing _ Hd) as [Hr Hu].
    unfold s2, OcIf.fetch_metric_bundles. cbn [OcIf.clear_all_tables OcIf.base].
    destruct (BasePlug.checkout (OcIf.base s1)) as [b r].
    cbn [fst snd] in Hr, Hu. subst r.
    cbn [OcIf.set_base OcIf.base]. rewrite Hu. now split. }
  destruct Hsecond as [Hsecond Hcleared].
  split; [now rewrite Hsecond|]. split; [exact Hcleared|].
  intros r1 Hr1. cbn [OcIf.contents].
  pose proof (fetch_outcome clk1 self) as Ho.
  destruct (BasePlug.checkout (OcIf.base self)) as [b [[]|e]] eqn:C.
  - pose proof (@checkout_no_update _ _ C) as Hiff.
    destruct (BasePlug.update_list b) as [|u ul] eqn:U.
    + rewrite Ho in Hr1. inversion Hr1; subst r1. cbn [OcIf.contents].
      split; [intros _; now apply Hiff | reflexivity].
    + destruct Ho as [[e He]|[Hs Hlen]]; [rewrite He in Hr1; discriminate|].
      rewrite Hs in Hr1. inversion Hr1; subst r1. cbn [OcIf.contents].
      fold s1 in Hlen. split.
      * unfold same_contents. intros E.
        apply (f_equal (@List.length _)) in E.
        rewrite length_map, Hlen in E. discriminate E.
      * intros E. apply Hiff in E. discriminate E.
  - rewrite Ho in Hr1. discriminate Hr1.
Qed.

(** The amended statement at a plugin in sync holding one notification with
    two updates: the first call returns, and its contents differ from the
    empty answer of the second. *)
Lemma fetch_metric_bundles_second_call_empty_witness :
  let self := Sample.synced [Sample.nf 10 [Sample.u_name;
                                           Sample.u_in_octets (PyInt 100)]] in
  let s1 := fst (OcIf.fetch_metric_bundles Sample.clk self) in
  let s2 := fst (OcIf.fetch_metric_bundles Sample.clk s1) in
  snd (OcIf.fetch_metric_bundles Sample.clk self) = Ok OcIf.SelfBundleList
  /\ snd (OcIf.fetch_metric_bundles Sample.clk s1) = Ok OcIf.FreshEmpty
  /\ (same_contents (OcIf.contents s1 OcIf.SelfBundleList)
                    (OcIf.contents s2 OcIf.FreshEmpty)
      <-> BasePlug._on_sync (OcIf.base self) = false
          \/ Forall (fun nf => nf_update nf = [])
                    (BasePlug._buffer (OcIf.base self))).
Proof.
  intros self s1 s2.
  assert (H1 : snd (OcIf.fetch_metric_bundles Sample.clk self)
               = Ok OcIf.SelfBundleList) by (vm_compute; reflexivity).
  pose proof (fetch_metric_bundles_second_call_empty Sample.clk Sample.clk self)
    as (H2 & _ & H3).
  split; [exact H1|]. split; [exact H2|]. exact (H3 _ H1).
Defined.

(** C3, evaluated on the code: an unknown leaf and a missing path key leave
    the render standing, but a metric leaf whose value does not cast to an
    integer ends it with the exception of the cast.  The counter of the
    second and third input is the text of a number between double quotes,
    the form a 64-bit counter has in JSON_IETF, respectively a word. *)
Theorem fetch_metric_bundles_aborts_on_failed_cast :
  snd (OcIf.fetch_metric_bundles Sample.clk
         (Sample.synced [Sample.nf 10 [Sample.u_name; Sample.u_unknown;
                                       Sample.u_mtu_nokey]]))
  = Ok OcIf.SelfBundleList
  /\ snd (OcIf.fetch_metric_bundles Sample.clk
            (Sample.synced
               [Sample.nf 10 [Sample.u_name;
                              Sample.u_in_octets (PyBytes Sample.quoted_1234)]]))
     = Raise ValueError
  /\ snd (OcIf.fetch_metric_bundles Sample.clk
            (Sample.synced
               [Sample.nf 10 [Sample.u_name;
                              Sample.u_in_octets (PyStr "abc")]]))
     = Raise ValueError.
Proof. repeat split; vm_compute; reflexivity. Qed.

(** C8 at a plugin in sync whose buffer holds three notifications received
    out of timestamp order, two of them with the same timestamp. *)
Lemma checkout_lists_sorted_stable_witness :
  let self :=
    OcIf.base (Sample.synced
                 [Sample.nf 20 [Sample.u_name];
                  Sample.nf 10 [Sample.u_in_octets (PyInt 1); Sample.u_name];
                  Sample.nf 20 [Sample.u_in_octets (PyInt 2)]]) in
  let self' := fst (BasePlug.checkout self) in
  BasePlug.checkout self = (self', Ok tt)
  /\ map BasePlug.upd_ts (BasePlug.update_list self') = [10; 10; 20; 20]%Z
  /\ exists ul dl,
      BasePlug.nf_loop (fst (BasePlug.drain (BasePlug.set_lists self [] [])))
                       [] []
      = (ul, dl, Ok tt)
      /\ StronglySorted (key_le BasePlug.upd_ts) (BasePlug.update_list self')
      /\ StronglySorted (key_le BasePlug.timestamp) (BasePlug.delete_list self')
      /\ Permutation ul (BasePlug.update_list self')
      /\ Permutation dl (BasePlug.delete_list self')
      /\ (forall t, filter (with_key BasePlug.upd_ts t)
                           (BasePlug.update_list self')
                    = filter (with_key BasePlug.upd_ts t) ul)
      /\ (forall t, filter (with_key BasePlug.timestamp t)
                           (BasePlug.delete_list self')
                    = filter (with_key BasePlug.timestamp t) dl).
Proof.
  intros self self'.
  assert (H : BasePlug.checkout self = (self', Ok tt))
    by (vm_compute; reflexivity).
  split; [exact H|]. split; [vm_compute; reflexivity|].
  exact (@checkout_lists_sorted_stable self self' H).
Defined.

(** C9 at a new plugin, out of sync, that is handed two notifications
    before the sync response arrives: the first checkout after it returns,
    empties the buffer and holds the messages of both notifications. *)
Lemma out_of_sync_notifications_reach_first_drain_witness :
  let self := OcIf.base Sample.plugin0 in
  let nfs := [Sample.nf 10 [Sample.u_name];
              Sample.nf 11 [Sample.u_in_octets (PyInt 7)]] in
  let self1 := fold_left BasePlug.gnmi_notification_handler nfs self in
  let self2 := BasePlug.set_sync_status self1 true in
  BasePlug._on_sync self = false
  /\ carry_values (BasePlug._buffer self ++ nfs)
  /\ BasePlug._buffer self2 = nfs
  /\ BasePlug._on_sync self2 = true
  /\ snd (BasePlug.checkout self2) = Ok tt
  /\ BasePlug._buffer (fst (BasePlug.checkout self2)) = []
  /\ forall nf u, In nf nfs -> In u (nf_update nf) ->
        exists m, BasePlug.new_upd_msg (BasePlug.GnmiUpdate_init nf) u = Ok m
                  /\ In m (BasePlug.update_list
                             (fst (BasePlug.checkout self2))).
Proof.
  intros self nfs self1 self2.
  assert (H : BasePlug._on_sync self = false) by reflexivity.
  assert (Hv : carry_values (BasePlug._buffer self ++ nfs)).
  { repeat constructor; discriminate. }
  destruct (out_of_sync_notifications_reach_first_drain self nfs H)
    as (_ & _ & Hb2 & Hs2 & _ & Hempty & [_ Hret] & Hin & _).
  split; [exact H|]. split; [exact Hv|].
  split; [exact Hb2|]. split; [exact Hs2|].
  split; [exact (Hret Hv)|]. split; [exact Hempty|].
  exact (Hin Hv).
Defined.

(* ------------------------------------------------------------------ *)
(** ** The collector *)

Lemma set_metrics_set_metrics b m m' :
  set_metrics (set_metrics b m) m' = set_metrics b m'.
Proof. reflexivity. Qed.

Lemma set_metrics_same b : set_metrics b (metrics b) = b.
Proof. now destruct b. Qed.

Lemma merge_fold_some bs b0 :
  fold_left merge_step bs (Some b0) = Some (set_metrics b0 (appended b0 bs)).
Proof.
  unfold appended. revert b0. induction bs as [|b bs IH]; intros b0; simpl.
  - now rewrite set_metrics_same.
  - rewrite IH. reflexivity.
Qed.

Lemma merge_fold_none b bs :
  fold_left merge_step (b :: bs) None = Some (set_metrics b (appended b bs)).
Proof. simpl. apply merge_fold_some. Qed.

Lemma dict_get_in_values (V : Type) k (v : V) d :
  Dict.get k d = Some v -> In v (Dict.values d).
Proof.
  induction d as [|[k' v'] d IH]; simpl; [discriminate|].
  destruct (String.eqb k k'); intros H.
  - inversion H. now left.
  - right. auto.
Qed.

Section PromExpFacts.
Import PromExp.
Variable Plugin : Type.
Variable fetch : Plugin -> Plugin * result (list GnmiMetricBundle).

Lemma bundle_step_get n st b :
  Dict.get n (fst (bundle_step st b))
  = if is_valid b && named n b then merge_step (Dict.get n (fst st)) b
    else Dict.get n (fst st).
Proof.
  destruct st as [table names]. unfold bundle_step, named.
  destruct (is_valid b); simpl; [|reflexivity].
  rewrite (String.eqb_sym (metric_name b) n).
  destruct (Dict.get (metric_name b) table) as [b0|] eqn:G;
    simpl; rewrite dict_get_set;
    destruct (String.eqb n (metric_name b)) eqn:E; auto;
    apply String.eqb_eq in E; subst n; now rewrite G.
Qed.

Lemma bundle_step_names st b :
  snd (bundle_step st b)
  = if is_valid b then ListSet.set_add string_dec (device_name b) (snd st)
    else snd st.
Proof.
  destruct st as [table names]. unfold bundle_step.
  now destruct (is_valid b).
Qed.

Lemma bundles_fold_get n l st :
  Dict.get n (fst (fold_left bundle_step l st))
  = fold_left merge_step (filter (named n) (filter is_valid l))
              (Dict.get n (fst st)).
Proof.
  revert st. induction l as [|b l IH]; intros st; simpl; [reflexivity|].
  rewrite IH, bundle_step_get.
  destruct (is_valid b); simpl; [|reflexivity].
  now destruct (named n b).
Qed.

Lemma bundles_fold_names l st :
  snd (fold_left bundle_step l st)
  = fold_left (fun names b => ListSet.set_add string_dec (device_name b) names)
              (filter is_valid l) (snd st).
Proof.
  revert st. induction l as [|b l IH]; intros st; simpl; [reflexivity|].
  rewrite IH, bundle_step_names. now destruct (is_valid b).
Qed.

Lemma response_step_table w plugin :
  w_table (response_step w plugin)
  = if returned_something plugin
    then fst (fold_left bundle_step plugin
                        (w_table w, ListSet.empty_set string))
    else w_table w.
Proof.
  unfold response_step. destruct (returned_something plugin); [|reflexivity].
  now destruct (fold_left bundle_step plugin _).
Qed.

(** The device count an accepted answer leaves is that of this answer
    alone: what earlier answers added is gone. *)
Lemma response_step_devices w plugin :
  returned_something plugin = true ->
  w_devices (response_step w plugin) = List.length (devices_of_answer plugin).
Proof.
  intros H. unfold response_step, devices_of_answer. rewrite H.
  pose proof (bundles_fold_names plugin (w_table w, ListSet.empty_set string))
    as Hn.
  destruct (fold_left bundle_step plugin _) as [t names].
  simpl in *. now rewrite Hn.
Qed.

Lemma responses_fold_get n rs w :
  Dict.get n (w_table (fold_left response_step rs w))
  = fold_left merge_step (filter (named n) (accepted_bundles rs))
              (Dict.get n (w_table w)).
Proof.
  revert w. induction rs as [|r rs IH]; intros w; [reflexivity|].
  cbn [fold_left]. rewrite IH, response_step_table.
  unfold accepted_bundles. cbn [flat_map].
  rewrite filter_app, fold_left_app.
  destruct (returned_something r); [|reflexivity].
  now rewrite bundles_fold_get.
Qed.

Lemma gather_length ps :
  List.length (fst (gather fetch ps)) = List.length ps.
Proof.
  induction ps as [|p ps IH]; simpl; [reflexivity|].
  destruct (fetch p) as [p1 r]. destruct (gather fetch ps) as [ps1 rs].
  simpl in *. now rewrite IH.
Qed.

(** The table and the plugin list after [_query_plugins] has returned. *)
Lemma query_plugins_ok self self' :
  _query_plugins fetch self = (self', Ok tt) ->
  _config self' = _config self
  /\ List.length (_plugin_list self') = List.length (_plugin_list self)
  /\ exists response,
      snd (gather fetch (_plugin_list self)) = Ok response
      /\ _bundle_table self'
         = w_table (fold_left response_step response
                              (mkWalk (_bundle_table self) 0 0)).
Proof.
  unfold _query_plugins. intros H.
  destruct (_plugin_list self) as [|p ps] eqn:L.
  - inversion H; subst; clear H. simpl. repeat split; auto.
    exists []. now split.
  - pose proof (gather_length (p :: ps)) as Hlen.
    destruct (gather fetch (p :: ps)) as [ps1 [response|e]];
      inversion H; subst; clear H.
    simpl in *. repeat split; auto.
    exists response. now split.
Qed.

(** A scrape leaves the table empty for the next one. *)
Lemma collect_clears_table clk self :
  _bundle_table (fst (collect fetch clk self)) = []
  \/ exists e, snd (collect fetch clk self) = Raise e.
Proof.
  unfold collect.
  destruct (_query_plugins fetch self) as [self1 [[]|e]].
  - now left.
  - right. now exists e.
Qed.

Lemma compute_stats_configured_devices clk (self : PromClient Plugin) :
  Dict.get "configured_devices" (_bundle_table (_compute_stats clk self))
  = Some (configured_devices_gauge (_config self)
                                   (List.length (_plugin_list self)) (clk 0)).
Proof.
  unfold _compute_stats, put, set_table.
  cbn [_bundle_table _config _plugin_list].
  rewrite !dict_get_set. reflexivity.
Qed.

End PromExpFacts.

(** C4, evaluated on the code: two plugins answer with one valid bundle
    each, for the devices r1 and r2.  Both answers are accepted and the set
    of the device names over the accepted bundles has two elements, but
    [_collected_devices] is 1: the set is started anew for every answer and
    the count of the last accepted answer is the one that stays. *)
Theorem collected_devices_counts_last_answer_only :
  let response := [[Sample.bundle "r1" "gnmi_iface_in_octets" 1];
                   [Sample.bundle "r2" "gnmi_iface_in_octets" 2]] in
  let self' := fst (PromExp._query_plugins Sample.answer
                                           (Sample.collector response)) in
  snd (PromExp._query_plugins Sample.answer (Sample.collector response)) = Ok tt
  /\ snd (PromExp.gather Sample.answer response) = Ok response
  /\ device_set (accepted_bundles response) = ["r1"; "r2"]
  /\ PromExp._collected_plugins self' = 2
  /\ PromExp._collected_devices self' = 1.
Proof. repeat split; vm_compute; reflexivity. Qed.



(* ------------------------------------------------------------------ *)
(** ** Sessions: plugin loading and the capability check *)

Section ClientFacts.
Import Client.

Lemma load_plugins_registers global_cfg device_cfg names table paths exporter :
  let e := snd (load_plugins global_cfg device_cfg names table paths exporter) in
  List.length (PromExp._plugin_list e)
  = List.length (PromExp._plugin_list exporter)
    + List.length (filter loadable names).
Proof.
  revert table paths exporter.
  induction names as [|plugin names IH]; intros table paths exporter;
    cbn [load_plugins filter].
  - simpl. lia.
  - unfold loadable at 1.
    destruct (String.eqb plugin "oc_interfaces").
    + rewrite IH. cbn [PromExp.register_plugin PromExp._plugin_list].
      rewrite length_app. simpl. lia.
    + apply IH.
Qed.

Lemma GnmiClient_init_ok global_cfg device_cfg exporter c e :
  GnmiClient_init global_cfg device_cfg exporter = Ok (c, e) ->
  _selected_encoding c = JSON
  /\ List.length (PromExp._plugin_list e)
     = List.length (PromExp._plugin_list exporter)
       + List.length (filter loadable (dc_plugins device_cfg)).
Proof.
  unfold GnmiClient_init. intros H.
  destruct (_parse_config global_cfg device_cfg) as [cfg|err] eqn:P;
    [|discriminate].
  assert (Hp : plugins cfg = dc_plugins device_cfg).
  { unfold _parse_config, bind in P.
    repeat match type of P with
           | match ?x with _ => _ end = _ => destruct x; [|discriminate]
           end.
    inversion P. reflexivity. }
  cbn [bind] in H.
  pose proof (load_plugins_registers global_cfg device_cfg (plugins cfg)
                                     [] [] exporter) as Hl.
  destruct (load_plugins _ _ _ _ _ _) as [[table paths] e1].
  inversion H; subst. split; [reflexivity|].
  cbn [snd] in Hl. now rewrite Hl, Hp.
Qed.

Lemma load_clients_registers global_cfg devices_cfg devices_list exporter cl e :
  Core.load_clients global_cfg devices_cfg devices_list exporter = Ok (cl, e) ->
  List.length (PromExp._plugin_list e)
  = List.length (PromExp._plugin_list exporter) + loaded_plugins devices_cfg.
Proof.
  revert devices_list exporter.
  induction devices_cfg as [|dev rest IH]; intros devices_list exporter H;
    cbn [Core.load_clients] in H.
  - inversion H; subst. unfold loaded_plugins. simpl. lia.
  - destruct (GnmiClient_init global_cfg dev exporter) as [[c e1]|err] eqn:G;
      [|discriminate].
    cbn [bind fst snd] in H.
    apply IH in H. destruct (GnmiClient_init_ok _ _ _ G) as [_ Hl].
    rewrite H, Hl. unfold loaded_plugins. simpl. lia.
Qed.

Lemma filter_loadable_nodup names :
  NoDup names ->
  List.length (filter loadable names)
  = if existsb loadable names then 1 else 0.
Proof.
  induction 1 as [|x l Hx _ IH]; simpl; [reflexivity|].
  destruct (loadable x) eqn:L; simpl; [|exact IH].
  apply String.eqb_eq in L. subst x.
  assert (Hl : existsb loadable l = false).
  { destruct (existsb loadable l) eqn:E; [|reflexivity].
    apply existsb_exists in E. destruct E as (y & Hy & Ly).
    apply String.eqb_eq in Ly. subst y. contradiction. }
  rewrite Hl in IH. now rewrite IH.
Qed.

Lemma loaded_plugins_sets devices_cfg :
  (forall dev, In dev devices_cfg -> NoDup (dc_plugins dev)) ->
  loaded_plugins devices_cfg = devices_with_plugin devices_cfg
  /\ devices_with_plugin devices_cfg <= List.length devices_cfg.
Proof.
  unfold loaded_plugins, devices_with_plugin.
  induction devices_cfg as [|dev rest IH]; intros H; simpl; [split; lia|].
  destruct IH as [IH1 IH2]; [intros d Hd; apply H; now right|].
  rewrite (filter_loadable_nodup (H dev (or_introl eq_refl))), IH1.
  destruct (existsb loadable (dc_plugins dev)); simpl; split; lia.
Qed.

Lemma pick_supported_find encs supported self :
  pick_supported encs supported self
  = match find (fun enc => existsb (Z.eqb (value enc)) supported) encs with
    | Some enc => set_selected self enc
    | None => self
    end.
Proof.
  induction encs as [|enc encs IH]; simpl; [reflexivity|].
  destruct (existsb (Z.eqb (value enc)) supported); auto.
Qed.

End ClientFacts.

(** C7, as it stands, fails: a session whose first capability check found
    PROTO and whose check after a reconnect finds none of the preferred
    encodings keeps PROTO; it does not go back to JSON. *)
Lemma check_caps_keeps_earlier_choice :
  exists c0 e,
    Client.GnmiClient_init [] (Sample.device "r1" ["oc_interfaces"])
                           Sample.exporter0 = Ok (c0, e)
    /\ Client._check_caps c0 (Some (Sample.caps [2%Z]))
       = (Client.set_selected c0 Client.PROTO, Ok tt)
    /\ ~ selects_first_or_json (Client.set_selected c0 Client.PROTO)
                               (Sample.caps [1%Z]).
Proof.
  eexists. eexists. split; [vm_compute; reflexivity|].
  split; [vm_compute; reflexivity|].
  intros H. specialize (H eq_refl _ eq_refl). vm_compute in H. discriminate H.
Qed.

(** C7, amended: when force_encoding is not set and the device lists the
    data models the plugins need, the capability check returns and selects
    the first of PROTO, JSON, JSON_IETF, ASCII whose value is among the
    device's supported encodings, for every list of supported encodings; if
    none is, the selected encoding stays what it was before the check, which
    is JSON on the first check of a session. *)
Theorem check_caps_selects_first_supported_or_keeps
        (self : Client.GnmiClient) (resp : Client.CapabilityResponse) :
  Client.force_encoding (Client._config self) = "" ->
  Client.models_supported self resp = true ->
  snd (Client._check_caps self (Some resp)) = Ok tt
  /\ Client._selected_encoding (fst (Client._check_caps self (Some resp)))
     = match first_preferred (Client.supported_encodings resp) with
       | Some enc => enc
       | None => Client._selected_encoding self
       end
  /\ forall global_cfg device_cfg exporter exporter',
      Client.GnmiClient_init global_cfg device_cfg exporter
      = Ok (self, exporter') ->
      first_preferred (Client.supported_encodings resp) = None ->
      Client._selected_encoding (fst (Client._check_caps self (Some resp)))
      = Client.JSON.
Proof.
  intros Hforce Hmodels.
  assert (H : Client._check_caps self (Some resp)
              = (match first_preferred (Client.supported_encodings resp) with
                 | Some enc => Client.set_selected self enc
                 | None => self
                 end, Ok tt)).
  { unfold Client._check_caps. rewrite Hmodels, Hforce. cbn [negb String.eqb].
    now rewrite pick_supported_find. }
  rewrite H. cbn [fst snd]. split; [reflexivity|]. split.
  - now destruct (first_preferred (Client.supported_encodings resp)).
  - intros g d e e' Hinit Hnone. rewrite Hnone.
    now destruct (GnmiClient_init_ok _ _ _ Hinit).
Qed.

(** The amended statement at a new session and a device that supports JSON
    and JSON_IETF: JSON is selected, the first match in the preferred
    order. *)
Lemma check_caps_selects_first_supported_or_keeps_witness :
  exists c0 e,
    Client.GnmiClient_init [] (Sample.device "r1" ["oc_interfaces"])
                           Sample.exporter0 = Ok (c0, e)
    /\ Client.force_encoding (Client._config c0) = ""
    /\ Client.models_supported c0 (Sample.caps [0%Z; 4%Z]) = true
    /\ snd (Client._check_caps c0 (Some (Sample.caps [0%Z; 4%Z]))) = Ok tt
    /\ Client._selected_encoding
         (fst (Client._check_caps c0 (Some (Sample.caps [0%Z; 4%Z]))))
       = Client.JSON.
Proof.
  eexists. eexists. split; [vm_compute; reflexivity|].
  match goal with
  | |- ?F /\ ?M /\ _ =>
      assert (Hf : F) by reflexivity;
      assert (Hm : M) by (vm_compute; reflexivity)
  end.
  split; [exact Hf|]. split; [exact Hm|].
  destruct (check_caps_selects_first_supported_or_keeps _ _ Hf Hm)
    as (H1 & H2 & _).
  split; [exact H1|]. rewrite H2. reflexivity.
Defined.

(** C10, as it stands, fails: two devices that each enable two plugin names,
    of which the session loads the one it knows, leave two plugins in the
    collector's list, and the configured-devices gauge of the scrape says 2,
    not 2 * 2. *)
Lemma configured_devices_gauge_not_d_times_p :
  let devices_cfg := [Sample.device "r1" ["oc_interfaces"; "oc_bgp"];
                      Sample.device "r2" ["oc_interfaces"; "oc_bgp"]] in
  exists clients exporter self' out,
    Core.start [] devices_cfg = Ok (clients, exporter)
    /\ Forall (fun dev => List.length (Client.dc_plugins dev) = 2) devices_cfg
    /\ List.length (PromExp._plugin_list exporter) = 2
    /\ List.length (PromExp._plugin_list exporter)
       <> List.length devices_cfg * 2
    /\ PromExp.collect (OcIf.fetch_metric_bundles_contents Sample.clk)
                       Sample.clk exporter = (self', Ok out)
    /\ In (configured_devices_gauge (PromExp._config exporter) 2
                                    (Sample.clk 0)) out
    /\ ~ In (configured_devices_gauge (PromExp._config exporter) 4
                                      (Sample.clk 0)) out.
Proof.
  intros devices_cfg.
  eexists. eexists. eexists. eexists.
  split; [vm_compute; reflexivity|].
  split; [repeat constructor|].
  split; [reflexivity|].
  split; [vm_compute; discriminate|].
  split; [vm_compute; reflexivity|].
  split; [vm_compute; left; reflexivity|].
  intros H. vm_compute in H.
  repeat (destruct H as [H|H]; [discriminate H|]). exact H.
Qed.

(** C10, amended: on every scrape that gets to the export, the bundle
    exported as the configured-devices gauge holds the length of the
    collector's plugin list.  After [App.start] that list has one entry for
    every pair of a device and a plugin name of its set that the session
    loads; the session loads one name only, so with plugin sets the length
    is the number of devices whose set holds that name, which is at most
    the number d of devices, and less than d * p for every p from 2 on when
    there is a device. *)
Theorem configured_devices_gauge_counts_plugins :
  (forall (Plugin : Type)
          (fetch : Plugin -> Plugin * result (list GnmiMetricBundle))
          (clk : nat -> Z) (self self' : PromExp.PromClient Plugin)
          (out : list GnmiMetricBundle),
      PromExp.collect fetch clk self = (self', Ok out) ->
      In (configured_devices_gauge
            (PromExp._config self)
            (List.length (PromExp._plugin_list self)) (clk 0))
         out)
  /\ (forall (global_cfg : Dict.t string) (devices_cfg : list Client.DeviceCfg)
             (clients : list Client.GnmiClient) (exporter : Client.Exporter),
         Core.start global_cfg devices_cfg = Ok (clients, exporter) ->
         List.length (PromExp._plugin_list exporter) = loaded_plugins devices_cfg
         /\ ((forall dev, In dev devices_cfg ->
                          NoDup (Client.dc_plugins dev)) ->
             List.length (PromExp._plugin_list exporter)
             = devices_with_plugin devices_cfg
             /\ List.length (PromExp._plugin_list exporter)
                <= List.length devices_cfg
             /\ forall p, 2 <= p -> devices_cfg <> [] ->
                  List.length (PromExp._plugin_list exporter)
                  < List.length devices_cfg * p)).
Proof.
  split.
  - intros Plugin fetch clk self self' out H.
    unfold PromExp.collect in H.
    destruct (PromExp._query_plugins fetch self) as [self1 [[]|e]] eqn:Q;
      [|discriminate].
    cbv zeta in H.
    remember (PromExp._compute_stats clk self1) as self2 eqn:E.
    injection H as _ <-. subst self2.
    destruct (@query_plugins_ok _ _ _ _ Q) as (Hc & Hl & _).
    apply filter_In. split; [|reflexivity].
    apply dict_get_in_values with (k := "configured_devices").
    rewrite compute_stats_configured_devices, Hc, Hl. reflexivity.
  - intros global_cfg devices_cfg clients exporter H.
    unfold Core.start in H.
    destruct (PromExp.PromClient_init OcIf.OcInterfaces global_cfg)
      as [pc|e] eqn:I; [|discriminate].
    cbn [bind] in H. apply load_clients_registers in H.
    assert (Hnil : PromExp._plugin_list pc = []).
    { unfold PromExp.PromClient_init in I.
      destruct (PromExp._parse_config global_cfg); [|discriminate].
      inversion I. reflexivity. }
    rewrite Hnil in H. simpl in H. split; [exact H|].
    intros Hsets. rewrite H.
    destruct (loaded_plugins_sets devices_cfg Hsets) as [H1 H2].
    rewrite H1. split; [reflexivity|]. split; [exact H2|].
    intros p Hp Hne.
    assert (0 < List.length devices_cfg)
      by (destruct devices_cfg; [contradiction | simpl; lia]).
    nia.
Qed.

(** The amended statement at three devices, two of which enable the
    oc_interfaces plugin: the list has two entries and the gauge of the
    first scrape says 2. *)
Lemma configured_devices_gauge_counts_plugins_witness :
  let devices_cfg := [Sample.device "r1" ["oc_interfaces"; "oc_bgp"];
                      Sample.device "r2" ["oc_bgp"];
                      Sample.device "r3" ["oc_interfaces"]] in
  exists clients exporter self' out,
    Core.start [] devices_cfg = Ok (clients, exporter)
    /\ (forall dev, In dev devices_cfg -> NoDup (Client.dc_plugins dev))
    /\ PromExp.collect (OcIf.fetch_metric_bundles_contents Sample.clk)
                       Sample.clk exporter = (self', Ok out)
    /\ List.length (PromExp._plugin_list exporter) = 2
    /\ In (configured_devices_gauge (PromExp._config exporter) 2
                                    (Sample.clk 0)) out.
Proof.
  intros devices_cfg.
  eexists. eexists. eexists. eexists.
  match goal with
  | |- ?S /\ ?N /\ ?C /\ _ =>
      assert (Hs : S) by (vm_compute; reflexivity);
      assert (Hn : N)
        by (intros dev [<-|[<-|[<-|[]]]]; vm_compute;
            repeat constructor; intros H;
            repeat (destruct H as [H|H]; [discriminate H|]); exact H);
      assert (Hc : C) by (vm_compute; reflexivity)
  end.
  destruct configured_devices_gauge_counts_plugins as [Hscrape Hstart].
  destruct (Hstart _ _ _ _ Hs) as [_ Hsets].
  destruct (Hsets Hn) as (Hlen & _ & _).
  split; [exact Hs|]. split; [exact Hn|]. split; [exact Hc|].
  split; [rewrite Hlen; reflexivity|].
  pose proof (Hscrape _ _ _ _ _ _ Hc) as Hin.
  rewrite Hlen in Hin. exact Hin.
Defined.

(* ================================================================== *)
(** * Further properties of the modelled code *)

(* ------------------------------------------------------------------ *)
(** ** The plugin base *)

Section BasePlugMore.
Import BasePlug.

Lemma nf_loop_deletes nf_buf ul dl ul' dl' :
  nf_loop nf_buf ul dl = (ul', dl', Ok tt) ->
  dl' = dl ++ flat_map (fun nf => map (new_del_msg (GnmiMessage_init nf))
                                      (nf_delete nf)) nf_buf.
Proof.
  revert ul dl. induction nf_buf as [|nf nf_buf IH]; intros ul dl H; simpl in H.
  - inversion H; subst. now rewrite app_nil_r.
  - destruct (upd_loop (GnmiUpdate_init nf) (nf_update nf) ul)
      as [ul1 [[]|e]]; [|discriminate].
    apply IH in H. rewrite H. unfold del_loop. simpl.
    now rewrite app_assoc.
Qed.

(** Every message the update loop adds is built from one of the updates it
    was given. *)
Lemma upd_loop_sound g ups ul ul' r :
  upd_loop g ups ul = (ul', r) ->
  forall m, In m ul' ->
    In m ul \/ exists u, In u ups /\ new_upd_msg g u = Ok m.
Proof.
  revert ul. induction ups as [|u ups IH]; intros ul H m Hm; simpl in H.
  - inversion H; subst. now left.
  - destruct (new_upd_msg g u) as [m0|e] eqn:E.
    + destruct (IH _ H m Hm) as [Hin|(u' & Hu' & Hn)].
      * apply in_app_or in Hin as [Hin|[<-|[]]]; [now left|].
        right. exists u. split; [now left | exact E].
      * right. exists u'. split; [now right | exact Hn].
    + inversion H; subst. now left.
Qed.

Lemma nf_loop_sound nf_buf ul dl ul' dl' r :
  nf_loop nf_buf ul dl = (ul', dl', r) ->
  forall m, In m ul' ->
    In m ul
    \/ exists nf u, In nf nf_buf /\ In u (nf_update nf)
                    /\ new_upd_msg (GnmiUpdate_init nf) u = Ok m.
Proof.
  revert ul dl. induction nf_buf as [|nf nf_buf IH]; intros ul dl H m Hm;
    simpl in H.
  - inversion H; subst. now left.
  - destruct (upd_loop (GnmiUpdate_init nf) (nf_update nf) ul)
      as [ul1 [[]|e]] eqn:E.
    + destruct (IH _ _ H m Hm) as [Hin|(nf' & u & Hnf & Hu & Hn)].
      * destruct (upd_loop_sound _ _ _ E m Hin) as [Hin'|(u & Hu & Hn)];
          [now left|].
        right. exists nf, u. repeat split; auto. now left.
      * right. exists nf', u. repeat split; auto. now right.
    + inversion H; subst.
      destruct (upd_loop_sound _ _ _ E m Hm) as [Hin'|(u & Hu & Hn)];
        [now left|].
      right. exists nf, u. repeat split; auto. now left.
Qed.

(** The update loop, when it runs through, adds the expansion of every
    update it was given, in order, and nothing else. *)
Lemma upd_loop_exact g ups ul ul' :
  upd_loop g ups ul = (ul', Ok tt) ->
  map (@Ok GnmiUpdate) ul'
  = map (@Ok GnmiUpdate) ul ++ map (new_upd_msg g) ups.
Proof.
  revert ul. induction ups as [|u ups IH]; intros ul H; simpl in H.
  - inversion H; subst. simpl. now rewrite app_nil_r.
  - destruct (new_upd_msg g u) as [m|e] eqn:E; [|discriminate].
    apply IH in H. rewrite H, map_app. simpl. rewrite E.
    now rewrite <- app_assoc.
Qed.

Lemma nf_loop_exact nf_buf ul dl ul' dl' :
  nf_loop nf_buf ul dl = (ul', dl', Ok tt) ->
  map (@Ok GnmiUpdate) ul'
  = map (@Ok GnmiUpdate) ul
    ++ flat_map (fun nf => map (new_upd_msg (GnmiUpdate_init nf))
                               (nf_update nf)) nf_buf.
Proof.
  revert ul dl. induction nf_buf as [|nf nf_buf IH]; intros ul dl H; simpl in H.
  - inversion H; subst. simpl. now rewrite app_nil_r.
  - destruct (upd_loop (GnmiUpdate_init nf) (nf_update nf) ul)
      as [ul1 [[]|e]] eqn:E; [|discriminate].
    apply IH in H. rewrite H, (upd_loop_exact _ _ _ E). simpl.
    now rewrite <- app_assoc.
Qed.

End BasePlugMore.

(** X1: [checkout] leaves the sync flag and the configuration alone and
    empties the buffer exactly when the plugin is in sync, also when the
    expansion raises, in which case the drained notifications are gone; out
    of sync it returns with both lists empty and the buffer as it was. *)
Theorem checkout_buffer_after (self : BasePlug.BasePlugin) :
  let self' := fst (BasePlug.checkout self) in
  BasePlug._on_sync self' = BasePlug._on_sync self
  /\ BasePlug.config self' = BasePlug.config self
  /\ BasePlug._buffer self'
     = (if BasePlug._on_sync self then [] else BasePlug._buffer self)
  /\ (BasePlug._on_sync self = false ->
      snd (BasePlug.checkout self) = Ok tt
      /\ BasePlug.update_list self' = []
      /\ BasePlug.delete_list self' = []).
Proof.
  unfold BasePlug.checkout, BasePlug.drain. simpl.
  destruct (BasePlug._on_sync self) eqn:S.
  - destruct (BasePlug.nf_loop (BasePlug._buffer self) [] [])
      as [[ul dl] [[]|e]]; simpl; rewrite S; repeat split; discriminate.
  - simpl. rewrite S. repeat split; reflexivity.
Qed.

(** X1 at a plugin out of sync that holds one notification. *)
Lemma checkout_buffer_after_witness :
  let self := BasePlug.gnmi_notification_handler
                (OcIf.base Sample.plugin0) (Sample.nf 10 [Sample.u_name]) in
  BasePlug._on_sync self = false
  /\ snd (BasePlug.checkout self) = Ok tt
  /\ BasePlug._buffer (fst (BasePlug.checkout self))
     = [Sample.nf 10 [Sample.u_name]].
Proof.
  intros self.
  assert (H : BasePlug._on_sync self = false) by reflexivity.
  destruct (checkout_buffer_after self) as (_ & _ & Hb & Hoff).
  split; [exact H|]. split; [exact (proj1 (Hoff H))|].
  rewrite Hb. reflexivity.
Defined.

(** X2: a [checkout] that returns has dropped and repeated nothing: the
    update list holds, up to the order the sort gives them, exactly the
    expansions of the updates of the drained notifications, each as often as
    the buffer holds its update, and the delete list exactly the expansions
    of the deleted paths; so the lists are as long as the drained
    notifications have updates and deleted paths. *)
Theorem checkout_conserves_messages (self self' : BasePlug.BasePlugin) :
  BasePlug.checkout self = (self', Ok tt) ->
  Permutation
    (map (@Ok BasePlug.GnmiUpdate) (BasePlug.update_list self'))
    (flat_map (fun nf => map (BasePlug.new_upd_msg (BasePlug.GnmiUpdate_init nf))
                             (nf_update nf))
              (drained self))
  /\ Permutation
       (BasePlug.delete_list self')
       (flat_map (fun nf => map (BasePlug.new_del_msg
                                   (BasePlug.GnmiMessage_init nf))
                                (nf_delete nf))
                 (drained self))
  /\ List.length (BasePlug.update_list self')
     = List.length (flat_map nf_update (drained self))
  /\ List.length (BasePlug.delete_list self')
     = List.length (flat_map nf_delete (drained self)).
Proof.
  intros H.
  destruct (@checkout_ok_inv _ _ H) as (ul & dl & Hn & Hu & Hd & _).
  rewrite drain_ignores_lists in Hn. fold (drained self) in Hn.
  destruct (nf_loop_ok _ _ _ Hn) as (_ & _ & Hl).
  pose proof (nf_loop_deletes _ _ _ Hn) as Hdl.
  pose proof (nf_loop_exact _ _ _ Hn) as Hul.
  rewrite Hu, Hd.
  split; [|split; [|split]].
  - simpl in Hul. rewrite <- Hul.
    apply Permutation_map, Permutation_sym, sort_by_key_perm.
  - simpl in Hdl. rewrite <- Hdl. apply Permutation_sym, sort_by_key_perm.
  - rewrite <- (Permutation_length (sort_by_key_perm BasePlug.upd_ts ul)).
    exact Hl.
  - erewrite <- Permutation_length by apply sort_by_key_perm.
    rewrite Hdl. simpl. clear.
    induction (drained self) as [|nf l IH]; simpl; [reflexivity|].
    now rewrite !length_app, length_map, IH.
Qed.

(** X2 at a plugin in sync holding two notifications with three updates,
    two of them the same update of the interface name. *)
Lemma checkout_conserves_messages_witness :
  let nfs := [Sample.nf 20 [Sample.u_name];
              Sample.nf 10 [Sample.u_in_octets (PyInt 1); Sample.u_name]] in
  let self := OcIf.base (Sample.synced nfs) in
  Permutation
    (map (@Ok BasePlug.GnmiUpdate)
         (BasePlug.update_list (fst (BasePlug.checkout self))))
    (flat_map (fun nf => map (BasePlug.new_upd_msg (BasePlug.GnmiUpdate_init nf))
                             (nf_update nf)) nfs)
  /\ List.length (BasePlug.update_list (fst (BasePlug.checkout self))) = 3.
Proof.
  intros nfs self.
  assert (H : BasePlug.checkout self = (fst (BasePlug.checkout self), Ok tt))
    by (vm_compute; reflexivity).
  destruct (@checkout_conserves_messages self _ H) as (Hp & _ & Hl & _).
  split; [exact Hp|]. rewrite Hl. reflexivity.
Defined.

(** X3: every message a [checkout] leaves in the update list is the
    expansion of one update of one drained notification: it has the
    timestamp and the atomic flag of the notification, the value and the
    duplicates of the update, and as path the names of the prefix elements
    followed by the names of the update's path elements, with the key maps
    in the same positions. *)
Theorem checkout_messages_come_from_buffer (self self' : BasePlug.BasePlugin) :
  BasePlug.checkout self = (self', Ok tt) ->
  forall m, In m (BasePlug.update_list self') ->
    exists nf u,
      In nf (drained self) /\ In u (nf_update nf)
      /\ upd_val u = Some (BasePlug.val m)
      /\ BasePlug.duplicates m = upd_duplicates u
      /\ BasePlug.timestamp (BasePlug.msg m) = nf_timestamp nf
      /\ BasePlug.atomic (BasePlug.msg m) = nf_atomic nf
      /\ BasePlug.path (BasePlug.msg m)
         = map Utils.name (Utils.elem (nf_prefix nf))
           ++ map Utils.name (Utils.elem (upd_path u))
      /\ BasePlug.path_keys (BasePlug.msg m)
         = map Utils.key (Utils.elem (nf_prefix nf))
           ++ map Utils.key (Utils.elem (upd_path u))
      /\ List.length (BasePlug.path (BasePlug.msg m))
         = List.length (BasePlug.path_keys (BasePlug.msg m)).
Proof.
  intros H m Hm.
  destruct (@checkout_ok_inv _ _ H) as (ul & dl & Hn & Hu & _).
  rewrite drain_ignores_lists in Hn. fold (drained self) in Hn.
  rewrite Hu in Hm.
  apply (Permutation_in _ (Permutation_sym (sort_by_key_perm _ ul))) in Hm.
  destruct (nf_loop_sound _ _ _ Hn m Hm) as [[]|(nf & u & Hnf & Hiu & Hnew)].
  exists nf, u. unfold BasePlug.new_upd_msg in Hnew.
  destruct (upd_val u) as [v|] eqn:V; [|discriminate].
  inversion Hnew; subst m; clear Hnew. simpl.
  repeat split; auto.
  rewrite !length_app, !length_map. reflexivity.
Qed.

(** X3 at a plugin in sync holding one notification with one update. *)
Lemma checkout_messages_come_from_buffer_witness :
  let self := OcIf.base (Sample.synced [Sample.nf 10 [Sample.u_name]]) in
  exists m,
    In m (BasePlug.update_list (fst (BasePlug.checkout self)))
    /\ BasePlug.path (BasePlug.msg m) = ["interfaces"; "interface"; "state"; "name"]
    /\ BasePlug.get_path_key (BasePlug.msg m) 1 "name" = "eth0".
Proof.
  intros self.
  assert (H : BasePlug.checkout self = (fst (BasePlug.checkout self), Ok tt))
    by (vm_compute; reflexivity).
  assert (Hex : exists m,
             In m (BasePlug.update_list (fst (BasePlug.checkout self))))
    by (vm_compute; eexists; left; reflexivity).
  destruct Hex as [m Hm]. exists m. split; [exact Hm|].
  destruct (@checkout_messages_come_from_buffer self _ H m Hm)
    as (nf & u & Hnf & Hu & _ & _ & _ & _ & Hp & Hk & _).
  destruct Hnf as [<-|[]]. destruct Hu as [<-|[]].
  unfold BasePlug.get_path_key. rewrite Hp, Hk. split; reflexivity.
Defined.

Lemma checkout_off (self : BasePlug.BasePlugin) :
  BasePlug._on_sync self = false ->
  BasePlug.checkout self = (BasePlug.set_lists self [] [], Ok tt).
Proof.
  intros S. unfold BasePlug.checkout, BasePlug.drain. simpl. rewrite S.
  reflexivity.
Qed.

Lemma ocif_handler_fold nfs (p : OcIf.OcInterfaces) :
  OcIf.base (fold_left OcIf.gnmi_notification_handler nfs p)
  = fold_left BasePlug.gnmi_notification_handler nfs (OcIf.base p).
Proof.
  revert p. induction nfs as [|m nfs IH]; intros p; simpl; [reflexivity|].
  now rewrite IH.
Qed.

(** X4: once a plugin has been told it is out of sync, a scrape returns a
    new empty list whatever has been delivered since, and consumes nothing:
    the buffer still holds what the desync left (nothing if the plugin was
    in sync, the old contents otherwise) followed by the notifications
    delivered after it. *)
Theorem fetch_out_of_sync_is_empty
        (clk : nat -> Z) (self : OcIf.OcInterfaces) (nfs : list Notification) :
  let s := fold_left OcIf.gnmi_notification_handler nfs
                     (OcIf.set_sync_status self false) in
  snd (OcIf.fetch_metric_bundles clk s) = Ok OcIf.FreshEmpty
  /\ BasePlug._on_sync (OcIf.base (fst (OcIf.fetch_metric_bundles clk s))) = false
  /\ BasePlug._buffer (OcIf.base (fst (OcIf.fetch_metric_bundles clk s)))
     = (if BasePlug._on_sync (OcIf.base self) then []
        else BasePlug._buffer (OcIf.base self)) ++ nfs.
Proof.
  intros s.
  assert (Hbase : OcIf.base s
                  = fold_left BasePlug.gnmi_notification_handler nfs
                      (BasePlug.set_sync_status (OcIf.base self) false)).
  { unfold s. now rewrite ocif_handler_fold. }
  destruct (handler_fold_buffer
              nfs (BasePlug.set_sync_status (OcIf.base self) false))
    as [Hb Hs].
  rewrite <- Hbase in Hb, Hs. simpl in Hs.
  pose proof (fetch_base clk s) as Hfb.
  pose proof (fetch_outcome clk s) as Ho.
  rewrite (checkout_off _ Hs) in Hfb, Ho. simpl in Hfb, Ho.
  rewrite Hfb. simpl. split; [exact Ho|]. split; [exact Hs|].
  rewrite Hb. unfold BasePlug.set_sync_status. simpl.
  now destruct (BasePlug._on_sync (OcIf.base self)).
Qed.

(* ------------------------------------------------------------------ *)
(** ** The interface tables *)

Section TableFacts.
Import OcIf.

Lemma fold_set_get (v : pyval) e ls (row0 : Dict.t pyval) :
  Dict.get e (fold_left (fun row l => Dict.set l v row) ls row0)
  = if PyStr.mem e ls then Some v else Dict.get e row0.
Proof.
  revert row0. induction ls as [|l ls IH]; intros row0; simpl; [reflexivity|].
  rewrite IH, dict_get_set. unfold PyStr.mem.
  destruct (String.eqb e l); simpl; [|reflexivity].
  now destruct (existsb (String.eqb e) ls).
Qed.

Lemma dict_mem_get (V : Type) k (d : Dict.t V) :
  Dict.mem k d = true <-> exists v, Dict.get k d = Some v.
Proof.
  unfold Dict.mem. destruct (Dict.get k d) as [v|]; split;
    try discriminate; eauto. intros [v H]. discriminate.
Qed.

Lemma dict_keys_set_present (V : Type) k (v : V) (d : Dict.t V) :
  Dict.mem k d = true -> Dict.keys (Dict.set k v d) = Dict.keys d.
Proof.
  unfold Dict.mem, Dict.keys.
  induction d as [|[k' v'] d IH]; simpl; [discriminate|].
  destruct (String.eqb k k') eqn:E; simpl; [reflexivity|].
  intros H. now rewrite IH.
Qed.

Lemma dict_keys_set_absent (V : Type) k (v : V) (d : Dict.t V) :
  Dict.mem k d = false -> Dict.keys (Dict.set k v d) = Dict.keys d ++ [k].
Proof.
  unfold Dict.mem, Dict.keys.
  induction d as [|[k' v'] d IH]; simpl; [reflexivity|].
  destruct (String.eqb k k') eqn:E; simpl; [discriminate|].
  intros H. now rewrite IH.
Qed.

Lemma dict_mem_in_keys (V : Type) k (d : Dict.t V) :
  Dict.mem k d = true <-> In k (Dict.keys d).
Proof.
  unfold Dict.mem, Dict.keys.
  induction d as [|[k' v'] d IH]; simpl.
  - split; [discriminate | intros []].
  - destruct (String.eqb k k') eqn:E.
    + apply String.eqb_eq in E. subst. split; auto.
    + apply String.eqb_neq in E. rewrite IH. split; auto.
      intros [H|H]; auto. congruence.
Qed.

Lemma update_table_entry_keys t i e v :
  Dict.keys (update_table_entry t i e v) = Dict.keys t.
Proof.
  unfold update_table_entry.
  destruct (Dict.get i t) as [row|] eqn:G; [|reflexivity].
  apply dict_keys_set_present. apply dict_mem_get. eauto.
Qed.

End TableFacts.

(** X6: [add_table_entry] never touches an interface that is already in the
    table, nor any other one; for a new interface it stores the skeleton:
    every metric of the template reads 0, every label of the template and
    [name] read the empty string, and any other entry reads as missing (a
    single blank). *)
Theorem add_table_entry_skeleton
        (table : OcIf.IfaceTable) (n : string)
        (label_tpl metric_tpl : list string) (n' e : string) :
  OcIf.get_entry (OcIf.add_table_entry table n label_tpl metric_tpl) n' e
  = if String.eqb n' n && negb (Dict.mem n table) then
      if PyStr.mem e metric_tpl then PyInt 0
      else if PyStr.mem e label_tpl || String.eqb e "name" then PyStr ""
      else PyStr " "
    else OcIf.get_entry table n' e.
Proof.
  unfold OcIf.add_table_entry, OcIf.get_entry.
  destruct (Dict.mem n table) eqn:M; simpl.
  - now rewrite andb_false_r.
  - rewrite andb_true_r, dict_get_set.
    destruct (String.eqb n' n); [|reflexivity].
    rewrite !fold_set_get. simpl.
    destruct (PyStr.mem e metric_tpl); [reflexivity|].
    destruct (PyStr.mem e label_tpl); [reflexivity|]. simpl.
    now destruct (String.eqb e "name").
Qed.

Lemma update_table_entry_get_aux
      (t : OcIf.IfaceTable) (i e : string) (v : pyval) (i' e' : string) :
  OcIf.get_entry (OcIf.update_table_entry t i e v) i' e'
  = (if Dict.mem i t && String.eqb i' i && String.eqb e' e then v
     else OcIf.get_entry t i' e')
  /\ OcIf.items (OcIf.update_table_entry t i e v) = OcIf.items t.
Proof.
  split; [|apply update_table_entry_keys].
  unfold OcIf.update_table_entry, OcIf.get_entry, Dict.mem.
  destruct (Dict.get i t) as [row|] eqn:G; simpl; [|reflexivity].
  rewrite dict_get_set.
  destruct (String.eqb i' i) eqn:E; simpl; [|reflexivity].
  apply String.eqb_eq in E. subst i'. rewrite G, dict_get_set.
  now destruct (String.eqb e' e).
Qed.

(** X7: writing an entry and reading it back: [update_table_entry] changes
    the one entry it names when the interface is in the table, creating the
    entry if the row lacks it, and is dropped without a trace when the
    interface is not in the table; it never adds an interface. *)
Theorem update_table_entry_get
        (t : OcIf.IfaceTable) (i e : string) (v : pyval) (i' e' : string) :
  OcIf.get_entry (OcIf.update_table_entry t i e v) i' e'
  = (if Dict.mem i t && String.eqb i' i && String.eqb e' e then v
     else OcIf.get_entry t i' e')
  /\ OcIf.items (OcIf.update_table_entry t i e v) = OcIf.items t.
Proof. apply update_table_entry_get_aux. Qed.

(* ------------------------------------------------------------------ *)
(** ** The render, step by step *)

Section RenderFacts.
Import BasePlug OcIf.

(** What a render that hands out its bundle list has gone through. *)
Lemma fetch_ok_inv clk self s :
  fetch_metric_bundles clk self = (s, Ok SelfBundleList) ->
  update_list (base s) <> []
  /\ fst (checkout (base self)) = base s
  /\ exists it0 st0 n1 n2,
      fold_left build_tables_step (update_list (base s)) ([], []) = (it0, st0)
      /\ update_tables_loop (update_list (base s)) it0 st0
         = (iface_table s, subiface_table s, Ok tt)
      /\ build_metrics_names clk (config (base s)) (iface_table s)
                             _IFACE_LABEL_SET _IFACE_METRIC_SET [] 0
         = (iface_metrics_table s, n1)
      /\ build_metrics_names clk (config (base s)) (subiface_table s)
                             _SUBIFACE_LABEL_SET _SUBIFACE_METRIC_SET [] n1
         = (subiface_metrics_table s, n2)
      /\ bundle_list s
         = map (make_bundle (config (base s)) "_iface_"
                  (make_label_set (_PLUGIN_LABEL_SET ++ _IFACE_LABEL_SET))
                  (iface_metrics_table s)) _IFACE_METRIC_SET
           ++ map (make_bundle (config (base s)) "_subiface_"
                     (make_label_set (_PLUGIN_LABEL_SET ++ _SUBIFACE_LABEL_SET))
                     (subiface_metrics_table s)) _SUBIFACE_METRIC_SET.
Proof.
  unfold fetch_metric_bundles, clear_all_tables.
  cbn [base].
  destruct (checkout (base self)) as [b [[]|e]]; [|discriminate].
  unfold set_base. cbn [base iface_table subiface_table iface_metrics_table
                        subiface_metrics_table bundle_list].
  destruct (update_list b) as [|u ul] eqn:U; [discriminate|].
  unfold build_tables, update_tables.
  cbn [base iface_table subiface_table iface_metrics_table
       subiface_metrics_table bundle_list].
  match goal with
  | |- context [fold_left build_tables_step ?l ?i] =>
      destruct (fold_left build_tables_step l i) as [it0 st0] eqn:B
  end.
  unfold set_tables.
  cbn [base iface_table subiface_table iface_metrics_table
       subiface_metrics_table bundle_list].
  match goal with
  | |- context [update_tables_loop ?l ?a ?c] =>
      destruct (update_tables_loop l a c) as [[it st] [[]|e]] eqn:L
  end; cbv beta iota; [|intros H; discriminate H].
  unfold build_metrics.
  cbn [base iface_table subiface_table iface_metrics_table
       subiface_metrics_table bundle_list].
  match goal with
  | |- context [build_metrics_names clk ?c ?t ?ls ?ms ?m 0] =>
      destruct (build_metrics_names clk c t ls ms m 0) as [im n1] eqn:M1
  end.
  match goal with
  | |- context [build_metrics_names clk ?c ?t ?ls ?ms ?m n1] =>
      destruct (build_metrics_names clk c t ls ms m n1) as [sm n2] eqn:M2
  end.
  unfold build_bundle_list, set_metric_tables, set_bundle_list.
  cbn [base iface_table subiface_table iface_metrics_table
       subiface_metrics_table bundle_list].
  intros H. injection H as <-.
  cbn [base iface_table subiface_table iface_metrics_table
       subiface_metrics_table bundle_list].
  split; [rewrite U; discriminate|]. split; [reflexivity|].
  exists it0, st0, n1, n2.
  split; [exact B|]. split; [exact L|]. split; [exact M1|].
  split; [exact M2|]. reflexivity.
Qed.

(** The interfaces of the skeleton tables: those there before and those
    named by a name leaf among the updates. *)
Lemma build_tables_step_keys tabs u :
  let tabs' := build_tables_step tabs u in
  (forall n, In n (Dict.keys (fst tabs'))
             <-> In n (Dict.keys (fst tabs))
                 \/ (PyStr.join (path (msg u)) = "interfacesinterfacestatename"
                     /\ iface_fullname u = n))
  /\ (forall n, In n (Dict.keys (snd tabs'))
                <-> In n (Dict.keys (snd tabs))
                    \/ (PyStr.join (path (msg u))
                        = "interfacesinterfacesubinterfacessubinterfacestatename"
                        /\ subiface_fullname u = n)).
Proof.
  assert (Hadd : forall t n0 lt mt n,
             In n (Dict.keys (add_table_entry t n0 lt mt))
             <-> In n (Dict.keys t) \/ n0 = n).
  { intros t n0 lt mt n. unfold add_table_entry.
    destruct (Dict.mem n0 t) eqn:M.
    - split; auto. intros [H|<-]; auto. now apply dict_mem_in_keys.
    - rewrite dict_keys_set_absent by exact M. rewrite in_app_iff. simpl.
      tauto. }
  destruct tabs as [it st]. unfold build_tables_step. cbn [fst snd]. split.
  - intros n.
    destruct (String.eqb (PyStr.join (path (msg u)))
                         "interfacesinterfacestatename") eqn:E.
    + apply String.eqb_eq in E. rewrite Hadd. tauto.
    + apply String.eqb_neq in E. tauto.
  - intros n.
    destruct (String.eqb (PyStr.join (path (msg u)))
                "interfacesinterfacesubinterfacessubinterfacestatename") eqn:E.
    + apply String.eqb_eq in E. rewrite Hadd. tauto.
    + apply String.eqb_neq in E. tauto.
Qed.

Lemma build_tables_fold_keys ups tabs :
  let tabs' := fold_left build_tables_step ups tabs in
  (forall n, In n (Dict.keys (fst tabs'))
             <-> In n (Dict.keys (fst tabs))
                 \/ exists u, In u ups
                    /\ PyStr.join (path (msg u)) = "interfacesinterfacestatename"
                    /\ iface_fullname u = n)
  /\ (forall n, In n (Dict.keys (snd tabs'))
                <-> In n (Dict.keys (snd tabs))
                    \/ exists u, In u ups
                       /\ PyStr.join (path (msg u))
                          = "interfacesinterfacesubinterfacessubinterfacestatename"
                       /\ subiface_fullname u = n).
Proof.
  revert tabs. induction ups as [|u ups IH]; intros tabs; cbn [fold_left].
  - split; intros n; split; auto; intros [H|(u & [] & _)]; auto.
  - destruct (IH (build_tables_step tabs u)) as [H1 H2].
    destruct (build_tables_step_keys tabs u) as [K1 K2].
    split; intros n; [rewrite H1, K1 | rewrite H2, K2]; split.
    all: try (intros [[H|[Hp Hn]]|(u' & Hin & Hp & Hn)];
              [now left | right; exists u; split; [now left | auto]
               | right; exists u'; split; [now right | auto]]).
    all: intros [H|(u' & [<-|Hin] & Hp & Hn)];
      [left; now left | left; right; auto | right; exists u'; auto].
Qed.

(** The loop of [update_tables] leaves the sets of interfaces as they are,
    however it ends. *)
Lemma update_tables_loop_keys ups it st :
  Dict.keys (fst (fst (update_tables_loop ups it st))) = Dict.keys it
  /\ Dict.keys (snd (fst (update_tables_loop ups it st))) = Dict.keys st.
Proof.
  revert it st. induction ups as [|u ups IH]; intros it st;
    cbn [update_tables_loop]; [now split|].
  assert (Hi : forall it1, iface_half it u = Next it1 ->
                           Dict.keys it1 = Dict.keys it).
  { unfold iface_half. intros it1.
    repeat match goal with
           | |- context [if ?c then _ else _] => destruct c
           | |- context [match py_int ?v with _ => _ end] => destruct (py_int v)
           end; intros H; inversion H; subst;
      auto using update_table_entry_keys. }
  assert (Hs : forall st1, subiface_half st u = Next st1 ->
                           Dict.keys st1 = Dict.keys st).
  { unfold subiface_half. intros st1.
    repeat match goal with
           | |- context [if ?c then _ else _] => destruct c
           | |- context [match py_int ?v with _ => _ end] => destruct (py_int v)
           end; intros H; inversion H; subst;
      auto using update_table_entry_keys. }
  destruct (iface_half it u) as [it1| |e] eqn:E1.
  - specialize (Hi _ eq_refl).
    destruct (subiface_half st u) as [st1| |e] eqn:E2.
    + specialize (Hs _ eq_refl). destruct (IH it1 st1) as [A B].
      now rewrite A, B, Hi, Hs.
    + destruct (IH it1 st) as [A B]. now rewrite A, B, Hi.
    + simpl. now rewrite Hi.
  - apply IH.
  - now split.
Qed.

End RenderFacts.

Lemma append_empty_r (s : string) : (s ++ "")%string = s.
Proof. induction s as [|c s IH]; simpl; [reflexivity | now rewrite IH]. Qed.

(** X8: the interfaces and the subinterfaces a render exports are those
    whose name leaf is among the updates of this scrape: an interface is in
    the table exactly when some update has the path
    interfaces/interface/state/name and carries it as the [name] key of the
    second path element ("not_available" when the key is missing); counters
    and labels of an interface without such an update are dropped. *)
Theorem rendered_interfaces_have_name_leaf
        (clk : nat -> Z) (self s : OcIf.OcInterfaces) :
  OcIf.fetch_metric_bundles clk self = (s, Ok OcIf.SelfBundleList) ->
  (forall n,
      In n (OcIf.items (OcIf.iface_table s))
      <-> exists u, In u (BasePlug.update_list (OcIf.base s))
            /\ PyStr.join (BasePlug.path (BasePlug.msg u))
               = "interfacesinterfacestatename"
            /\ BasePlug.get_path_key (BasePlug.msg u) 1 "name" = n)
  /\ (forall n,
         In n (OcIf.items (OcIf.subiface_table s))
         <-> exists u, In u (BasePlug.update_list (OcIf.base s))
               /\ PyStr.join (BasePlug.path (BasePlug.msg u))
                  = "interfacesinterfacesubinterfacessubinterfacestatename"
               /\ (BasePlug.get_path_key (BasePlug.msg u) 1 "name" ++ "."
                   ++ BasePlug.get_path_key (BasePlug.msg u) 3 "index")%string
                  = n).
Proof.
  intros H.
  destruct (fetch_ok_inv _ _ H)
    as (_ & _ & it0 & st0 & n1 & n2 & Hb & Hl & _).
  destruct (update_tables_loop_keys
              (BasePlug.update_list (OcIf.base s)) it0 st0) as [K1 K2].
  rewrite Hl in K1, K2. cbn [fst snd] in K1, K2.
  destruct (build_tables_fold_keys
              (BasePlug.update_list (OcIf.base s)) ([], [])) as [B1 B2].
  rewrite Hb in B1, B2. cbn [fst snd] in B1, B2.
  unfold OcIf.items. rewrite K1, K2. split; intros n.
  - rewrite B1. simpl. split; [intros [[]|Hx]; exact Hx | now right].
  - rewrite B2. simpl. unfold OcIf.subiface_fullname, PyStr.join. simpl.
    split.
    + intros [[]|(u & Hu & Hp & Hn)]. exists u. repeat split; auto.
      rewrite <- Hn. now rewrite append_empty_r.
    + intros (u & Hu & Hp & Hn). right. exists u. repeat split; auto.
      rewrite <- Hn. now rewrite append_empty_r.
Qed.

(** X8 at a plugin in sync with a name leaf and a counter of eth0. *)
Lemma rendered_interfaces_have_name_leaf_witness :
  let self := Sample.synced [Sample.nf 10 [Sample.u_name;
                                           Sample.u_in_octets (PyInt 100)]] in
  let s := fst (OcIf.fetch_metric_bundles Sample.clk self) in
  OcIf.fetch_metric_bundles Sample.clk self = (s, Ok OcIf.SelfBundleList)
  /\ OcIf.items (OcIf.iface_table s) = ["eth0"]
  /\ exists u, In u (BasePlug.update_list (OcIf.base s))
       /\ PyStr.join (BasePlug.path (BasePlug.msg u))
          = "interfacesinterfacestatename"
       /\ BasePlug.get_path_key (BasePlug.msg u) 1 "name" = "eth0".
Proof.
  intros self s.
  assert (H : OcIf.fetch_metric_bundles Sample.clk self
              = (s, Ok OcIf.SelfBundleList)) by (vm_compute; reflexivity).
  assert (Hi : OcIf.items (OcIf.iface_table s) = ["eth0"])
    by (vm_compute; reflexivity).
  split; [exact H|]. split; [exact Hi|].
  destruct (@rendered_interfaces_have_name_leaf Sample.clk self s H)
    as [Hif _].
  destruct (Hif "eth0") as [Hfwd _].
  apply Hfwd. rewrite Hi. left. reflexivity.
Defined.

Section LastWins.
Import BasePlug OcIf.

Lemma prefix_split a s :
  String.prefix a s = true -> exists r, s = (a ++ r)%string.
Proof.
  revert s. induction a as [|c a IH]; intros s H.
  - now exists s.
  - destruct s as [|c' s]; simpl in H; [discriminate|].
    destruct (Ascii.ascii_dec c c') as [->|Hne]; [|discriminate].
    destruct (IH _ H) as [r ->]. now exists r.
Qed.

(** A path under interfaces/interface/state is not under
    interfaces/interface/subinterfaces/subinterface/state. *)
Lemma iface_prefix_not_subiface s :
  PyStr.startswith "interfacesinterfacestate" s = true ->
  PyStr.startswith "interfacesinterfacesubinterfacessubinterfacestate" s = false.
Proof.
  unfold PyStr.startswith. intros H.
  destruct (prefix_split _ _ H) as [r ->]. reflexivity.
Qed.

Lemma label_not_metric e :
  PyStr.mem e _IFACE_LABEL_SET = true -> PyStr.mem e _IFACE_METRIC_SET = false.
Proof.
  unfold PyStr.mem. intros H. apply existsb_exists in H as (x & Hx & He).
  apply String.eqb_eq in He. subst x.
  repeat (destruct Hx as [<-|Hx]; [reflexivity|]). destruct Hx.
Qed.

(** Where the first half of the loop body leaves an entry. *)
Lemma iface_half_entry it u it' i e :
  iface_half it u = Next it' ->
  get_entry it' i e
  = if writes_iface_entry u i e && Dict.mem i it then
      match iface_value u with Some v => v | None => get_entry it i e end
    else get_entry it i e.
Proof.
  assert (Hw : forall v,
             get_entry (update_table_entry it (iface_fullname u) (leaf u) v) i e
             = if String.eqb (iface_fullname u) i && String.eqb (leaf u) e
                  && Dict.mem i it
               then v else get_entry it i e).
  { intros v.
    rewrite (proj1 (update_table_entry_get_aux it (iface_fullname u) (leaf u)
                      v i e)).
    rewrite (String.eqb_sym (iface_fullname u) i), (String.eqb_sym (leaf u) e).
    destruct (String.eqb i (iface_fullname u)) eqn:E; cbn [andb];
      [|now rewrite andb_false_r].
    apply String.eqb_eq in E. subst i.
    destruct (Dict.mem (iface_fullname u) it); cbn [andb];
      [|now rewrite andb_false_r].
    now destruct (String.eqb e (leaf u)). }
  unfold iface_half, writes_iface_entry, iface_value.
  destruct (PyStr.startswith "interfacesinterfacestate"
                             (PyStr.join (path (msg u)))); cbn [andb].
  2:{ intros H. inversion H. reflexivity. }
  destruct (PyStr.mem (leaf u) _IFACE_LABEL_SET).
  - intros H. inversion H; subst; clear H. apply Hw.
  - destruct (PyStr.mem (leaf u) _IFACE_METRIC_SET).
    + destruct (py_int (val u)) as [z|err]; [|discriminate].
      intros H. inversion H; subst; clear H. apply Hw.
    + discriminate.
Qed.

Lemma update_tables_loop_app l1 l2 it st :
  update_tables_loop (l1 ++ l2) it st
  = match update_tables_loop l1 it st with
    | (it1, st1, Ok _) => update_tables_loop l2 it1 st1
    | r => r
    end.
Proof.
  revert it st. induction l1 as [|u l1 IH]; intros it st; [reflexivity|].
  cbn [app update_tables_loop].
  destruct (iface_half it u) as [it1| |e]; [|apply IH|reflexivity].
  destruct (subiface_half st u) as [st1| |e]; [apply IH|apply IH|reflexivity].
Qed.

(** Updates that do not write an entry leave it as it is. *)
Lemma update_tables_loop_frame ups it st i e :
  Forall (fun u => writes_iface_entry u i e = false) ups ->
  get_entry (fst (fst (update_tables_loop ups it st))) i e = get_entry it i e.
Proof.
  intros H. revert it st. induction H as [|u ups Hu _ IH]; intros it st;
    [reflexivity|].
  cbn [update_tables_loop].
  destruct (iface_half it u) as [it1| |err] eqn:E1.
  - pose proof (iface_half_entry _ _ i e E1) as He. rewrite Hu in He.
    cbn [andb] in He.
    destruct (subiface_half st u) as [st1| |err'];
      [rewrite IH | rewrite IH | cbn [fst]]; exact He.
  - apply IH.
  - reflexivity.
Qed.

End LastWins.

(** X9: the last write wins.  When [update_tables] runs through, the entry
    [e] (a label or a metric) of an interface [i] of the table holds what
    the last update writing it stores: the text of its value for a label,
    its integer value for a metric.  The updates are in [checkout]'s order,
    so this is the update with the latest timestamp. *)
Theorem update_tables_last_write_wins
        (l1 l2 : list BasePlug.GnmiUpdate) (u : BasePlug.GnmiUpdate)
        (it st it' st' : OcIf.IfaceTable) (i e : string) :
  OcIf.update_tables_loop (l1 ++ u :: l2) it st = (it', st', Ok tt) ->
  writes_iface_entry u i e = true ->
  Dict.mem i it = true ->
  PyStr.mem e (OcIf._IFACE_LABEL_SET ++ OcIf._IFACE_METRIC_SET) = true ->
  Forall (fun u' => writes_iface_entry u' i e = false) l2 ->
  exists v, iface_value u = Some v /\ OcIf.get_entry it' i e = v.
Proof.
  intros Hloop Hw Hi He Hl2.
  rewrite update_tables_loop_app in Hloop.
  destruct (OcIf.update_tables_loop l1 it st) as [[it1 st1] [[]|err]] eqn:L1;
    [|discriminate].
  assert (Hi1 : Dict.mem i it1 = true).
  { apply dict_mem_in_keys. apply dict_mem_in_keys in Hi.
    pose proof (proj1 (update_tables_loop_keys l1 it st)) as K.
    rewrite L1 in K. cbn [fst] in K. now rewrite K. }
  unfold writes_iface_entry in Hw.
  apply andb_true_iff in Hw as [Hw Hleaf].
  apply andb_true_iff in Hw as [Hpre Hname].
  apply String.eqb_eq in Hleaf, Hname.
  cbn [OcIf.update_tables_loop] in Hloop.
  assert (Hsub : OcIf.subiface_half st1 u = OcIf.Next st1).
  { unfold OcIf.subiface_half.
    now rewrite (iface_prefix_not_subiface _ Hpre). }
  assert (Hval : exists v, iface_value u = Some v
                           /\ exists it2, OcIf.iface_half it1 u = OcIf.Next it2).
  { unfold iface_value. unfold OcIf.iface_half in *. rewrite Hpre in *.
    rewrite Hleaf in *. unfold PyStr.mem in He. rewrite existsb_app in He.
    fold (PyStr.mem e OcIf._IFACE_LABEL_SET) in *.
    fold (PyStr.mem e OcIf._IFACE_METRIC_SET) in *.
    destruct (PyStr.mem e OcIf._IFACE_LABEL_SET); [eauto|].
    cbn [orb] in He. rewrite He in *.
    destruct (py_int (BasePlug.val u)) as [z|err]; [eauto|discriminate]. }
  destruct Hval as (v & Hv & it2 & Hhalf).
  rewrite Hhalf, Hsub in Hloop.
  exists v. split; [exact Hv|].
  pose proof (@update_tables_loop_frame l2 it2 st1 i e Hl2) as Hf.
  rewrite Hloop in Hf. cbn [fst] in Hf. rewrite Hf.
  rewrite (iface_half_entry _ _ i e Hhalf).
  unfold writes_iface_entry. rewrite Hpre, Hname, Hleaf, !String.eqb_refl, Hi1.
  cbn [andb]. now rewrite Hv.
Qed.

(** X9 at two updates of the MTU of eth0: the later one is what the table
    holds. *)
Lemma update_tables_last_write_wins_witness :
  OcIf.get_entry
    (fst (fst (OcIf.update_tables_loop
                 ([Sample.mtu_msg 10 1500] ++ Sample.mtu_msg 11 9000 :: [])
                 Sample.eth0_table [])))
    "eth0" "mtu"
  = PyStr "9000".
Proof.
  destruct (@update_tables_last_write_wins
              [Sample.mtu_msg 10 1500] [] (Sample.mtu_msg 11 9000)
              Sample.eth0_table []
              (fst (fst (OcIf.update_tables_loop
                           ([Sample.mtu_msg 10 1500]
                              ++ Sample.mtu_msg 11 9000 :: [])
                           Sample.eth0_table [])))
              (snd (fst (OcIf.update_tables_loop
                           ([Sample.mtu_msg 10 1500]
                              ++ Sample.mtu_msg 11 9000 :: [])
                           Sample.eth0_table [])))
              "eth0" "mtu")
    as (v & Hv & Hg);
    [vm_compute; reflexivity | reflexivity | reflexivity | reflexivity
     | constructor | ].
  rewrite Hg. vm_compute in Hv. now inversion Hv.
Defined.

(* ------------------------------------------------------------------ *)
(** ** The metric tables and the bundles *)

Section MetricFacts.
Import BasePlug OcIf.

Lemma add_metric_get mt name m k :
  Dict.get k (add_metric mt name m)
  = if String.eqb k name
    then Some (match Dict.get name mt with Some l => l | None => [] end ++ [m])
    else Dict.get k mt.
Proof.
  unfold add_metric.
  destruct (Dict.get name mt) as [l|]; now rewrite dict_get_set.
Qed.

Lemma build_metrics_ifaces_spec clk cfg table labels metric ifaces mt n :
  snd (build_metrics_ifaces clk cfg table labels metric ifaces mt n)
  = n + List.length ifaces
  /\ forall k,
      Dict.get k (fst (build_metrics_ifaces clk cfg table labels metric
                                            ifaces mt n))
      = if String.eqb k metric && nonempty ifaces
        then Some (match Dict.get metric mt with Some l => l | None => [] end
                   ++ metrics_of clk cfg table labels metric ifaces n)
        else Dict.get k mt.
Proof.
  revert mt n. induction ifaces as [|i rest IH]; intros mt n;
    cbn [build_metrics_ifaces].
  - split; [simpl; lia|]. intros k. now rewrite andb_false_r.
  - destruct (IH (add_metric mt metric
                    (build_metric cfg table labels metric i (clk n))) (S n))
      as [Hn Hg].
    split; [rewrite Hn; simpl; lia|].
    intros k. rewrite Hg, !add_metric_get, String.eqb_refl.
    destruct (String.eqb k metric); cbn [andb nonempty]; [|reflexivity].
    unfold metrics_of. cbn [List.length seq combine map fst snd].
    destruct rest as [|i' rest]; cbn [nonempty]; [reflexivity|].
    now rewrite <- app_assoc.
Qed.

Lemma build_metrics_names_spec clk cfg table labels names :
  NoDup names ->
  forall mt n,
    (forall name, In name names -> Dict.get name mt = None) ->
    snd (build_metrics_names clk cfg table labels names mt n)
    = n + List.length names * List.length (items table)
    /\ (forall k, ~ In k names ->
          Dict.get k (fst (build_metrics_names clk cfg table labels names mt n))
          = Dict.get k mt)
    /\ (forall j name, nth_error names j = Some name ->
          Dict.get name
            (fst (build_metrics_names clk cfg table labels names mt n))
          = if nonempty (items table)
            then Some (metrics_of clk cfg table labels name (items table)
                                  (n + j * List.length (items table)))
            else None).
Proof.
  induction 1 as [|name0 names Hnotin Hnd IH]; intros mt n Hfresh;
    cbn [build_metrics_names].
  - split; [simpl; lia|]. split; [reflexivity|].
    intros [|j] name H; discriminate H.
  - destruct (build_metrics_ifaces_spec clk cfg table labels name0
                                        (items table) mt n) as [Hn1 Hg1].
    destruct (build_metrics_ifaces clk cfg table labels name0 (items table) mt n)
      as [mt1 n1]. cbn [fst snd] in Hn1, Hg1.
    assert (Hfresh1 : forall name, In name names -> Dict.get name mt1 = None).
    { intros name Hin. rewrite Hg1.
      destruct (String.eqb name name0) eqn:E.
      - apply String.eqb_eq in E. subst. contradiction.
      - apply Hfresh. now right. }
    destruct (IH mt1 n1 Hfresh1) as (Hn & Hother & Hnth).
    split; [rewrite Hn, Hn1; simpl; lia|]. split.
    + intros k Hk. rewrite Hother by (intros Hin; apply Hk; now right).
      rewrite Hg1.
      destruct (String.eqb k name0) eqn:E; [|reflexivity].
      apply String.eqb_eq in E. subst. exfalso. apply Hk. now left.
    + intros [|j] name Hj; cbn [nth_error] in Hj.
      * inversion Hj; subst name. rewrite Hother by exact Hnotin.
        rewrite Hg1, String.eqb_refl, (Hfresh name0 (or_introl eq_refl)).
        cbn [andb app]. now rewrite Nat.add_0_r.
      * rewrite (Hnth j name Hj), Hn1.
        replace (n + List.length (items table) + j * List.length (items table))
          with (n + S j * List.length (items table)) by (simpl; lia).
        reflexivity.
Qed.

Lemma metrics_of_length clk cfg table labels metric ifaces n :
  List.length (metrics_of clk cfg table labels metric ifaces n)
  = List.length ifaces.
Proof.
  unfold metrics_of.
  now rewrite length_map, length_combine, length_seq, Nat.min_id.
Qed.

Lemma metrics_of_series clk cfg table labels metric ifaces n :
  map series (metrics_of clk cfg table labels metric ifaces n)
  = map (fun iface =>
           ([PyStr (instance_name cfg); PyStr _DATA_MODEL; PyStr (dev_name cfg)]
              ++ map (get_entry table iface) labels,
            get_entry table iface metric))
        ifaces.
Proof.
  unfold metrics_of. revert n.
  induction ifaces as [|i rest IH]; intros n; [reflexivity|].
  cbn [List.length seq combine map fst snd]. rewrite IH. reflexivity.
Qed.

Lemma metrics_of_labels clk cfg table labels metric ifaces n :
  Forall (fun m => List.length (labelval m) = 3 + List.length labels)
         (metrics_of clk cfg table labels metric ifaces n).
Proof.
  unfold metrics_of. apply Forall_forall. intros m Hm.
  apply in_map_iff in Hm as (p & <- & _).
  unfold build_metric. cbn [labelval]. rewrite length_app, length_map.
  reflexivity.
Qed.

(** Whether a bundle made from a metric table is valid. *)
Lemma make_bundle_valid cfg c infix lset mt name :
  is_valid (make_bundle cfg (String c infix) lset mt name)
  = negb (String.eqb (dev_name cfg) "")
    && forallb (fun m => List.length (labelval m) =? List.length lset)
               (get_metrics mt name).
Proof.
  unfold is_valid, make_bundle.
  cbn [device_name metric_name type labelset metrics GnmiMetricType_eqb].
  destruct (String.eqb (dev_name cfg) "") eqn:D; [reflexivity|].
  cbn [orb negb andb].
  assert (Hne : String.eqb
                  (PyStr.join [metric_prefix cfg; String c infix;
                               PyStr.replace "-" "_" name]) "" = false).
  { unfold PyStr.join. cbn [fold_right].
    destruct (metric_prefix cfg); reflexivity. }
  rewrite Hne. reflexivity.
Qed.

End MetricFacts.

Lemma append_inj_l (p a b : string) : (p ++ a)%string = (p ++ b)%string -> a = b.
Proof.
  induction p as [|c p IH]; simpl; intros H; [exact H|].
  inversion H. auto.
Qed.

Lemma NoDup_map_append (p : string) (l : list string) :
  NoDup l -> NoDup (map (append p) l).
Proof.
  induction 1 as [|x l Hx Hl IH]; simpl; constructor; auto.
  intros Hin. apply in_map_iff in Hin as (y & Hy & Hin).
  apply append_inj_l in Hy. subst. contradiction.
Qed.

Lemma iface_metric_set_nodup : NoDup OcIf._IFACE_METRIC_SET.
Proof.
  assert (E : nodup string_dec OcIf._IFACE_METRIC_SET = OcIf._IFACE_METRIC_SET)
    by (vm_compute; reflexivity).
  rewrite <- E. apply NoDup_nodup.
Qed.

Lemma subiface_metric_set_nodup : NoDup OcIf._SUBIFACE_METRIC_SET.
Proof.
  assert (E : nodup string_dec OcIf._SUBIFACE_METRIC_SET
              = OcIf._SUBIFACE_METRIC_SET) by (vm_compute; reflexivity).
  rewrite <- E. apply NoDup_nodup.
Qed.

(** The metrics [get_metrics] finds for a metric name after [build_metrics]
    ran on empty metric tables: those of the interfaces of the table, or the
    one default metric when the table has no interface. *)
Lemma rendered_metrics clk cfg table labels names n j name :
  NoDup names ->
  nth_error names j = Some name ->
  OcIf.get_metrics
    (fst (OcIf.build_metrics_names clk cfg table labels names [] n)) name
  = if nonempty (OcIf.items table)
    then metrics_of clk cfg table labels name (OcIf.items table)
                    (n + j * List.length (OcIf.items table))
    else [GnmiMetric_default].
Proof.
  intros Hnd Hj.
  destruct (build_metrics_names_spec clk cfg table labels Hnd [] n
                                     (fun _ _ => eq_refl)) as (_ & _ & Hnth).
  unfold OcIf.get_metrics. rewrite (Hnth j name Hj).
  now destruct (nonempty (OcIf.items table)).
Qed.

(** X10: a render that hands out its bundle list always hands out the same
    39 bundles, whatever the updates were: the twenty interface metrics
    before the nineteen subinterface metrics, named by the metric prefix,
    [_iface_] or [_subiface_], and the leaf name with its hyphens turned
    into underscores; the names are pairwise different, and every bundle is
    a COUNTER of the plugin's device without documentation. *)
Theorem rendered_bundle_names (clk : nat -> Z) (self s : OcIf.OcInterfaces) :
  OcIf.fetch_metric_bundles clk self = (s, Ok OcIf.SelfBundleList) ->
  let prefix := BasePlug.metric_prefix (BasePlug.config (OcIf.base s)) in
  map metric_name (OcIf.bundle_list s)
  = map (append prefix)
        ["_iface_in_octets"; "_iface_in_pkts"; "_iface_in_unicast_pkts";
         "_iface_in_broadcast_pkts"; "_iface_in_multicast_pkts";
         "_iface_in_errors"; "_iface_in_discards"; "_iface_out_octets";
         "_iface_out_pkts"; "_iface_out_unicast_pkts";
         "_iface_out_broadcast_pkts"; "_iface_out_multicast_pkts";
         "_iface_out_discards"; "_iface_out_errors"; "_iface_last_clear";
         "_iface_last_change"; "_iface_in_unknown_protos";
         "_iface_in_fcs_errors"; "_iface_carrier_transitions"; "_iface_resets";
         "_subiface_in_octets"; "_subiface_in_pkts"; "_subiface_in_unicast_pkts";
         "_subiface_in_broadcast_pkts"; "_subiface_in_multicast_pkts";
         "_subiface_in_errors"; "_subiface_in_discards"; "_subiface_out_octets";
         "_subiface_out_pkts"; "_subiface_out_unicast_pkts";
         "_subiface_out_broadcast_pkts"; "_subiface_out_multicast_pkts";
         "_subiface_out_discards"; "_subiface_out_errors";
         "_subiface_last_clear"; "_subiface_last_change";
         "_subiface_in_unknown_protos"; "_subiface_in_fcs_errors";
         "_subiface_carrier_transitions"]
  /\ NoDup (map metric_name (OcIf.bundle_list s))
  /\ Forall (fun b =>
               type b = COUNTER
               /\ device_name b
                  = BasePlug.dev_name (BasePlug.config (OcIf.base s))
               /\ documentation b = "")
            (OcIf.bundle_list s).
Proof.
  intros H prefix.
  destruct (fetch_ok_inv _ _ H) as (_ & _ & it0 & st0 & n1 & n2 & _ & _ & _ & _ & Hbl).
  match goal with
  | |- ?L = ?R /\ _ => assert (Hnames : L = R)
  end.
  { rewrite Hbl, map_app, !map_map.
    unfold OcIf.make_bundle. cbn [metric_name]. reflexivity. }
  split; [exact Hnames|]. split.
  - rewrite Hnames. apply NoDup_map_append.
    match goal with
    | |- NoDup ?l =>
        assert (E : nodup string_dec l = l) by (vm_compute; reflexivity);
        rewrite <- E; apply NoDup_nodup
    end.
  - rewrite Hbl. apply Forall_app. split; apply Forall_forall; intros b Hb;
      apply in_map_iff in Hb as (name & <- & _); repeat split.
Qed.

(** X10 at a plugin in sync with an update. *)
Lemma rendered_bundle_names_witness :
  let self := Sample.synced [Sample.nf 10 [Sample.u_name]] in
  let s := fst (OcIf.fetch_metric_bundles Sample.clk self) in
  OcIf.fetch_metric_bundles Sample.clk self = (s, Ok OcIf.SelfBundleList)
  /\ NoDup (map metric_name (OcIf.bundle_list s)).
Proof.
  intros self s.
  assert (H : OcIf.fetch_metric_bundles Sample.clk self
              = (s, Ok OcIf.SelfBundleList)) by (vm_compute; reflexivity).
  split; [exact H|].
  destruct (@rendered_bundle_names Sample.clk self s H) as (_ & Hnd & _).
  exact Hnd.
Defined.

(** One bundle of a group (interfaces or subinterfaces) after the metric
    table of the group was built from an empty one. *)
Lemma group_bundle clk cfg c infix table labels lset names n mt' n' j name :
  NoDup names ->
  OcIf.build_metrics_names clk cfg table labels names [] n = (mt', n') ->
  nth_error names j = Some name ->
  List.length lset = 3 + List.length labels ->
  let b := OcIf.make_bundle cfg (String c infix) lset mt' name in
  is_valid b
  = negb (String.eqb (BasePlug.dev_name cfg) "") && nonempty (OcIf.items table)
  /\ List.length (metrics b) = Nat.max 1 (List.length (OcIf.items table))
  /\ (nonempty (OcIf.items table) = true ->
      map series (metrics b)
      = map (fun iface =>
               ([PyStr (BasePlug.instance_name cfg); PyStr OcIf._DATA_MODEL;
                 PyStr (BasePlug.dev_name cfg)]
                  ++ map (OcIf.get_entry table iface) labels,
                OcIf.get_entry table iface name))
            (OcIf.items table)).
Proof.
  intros Hnd Hb Hj Hlen b.
  pose proof (rendered_metrics clk cfg table labels n j Hnd Hj) as Hm.
  rewrite Hb in Hm. cbn [fst] in Hm.
  unfold b. rewrite make_bundle_valid.
  unfold OcIf.make_bundle. cbn [metrics]. rewrite Hm.
  destruct (OcIf.items table) as [|i rest] eqn:I; cbn [nonempty].
  - split; [|split; [reflexivity | discriminate]].
    cbn [forallb labelval GnmiMetric_default List.length].
    rewrite Hlen. reflexivity.
  - split; [|split].
    + f_equal.
      apply forallb_forall. intros m Hin.
      pose proof (metrics_of_labels clk cfg table labels name (i :: rest)
                                    (n + j * List.length (i :: rest))) as Hl.
      rewrite Forall_forall in Hl. rewrite (Hl m Hin), Hlen.
      apply Nat.eqb_refl.
    + rewrite metrics_of_length. simpl. reflexivity.
    + intros _. apply metrics_of_series.
Qed.

Lemma nth_error_map_inv (A B : Type) (f : A -> B) l j b :
  nth_error (map f l) j = Some b ->
  exists a, nth_error l j = Some a /\ b = f a.
Proof.
  revert j. induction l as [|x l IH]; intros [|j] H; simpl in H;
    try discriminate.
  - inversion H. now exists x.
  - apply IH. exact H.
Qed.

(** X11: which bundles of a render are valid.  A bundle of the interface
    group is valid exactly when the plugin has a device name and the
    interface table has an interface, and it then holds one metric for every
    interface (one default metric without label values otherwise); the same
    for the subinterface group and its table.  The collector tests the first
    bundle, so it accepts the answer exactly when the device is named and
    some interface was found. *)
Theorem rendered_bundles_valid (clk : nat -> Z) (self s : OcIf.OcInterfaces) :
  OcIf.fetch_metric_bundles clk self = (s, Ok OcIf.SelfBundleList) ->
  let named :=
    negb (String.eqb (BasePlug.dev_name (BasePlug.config (OcIf.base s))) "") in
  let ifaces := OcIf.items (OcIf.iface_table s) in
  let subifaces := OcIf.items (OcIf.subiface_table s) in
  (forall j b, j < 20 -> nth_error (OcIf.bundle_list s) j = Some b ->
      is_valid b = named && nonempty ifaces
      /\ List.length (metrics b) = Nat.max 1 (List.length ifaces))
  /\ (forall j b, 20 <= j -> nth_error (OcIf.bundle_list s) j = Some b ->
         is_valid b = named && nonempty subifaces
         /\ List.length (metrics b) = Nat.max 1 (List.length subifaces))
  /\ PromExp.returned_something (OcIf.bundle_list s) = named && nonempty ifaces.
Proof.
  intros H named ifaces subifaces.
  destruct (fetch_ok_inv _ _ H)
    as (_ & _ & it0 & st0 & n1 & n2 & _ & _ & M1 & M2 & Hbl).
  assert (Hi : forall j b, j < 20 ->
             nth_error (OcIf.bundle_list s) j = Some b ->
             is_valid b = named && nonempty ifaces
             /\ List.length (metrics b) = Nat.max 1 (List.length ifaces)).
  { intros j b Hj Hb. rewrite Hbl in Hb.
    rewrite nth_error_app1 in Hb by (rewrite length_map; exact Hj).
    apply nth_error_map_inv in Hb as (name & Hn & ->).
    destruct (@group_bundle
                _ _ "_"%char "iface_" _ _
                (OcIf.make_label_set
                   (OcIf._PLUGIN_LABEL_SET ++ OcIf._IFACE_LABEL_SET))
                _ _ _ _ _ _ iface_metric_set_nodup M1 Hn eq_refl) as (Hv & Hl & _).
    split; [exact Hv | exact Hl]. }
  split; [exact Hi|]. split.
  - intros j b Hj Hb. rewrite Hbl in Hb.
    rewrite nth_error_app2 in Hb by (rewrite length_map; exact Hj).
    apply nth_error_map_inv in Hb as (name & Hn & ->).
    destruct (@group_bundle
                _ _ "_"%char "subiface_" _ _
                (OcIf.make_label_set
                   (OcIf._PLUGIN_LABEL_SET ++ OcIf._SUBIFACE_LABEL_SET))
                _ _ _ _ _ _ subiface_metric_set_nodup M2 Hn eq_refl) as (Hv & Hl & _).
    split; [exact Hv | exact Hl].
  - unfold PromExp.returned_something.
    destruct (OcIf.bundle_list s) as [|b0 rest] eqn:E.
    + apply (f_equal (@List.length _)) in Hbl.
      rewrite length_app, !length_map in Hbl. discriminate Hbl.
    + apply (Hi 0 b0); [lia | reflexivity].
Qed.

(** X11 at a plugin in sync whose only update is a counter, no name leaf:
    the render returns its 39 bundles and the collector turns them down. *)
Lemma rendered_bundles_valid_witness :
  let self := Sample.synced [Sample.nf 10 [Sample.u_in_octets (PyInt 100)]] in
  let s := fst (OcIf.fetch_metric_bundles Sample.clk self) in
  OcIf.fetch_metric_bundles Sample.clk self = (s, Ok OcIf.SelfBundleList)
  /\ PromExp.returned_something (OcIf.bundle_list s) = false.
Proof.
  intros self s.
  assert (H : OcIf.fetch_metric_bundles Sample.clk self
              = (s, Ok OcIf.SelfBundleList)) by (vm_compute; reflexivity).
  split; [exact H|].
  destruct (@rendered_bundles_valid Sample.clk self s H) as (_ & _ & Hr).
  rewrite Hr. vm_compute. reflexivity.
Defined.

(** X12: what a render exports.  When the interface table has an interface,
    the bundle of an interface metric holds one series for every interface,
    in the order of the table: the instance name, the data model and the
    device name, then the interface's labels, with the metric's entry of
    that interface as value.  The same holds for the subinterface metrics,
    which follow the twenty interface metrics. *)
Theorem rendered_series (clk : nat -> Z) (self s : OcIf.OcInterfaces) :
  OcIf.fetch_metric_bundles clk self = (s, Ok OcIf.SelfBundleList) ->
  let cfg := BasePlug.config (OcIf.base s) in
  let row (table : OcIf.IfaceTable) (labels : list string) (name iface : string) :=
    ([PyStr (BasePlug.instance_name cfg); PyStr "openconfig-interfaces";
      PyStr (BasePlug.dev_name cfg)]
       ++ map (OcIf.get_entry table iface) labels,
     OcIf.get_entry table iface name) in
  (forall j name,
      nth_error OcIf._IFACE_METRIC_SET j = Some name ->
      OcIf.items (OcIf.iface_table s) <> [] ->
      exists b, nth_error (OcIf.bundle_list s) j = Some b
        /\ map series (metrics b)
           = map (row (OcIf.iface_table s) OcIf._IFACE_LABEL_SET name)
                 (OcIf.items (OcIf.iface_table s)))
  /\ (forall j name,
         nth_error OcIf._SUBIFACE_METRIC_SET j = Some name ->
         OcIf.items (OcIf.subiface_table s) <> [] ->
         exists b, nth_error (OcIf.bundle_list s) (20 + j) = Some b
           /\ map series (metrics b)
              = map (row (OcIf.subiface_table s) OcIf._SUBIFACE_LABEL_SET name)
                    (OcIf.items (OcIf.subiface_table s))).
Proof.
  intros H cfg row.
  destruct (fetch_ok_inv _ _ H)
    as (_ & _ & it0 & st0 & n1 & n2 & _ & _ & M1 & M2 & Hbl).
  split; intros j name Hn Hne.
  - destruct (@group_bundle
                _ _ "_"%char "iface_" _ _
                (OcIf.make_label_set
                   (OcIf._PLUGIN_LABEL_SET ++ OcIf._IFACE_LABEL_SET))
                _ _ _ _ _ _ iface_metric_set_nodup M1 Hn eq_refl) as (_ & _ & Hs).
    eexists. split.
    + rewrite Hbl, nth_error_app1
        by (rewrite length_map; apply nth_error_Some; congruence).
      apply map_nth_error. exact Hn.
    + apply Hs. destruct (OcIf.items (OcIf.iface_table s));
        [contradiction | reflexivity].
  - destruct (@group_bundle
                _ _ "_"%char "subiface_" _ _
                (OcIf.make_label_set
                   (OcIf._PLUGIN_LABEL_SET ++ OcIf._SUBIFACE_LABEL_SET))
                _ _ _ _ _ _ subiface_metric_set_nodup M2 Hn eq_refl) as (_ & _ & Hs).
    eexists. split.
    + rewrite Hbl, nth_error_app2 by (rewrite length_map; simpl; lia).
      rewrite length_map.
      replace (20 + j - List.length OcIf._IFACE_METRIC_SET) with j
        by (simpl; lia).
      apply map_nth_error. exact Hn.
    + apply Hs. destruct (OcIf.items (OcIf.subiface_table s));
        [contradiction | reflexivity].
Qed.

(** X12 at a plugin in sync with the name and the in-octets counter of
    eth0: the first bundle holds the one series of eth0 with value 100. *)
Lemma rendered_series_witness :
  let self := Sample.synced [Sample.nf 10 [Sample.u_name;
                                           Sample.u_in_octets (PyInt 100)]] in
  let s := fst (OcIf.fetch_metric_bundles Sample.clk self) in
  exists b, nth_error (OcIf.bundle_list s) 0 = Some b
    /\ map series (metrics b)
       = [([PyStr "default"; PyStr "openconfig-interfaces"; PyStr "r1";
            PyStr "eth0"; PyStr ""; PyStr ""; PyStr ""; PyStr ""; PyStr ""],
           PyInt 100)].
Proof.
  intros self s.
  assert (H : OcIf.fetch_metric_bundles Sample.clk self
              = (s, Ok OcIf.SelfBundleList)) by (vm_compute; reflexivity).
  destruct (@rendered_series Sample.clk self s H) as [Hi _].
  destruct (Hi 0 "in-octets" eq_refl) as (b & Hb & Hs).
  { vm_compute. discriminate. }
  exists b. split; [exact Hb|]. rewrite Hs. vm_compute. reflexivity.
Defined.

(* ------------------------------------------------------------------ *)
(** ** The collector, further *)

Section CollectorMore.
Import PromExp.
Variable Plugin : Type.
Variable fetch : Plugin -> Plugin * result (list GnmiMetricBundle).

Lemma response_step_plugins w plugin :
  w_plugins (response_step w plugin)
  = w_plugins w + (if returned_something plugin then 1 else 0).
Proof.
  unfold response_step. destruct (returned_something plugin); [|simpl; lia].
  destruct (fold_left bundle_step plugin _). simpl. lia.
Qed.

Lemma responses_fold_plugins rs w :
  w_plugins (fold_left response_step rs w)
  = w_plugins w + List.length (filter returned_something rs).
Proof.
  revert w. induction rs as [|r rs IH]; intros w; cbn [fold_left filter].
  - simpl. lia.
  - rewrite IH, response_step_plugins.
    destruct (returned_something r); simpl; lia.
Qed.

Lemma query_plugins_ok_counts self self' :
  _query_plugins fetch self = (self', Ok tt) ->
  exists response,
    snd (gather fetch (_plugin_list self)) = Ok response
    /\ _collected_plugins self'
       = w_plugins (fold_left response_step response
                              (mkWalk (_bundle_table self) 0 0)).
Proof.
  unfold _query_plugins. intros H.
  destruct (_plugin_list self) as [|p ps] eqn:L.
  - inversion H; subst; clear H. exists []. now split.
  - destruct (gather fetch (p :: ps)) as [ps1 [response|e]];
      inversion H; subst; clear H.
    exists response. now split.
Qed.

Lemma merge_fold_none_iff bs :
  fold_left merge_step bs None = None <-> bs = [].
Proof.
  destruct bs as [|b bs]; [now split|].
  rewrite merge_fold_none. split; discriminate.
Qed.

End CollectorMore.

(** X13: after [_query_plugins] has returned on an empty table,
    [_collected_plugins] is the number of answers that are a non-empty list
    with a valid first bundle, and the table has an entry for a name exactly
    when one of those answers holds a valid bundle of that name: a valid
    bundle behind an invalid first bundle never gets in. *)
Theorem query_plugins_counts_accepted_answers
        (Plugin : Type)
        (fetch : Plugin -> Plugin * result (list GnmiMetricBundle))
        (self self' : PromExp.PromClient Plugin)
        (response : list (list GnmiMetricBundle)) :
  PromExp._bundle_table self = [] ->
  PromExp._query_plugins fetch self = (self', Ok tt) ->
  snd (PromExp.gather fetch (PromExp._plugin_list self)) = Ok response ->
  PromExp._collected_plugins self'
  = List.length (filter PromExp.returned_something response)
  /\ forall n,
      Dict.get n (PromExp._bundle_table self') = None
      <-> filter (named n) (accepted_bundles response) = [].
Proof.
  intros Hempty Hq Hg.
  destruct (@query_plugins_ok_counts _ _ _ _ Hq) as (r1 & Hg1 & Hp).
  destruct (@query_plugins_ok _ _ _ _ Hq) as (_ & _ & r2 & Hg2 & Ht).
  rewrite Hg in Hg1, Hg2. inversion Hg1; inversion Hg2; subst r1 r2.
  split.
  - rewrite Hp, responses_fold_plugins. reflexivity.
  - intros n. rewrite Ht, responses_fold_get. cbn [PromExp.w_table].
    rewrite Hempty. apply merge_fold_none_iff.
Qed.

(** X13 at two answers: one with a valid bundle, one whose first bundle has
    no device name and whose second bundle is valid. *)
Lemma query_plugins_counts_accepted_answers_witness :
  let good := Sample.bundle "r1" "gnmi_iface_in_octets" 1 in
  let hidden := Sample.bundle "r2" "gnmi_iface_in_pkts" 2 in
  let self := Sample.collector [[good]; [Sample.bundle "" "x" 0; hidden]] in
  let self' := fst (PromExp._query_plugins Sample.answer self) in
  PromExp._collected_plugins self' = 1
  /\ Dict.get "gnmi_iface_in_pkts" (PromExp._bundle_table self') = None.
Proof.
  intros good hidden self self'.
  destruct (@query_plugins_counts_accepted_answers
              _ Sample.answer self self'
              [[good]; [Sample.bundle "" "x" 0; hidden]]
              eq_refl eq_refl eq_refl) as [Hc Ht].
  split; [rewrite Hc; reflexivity|].
  apply Ht. reflexivity.
Defined.

Lemma dict_set_absent (V : Type) k (v : V) (d : Dict.t V) :
  Dict.get k d = None -> Dict.set k v d = d ++ [(k, v)].
Proof.
  induction d as [|[k' v'] d IH]; simpl; [reflexivity|].
  destruct (String.eqb k k'); [discriminate|].
  intros H. now rewrite IH.
Qed.

Lemma dict_get_app (V : Type) k (d e : Dict.t V) :
  Dict.get k (d ++ e)
  = match Dict.get k d with Some v => Some v | None => Dict.get k e end.
Proof.
  induction d as [|[k' v'] d IH]; simpl; [reflexivity|].
  now destruct (String.eqb k k').
Qed.

Lemma fold_sum_series (l : list GnmiMetricBundle) (a : nat) :
  fold_left (fun acc metric => acc + List.length (metrics metric)) l a
  = a + list_sum (map (fun b => List.length (metrics b)) l).
Proof.
  revert a. induction l as [|b l IH]; intros a; simpl; [lia|].
  rewrite IH. lia.
Qed.

(** The table [_compute_stats] leaves when none of its keys is taken. *)
Lemma compute_stats_table (Plugin : Type) clk (self : PromExp.PromClient Plugin) :
  Forall (fun k => Dict.get k (PromExp._bundle_table self) = None) stat_keys ->
  let t := PromExp._bundle_table self in
  PromExp._bundle_table (PromExp._compute_stats clk self)
  = t ++ [("configured_devices",
           PromExp.stat_bundle self "_configured_devices"
             "Number of configured devices"
             (List.length (PromExp._plugin_list self)) (clk 0));
          ("collected_devices",
           PromExp.stat_bundle self "_collected_devices"
             "Number of actively monitored devices"
             (PromExp._collected_devices self) (clk 1));
          ("collected_plugins",
           PromExp.stat_bundle self "_collected_plugins"
             "Number of actively monitored plugin instances"
             (PromExp._collected_plugins self) (clk 2));
          ("collected_metrics",
           PromExp.stat_bundle self "_collected_metrics"
             "Number of collected metrics" (List.length t + 4) (clk 3));
          ("collected_series",
           PromExp.stat_bundle self "_collected_series"
             "Number of collected series" (total_series t + 4) (clk 4))].
Proof.
  intros Hfresh. cbv zeta.
  unfold stat_keys in Hfresh.
  repeat match goal with
         | H : Forall _ (_ :: _) |- _ => inversion H; clear H; subst
         end.
  unfold PromExp._compute_stats, PromExp.put, PromExp.set_table.
  cbn [PromExp._bundle_table PromExp._config PromExp._plugin_list
       PromExp._collected_devices PromExp._collected_plugins].
  remember (PromExp._bundle_table self) as t eqn:Et. clear Et.
  rewrite (dict_set_absent "configured_devices" _ t) by assumption.
  rewrite (dict_set_absent "collected_devices")
    by (rewrite dict_get_app; now match goal with
                                  | H : Dict.get "collected_devices" t = None
                                    |- _ => rewrite H end).
  rewrite (dict_set_absent "collected_plugins")
    by (rewrite !dict_get_app; now match goal with
                                   | H : Dict.get "collected_plugins" t = None
                                     |- _ => rewrite H end).
  rewrite (dict_set_absent "collected_metrics")
    by (rewrite !dict_get_app; now match goal with
                                   | H : Dict.get "collected_metrics" t = None
                                     |- _ => rewrite H end).
  rewrite (dict_set_absent "collected_series")
    by (rewrite !dict_get_app; now match goal with
                                   | H : Dict.get "collected_series" t = None
                                     |- _ => rewrite H end).
  rewrite <- !app_assoc. cbn [app]. unfold PromExp.stat_bundle.
  cbn [PromExp._config].
  rewrite length_app, fold_sum_series. unfold Dict.values.
  rewrite map_app, map_app, list_sum_app.
  cbn [List.length map snd metrics list_sum Nat.add].
  fold (Dict.values t). fold (total_series t).
  replace (List.length t + 3 + 1) with (List.length t + 4) by lia.
  replace (total_series t + 4) with (total_series t + (1 + (1 + (1 + (1 + 0)))))
    by lia.
  reflexivity.
Qed.

(** X14: the self-statistics [_compute_stats] adds to a table that holds
    none of its five keys.  The table grows by five bundles; the
    collected-devices and collected-plugins gauges hold the two counters;
    the collected-metrics gauge holds the number of bundles the table had
    plus four, one less than the table holds in the end, and the
    collected-series gauge the number of metrics the table had plus four,
    one less than are exported: the last statistic is not counted. *)
Theorem compute_stats_values
        (Plugin : Type) (clk : nat -> Z) (self : PromExp.PromClient Plugin) :
  Forall (fun k => Dict.get k (PromExp._bundle_table self) = None) stat_keys ->
  let t := PromExp._bundle_table self in
  let t' := PromExp._bundle_table (PromExp._compute_stats clk self) in
  List.length t' = List.length t + 5
  /\ total_series t' = total_series t + 5
  /\ stat_value t' "collected_devices"
     = Some (PyInt (Z.of_nat (PromExp._collected_devices self)))
  /\ stat_value t' "collected_plugins"
     = Some (PyInt (Z.of_nat (PromExp._collected_plugins self)))
  /\ stat_value t' "collected_metrics"
     = Some (PyInt (Z.of_nat (List.length t + 4)))
  /\ stat_value t' "collected_series"
     = Some (PyInt (Z.of_nat (total_series t + 4))).
Proof.
  intros Hfresh. cbv zeta.
  pose proof (compute_stats_table clk self Hfresh) as Ht. cbv zeta in Ht.
  unfold stat_keys in Hfresh.
  remember (PromExp._bundle_table self) as t eqn:Et. clear Et.
  remember (PromExp._bundle_table (PromExp._compute_stats clk self)) as t'
    eqn:Et'. clear Et'.
  repeat match goal with
         | H : Forall _ (_ :: _) |- _ => inversion H; clear H; subst
         end.
  split; [rewrite length_app; reflexivity|].
  split.
  { unfold total_series, Dict.values.
    rewrite map_app, map_app, list_sum_app. simpl. lia. }
  unfold stat_value. rewrite !dict_get_app.
  repeat match goal with
         | H : Dict.get _ t = None |- _ => rewrite H; clear H
         end.
  repeat split.
Qed.

(** X14 at a collector with two registered plugins and one merged bundle
    with two series in the table. *)
Lemma compute_stats_values_witness :
  let b1 := Sample.bundle "r1" "gnmi_iface_in_octets" 1 in
  let b2 := Sample.bundle "r2" "gnmi_iface_in_octets" 2 in
  let self := fst (PromExp._query_plugins Sample.answer
                                          (Sample.collector [[b1]; [b2]])) in
  let t' := PromExp._bundle_table (PromExp._compute_stats Sample.clk self) in
  stat_value t' "collected_metrics" = Some (PyInt 5)
  /\ stat_value t' "collected_series" = Some (PyInt 6)
  /\ List.length t' = 6.
Proof.
  intros b1 b2 self t'.
  assert (Hfresh : Forall (fun k => Dict.get k (PromExp._bundle_table self)
                                    = None) stat_keys)
    by (repeat constructor).
  destruct (compute_stats_values Sample.clk self Hfresh)
    as (Hl & _ & _ & _ & Hm & Hs).
  fold t' in Hl, Hm, Hs.
  rewrite Hm, Hs, Hl. repeat split.
Defined.

Section CollectorRuns.
Import PromExp.
Variable Plugin : Type.
Variable fetch : Plugin -> Plugin * result (list GnmiMetricBundle).

Lemma gather_stable ps :
  (forall p, In p ps -> fst (fetch p) = p) -> fst (gather fetch ps) = ps.
Proof.
  induction ps as [|p ps IH]; intros H; simpl; [reflexivity|].
  pose proof (H p (or_introl eq_refl)) as Hp.
  destruct (fetch p) as [p1 r]. simpl in Hp. subst p1.
  destruct (gather fetch ps) as [ps1 rs] eqn:G. simpl in *.
  rewrite IH; [reflexivity|]. intros q Hq. apply H. now right.
Qed.

Lemma gather_raises_iff ps :
  (exists e, snd (gather fetch ps) = Raise e)
  <-> Exists (fun p => exists e, snd (fetch p) = Raise e) ps.
Proof.
  induction ps as [|p ps IH]; simpl.
  - split; [intros [e H]; discriminate | intros H; inversion H].
  - destruct (fetch p) as [p1 r] eqn:F.
    destruct (gather fetch ps) as [ps1 rs] eqn:G. cbn [snd bind] in *.
    split.
    + intros [e H]. destruct r as [x|e0].
      * apply Exists_cons_tl. apply IH.
        destruct rs as [xs|e1]; [discriminate | now exists e1].
      * apply Exists_cons_hd. rewrite F. now exists e0.
    + intros H. inversion H as [? ? [e He]|? ? Ht]; subst.
      * rewrite F in He. simpl in He. subst r. now exists e.
      * apply IH in Ht as [e He]. subst rs.
        destruct r as [x|e0]; [now exists e | now exists e0].
Qed.

(** [_query_plugins] reads the configuration, the plugin list and the table
    of the collector, not its counters. *)
Lemma query_plugins_ignores_counters cfg ps t d1 p1 d2 p2 :
  _query_plugins fetch (mkPromClient cfg ps t d1 p1)
  = _query_plugins fetch (mkPromClient cfg ps t d2 p2).
Proof. reflexivity. Qed.

Lemma collect_ignores_counters cfg ps t d1 p1 d2 p2 clk :
  collect fetch clk (mkPromClient cfg ps t d1 p1)
  = collect fetch clk (mkPromClient cfg ps t d2 p2).
Proof. reflexivity. Qed.

Lemma collect_fields clk (self : PromClient Plugin) :
  _config (fst (collect fetch clk self)) = _config self
  /\ _plugin_list (fst (collect fetch clk self))
     = fst (gather fetch (_plugin_list self))
  /\ (_bundle_table (fst (collect fetch clk self)) = []
      \/ _bundle_table (fst (collect fetch clk self)) = _bundle_table self).
Proof.
  unfold collect, _query_plugins.
  destruct (_plugin_list self) as [|p0 ps0] eqn:L.
  - cbn [fst gather]. repeat split. now left.
  - destruct (gather fetch (p0 :: ps0)) as [ps1 [response|e]];
      cbn [fst]; repeat split; auto.
Qed.

End CollectorRuns.





(* ------------------------------------------------------------------ *)
(** ** The session: capability checks *)

Section CheckCapsFacts.
Import Client.

Lemma pick_forced_frame self :
  _config (pick_forced self) = _config self
  /\ _exit (pick_forced self) = _exit self
  /\ _plugin_table (pick_forced self) = _plugin_table self
  /\ _path_list (pick_forced self) = _path_list self.
Proof.
  unfold pick_forced, _PREFERRED_ENCODINGS. cbn [fold_left].
  repeat match goal with
         | |- context [if ?b then _ else _] => destruct b
         end; repeat split.
Qed.

Lemma pick_forced_selected self :
  (forall enc, In enc _PREFERRED_ENCODINGS ->
               force_encoding (_config self) = name enc ->
               _selected_encoding (pick_forced self) = enc)
  /\ ((forall enc, In enc _PREFERRED_ENCODINGS ->
                   force_encoding (_config self) <> name enc) ->
      _selected_encoding (pick_forced self) = _selected_encoding self).
Proof.
  unfold pick_forced, _PREFERRED_ENCODINGS. cbn [fold_left name].
  split.
  - intros enc Hin Hf. rewrite Hf.
    destruct Hin as [<-|[<-|[<-|[<-|[]]]]]; reflexivity.
  - intros Hno.
    assert (H1 : String.eqb "PROTO" (force_encoding (_config self)) = false).
    { apply String.eqb_neq. intros E. apply (Hno PROTO); simpl; auto. }
    assert (H2 : String.eqb "JSON" (force_encoding (_config self)) = false).
    { apply String.eqb_neq. intros E. apply (Hno JSON); simpl; auto. }
    assert (H3 : String.eqb "JSON_IETF" (force_encoding (_config self))
                 = false).
    { apply String.eqb_neq. intros E. apply (Hno JSON_IETF); simpl; auto. }
    assert (H4 : String.eqb "ASCII" (force_encoding (_config self)) = false).
    { apply String.eqb_neq. intros E. apply (Hno ASCII); simpl; auto. }
    rewrite H1, H2, H3, H4. reflexivity.
Qed.

Lemma pick_forced_preferred self :
  In (_selected_encoding self) _PREFERRED_ENCODINGS ->
  In (_selected_encoding (pick_forced self)) _PREFERRED_ENCODINGS.
Proof.
  intros H. unfold pick_forced, _PREFERRED_ENCODINGS. cbn [fold_left].
  repeat match goal with
         | |- context [if ?b then _ else _] => destruct b
         end; simpl; auto.
Qed.

Lemma pick_supported_preferred encs supported self :
  incl encs _PREFERRED_ENCODINGS ->
  In (_selected_encoding self) _PREFERRED_ENCODINGS ->
  In (_selected_encoding (pick_supported encs supported self))
     _PREFERRED_ENCODINGS.
Proof.
  induction encs as [|enc encs IH]; intros Hincl H; simpl; [exact H|].
  destruct (existsb (Z.eqb (value enc)) supported).
  - simpl. apply Hincl. now left.
  - apply IH; [|exact H]. intros x Hx. apply Hincl. now right.
Qed.

Lemma check_caps_preferred self rpc :
  In (_selected_encoding self) _PREFERRED_ENCODINGS ->
  In (_selected_encoding (fst (_check_caps self rpc))) _PREFERRED_ENCODINGS.
Proof.
  intros H. unfold _check_caps.
  destruct rpc as [resp|]; [|exact H].
  destruct (models_supported self resp); cbn [negb]; [|exact H].
  destruct (String.eqb (force_encoding (_config self)) ""); cbn [negb fst].
  - apply pick_supported_preferred; [apply incl_refl | exact H].
  - now apply pick_forced_preferred.
Qed.

End CheckCapsFacts.

(** X17: a forced encoding overrides the device.  When force_encoding is
    set and the device lists the data models, the capability check returns
    and selects the preferred encoding of that exact name, whether or not
    the device supports it; a name that is none of PROTO, JSON, JSON_IETF
    and ASCII, BYTES for one, leaves the selection what it was.  Nothing
    else of the session changes. *)
Theorem check_caps_forced_encoding
        (self : Client.GnmiClient) (resp : Client.CapabilityResponse) :
  Client.force_encoding (Client._config self) <> "" ->
  Client.models_supported self resp = true ->
  let self' := fst (Client._check_caps self (Some resp)) in
  snd (Client._check_caps self (Some resp)) = Ok tt
  /\ (forall enc, In enc Client._PREFERRED_ENCODINGS ->
                  Client.force_encoding (Client._config self) = Client.name enc ->
                  Client._selected_encoding self' = enc)
  /\ ((forall enc, In enc Client._PREFERRED_ENCODINGS ->
                   Client.force_encoding (Client._config self)
                   <> Client.name enc) ->
      Client._selected_encoding self' = Client._selected_encoding self)
  /\ (Client.force_encoding (Client._config self) = "BYTES" ->
      Client._selected_encoding self' = Client._selected_encoding self)
  /\ Client._config self' = Client._config self
  /\ Client._plugin_table self' = Client._plugin_table self
  /\ Client._path_list self' = Client._path_list self.
Proof.
  intros Hforce Hmodels.
  assert (H : Client._check_caps self (Some resp)
              = (Client.pick_forced self, Ok tt)).
  { unfold Client._check_caps. rewrite Hmodels.
    apply String.eqb_neq in Hforce. rewrite Hforce. reflexivity. }
  rewrite H. cbn [fst snd].
  destruct (pick_forced_selected self) as [Hyes Hno].
  destruct (pick_forced_frame self) as (Hc & _ & Ht & Hp).
  repeat split; auto.
  intros Hb. apply Hno. intros enc Hin. rewrite Hb.
  destruct Hin as [<-|[<-|[<-|[<-|[]]]]]; discriminate.
Qed.

(** X17 at a session configured with force_encoding ASCII and a device that
    supports JSON only. *)
Lemma check_caps_forced_encoding_witness :
  exists c0 e,
    Client.GnmiClient_init
      []
      (Client.mkDeviceCfg [("name", "r1"); ("force_encoding", "ASCII")]
                          ["oc_interfaces"])
      Sample.exporter0 = Ok (c0, e)
    /\ Client.force_encoding (Client._config c0) <> ""
    /\ Client.models_supported c0 (Sample.caps [0%Z]) = true
    /\ snd (Client._check_caps c0 (Some (Sample.caps [0%Z]))) = Ok tt
    /\ Client._selected_encoding
         (fst (Client._check_caps c0 (Some (Sample.caps [0%Z]))))
       = Client.ASCII.
Proof.
  eexists. eexists. split; [vm_compute; reflexivity|].
  match goal with
  | |- ?F /\ ?M /\ _ =>
      assert (Hf : F) by (vm_compute; discriminate);
      assert (Hm : M) by (vm_compute; reflexivity)
  end.
  split; [exact Hf|]. split; [exact Hm|].
  destruct (check_caps_forced_encoding _ _ Hf Hm) as (H1 & H2 & _).
  split; [exact H1|].
  apply H2; [simpl; auto | reflexivity].
Defined.

(** X18: whatever the devices answer and however often the session
    reconnects, the encoding a session has selected is one of PROTO, JSON,
    JSON_IETF and ASCII; BYTES is never selected, also not when it is
    forced or the only encoding the device supports. *)
Theorem selected_encoding_is_preferred
        (global_cfg : Dict.t string) (device_cfg : Client.DeviceCfg)
        (exporter exporter' : Client.Exporter) (c : Client.GnmiClient)
        (rpcs : list (option Client.CapabilityResponse)) :
  Client.GnmiClient_init global_cfg device_cfg exporter = Ok (c, exporter') ->
  In (Client._selected_encoding (checks rpcs c)) Client._PREFERRED_ENCODINGS
  /\ Client._selected_encoding (checks rpcs c) <> Client.BYTES.
Proof.
  intros Hinit.
  assert (H0 : In (Client._selected_encoding c) Client._PREFERRED_ENCODINGS).
  { destruct (GnmiClient_init_ok _ _ _ Hinit) as [Hsel _].
    rewrite Hsel. simpl. auto. }
  assert (H : In (Client._selected_encoding (checks rpcs c))
                 Client._PREFERRED_ENCODINGS).
  { clear Hinit. revert c H0. unfold checks.
    induction rpcs as [|rpc rpcs IH]; intros c H0; simpl; [exact H0|].
    apply IH. now apply check_caps_preferred. }
  split; [exact H|].
  intros E. rewrite E in H.
  destruct H as [H|[H|[H|[H|[]]]]]; discriminate H.
Qed.

(** X18 at a session forced to BYTES whose device supports BYTES only, after
    a failed attempt and two checks. *)
Lemma selected_encoding_is_preferred_witness :
  exists c0 e,
    Client.GnmiClient_init
      []
      (Client.mkDeviceCfg [("name", "r1"); ("force_encoding", "BYTES")]
                          ["oc_interfaces"])
      Sample.exporter0 = Ok (c0, e)
    /\ Client._selected_encoding
         (checks [None; Some (Sample.caps [1%Z]); Some (Sample.caps [1%Z])] c0)
       <> Client.BYTES.
Proof.
  eexists. eexists.
  match goal with
  | |- ?I /\ _ => assert (Hi : I) by (vm_compute; reflexivity)
  end.
  split; [exact Hi|].
  exact (proj2 (selected_encoding_is_preferred _ _ _ _ Hi)).
Defined.

(* ------------------------------------------------------------------ *)
(** ** The session: routing of the stream *)

Section RoutingFacts.
Import Client.

Lemma for_each_plugin_get f k table :
  Dict.get k (for_each_plugin f table) = option_map f (Dict.get k table).
Proof.
  unfold for_each_plugin.
  induction table as [|[k' v'] table IH]; simpl; [reflexivity|].
  now destruct (String.eqb k k').
Qed.

Lemma for_each_plugin_keys f table :
  Dict.keys (for_each_plugin f table) = Dict.keys table.
Proof.
  unfold for_each_plugin, Dict.keys. rewrite map_map. reflexivity.
Qed.

Lemma route_gnmi_sr_frame self sr :
  _config (route_gnmi_sr self sr) = _config self
  /\ _exit (route_gnmi_sr self sr) = _exit self
  /\ _path_list (route_gnmi_sr self sr) = _path_list self
  /\ _selected_encoding (route_gnmi_sr self sr) = _selected_encoding self
  /\ Dict.keys (_plugin_table (route_gnmi_sr self sr))
     = Dict.keys (_plugin_table self).
Proof.
  unfold route_gnmi_sr. destruct sr as [nf|b|].
  - destruct (bypass_msg_routing (_config self)).
    + cbn. repeat split. apply for_each_plugin_keys.
    + cbv zeta.
      destruct (Dict.get (Utils.target (nf_prefix nf)) (_plugin_table self))
        as [plugin|] eqn:G; [|repeat split].
      cbn. repeat split. apply dict_keys_set_present.
      apply dict_mem_get. eauto.
  - cbn. repeat split. apply for_each_plugin_keys.
  - repeat split.
Qed.

Lemma route_update_get self nf k :
  Dict.get k (_plugin_table (route_gnmi_sr self (sr_update nf)))
  = if bypass_msg_routing (_config self)
       || String.eqb k (Utils.target (nf_prefix nf))
    then option_map (fun plugin => OcIf.gnmi_notification_handler plugin nf)
                    (Dict.get k (_plugin_table self))
    else Dict.get k (_plugin_table self).
Proof.
  unfold route_gnmi_sr.
  destruct (bypass_msg_routing (_config self)); cbn [orb].
  - cbn. apply for_each_plugin_get.
  - cbv zeta.
    destruct (Dict.get (Utils.target (nf_prefix nf)) (_plugin_table self))
      as [plugin|] eqn:G.
    + cbn [_plugin_table set_plugin_table]. rewrite dict_get_set.
      destruct (String.eqb k (Utils.target (nf_prefix nf))) eqn:E;
        [|reflexivity].
      apply String.eqb_eq in E. subst k. rewrite G. reflexivity.
    + destruct (String.eqb k (Utils.target (nf_prefix nf))) eqn:E;
        [|reflexivity].
      apply String.eqb_eq in E. subst k. rewrite G. reflexivity.
Qed.

Lemma collector_run_snd stream wd self :
  snd (GnmiCollector_run stream (wd, self))
  = fold_left route_gnmi_sr stream self.
Proof.
  unfold GnmiCollector_run. revert wd self.
  induction stream as [|sr stream IH]; intros wd self; simpl; [reflexivity|].
  apply IH.
Qed.

Lemma collector_run_fst stream wd self :
  fst (GnmiCollector_run stream (wd, self))
  = match stream with [] => wd | _ :: _ => kick wd end.
Proof.
  unfold GnmiCollector_run. revert wd self.
  induction stream as [|sr stream IH]; intros wd self; [reflexivity|].
  cbn [fold_left fst snd]. rewrite IH. now destruct stream.
Qed.

Lemma routes_frame stream self :
  _config (fold_left route_gnmi_sr stream self) = _config self
  /\ _path_list (fold_left route_gnmi_sr stream self) = _path_list self
  /\ Dict.keys (_plugin_table (fold_left route_gnmi_sr stream self))
     = Dict.keys (_plugin_table self).
Proof.
  revert self. induction stream as [|sr stream IH]; intros self; simpl;
    [repeat split|].
  destruct (IH (route_gnmi_sr self sr)) as (Hc & Hp & Hk).
  destruct (route_gnmi_sr_frame self sr) as (Hc1 & _ & Hp1 & _ & Hk1).
  rewrite Hc, Hp, Hk, Hc1, Hp1, Hk1. repeat split.
Qed.

(** The buffers while notifications only are routed. *)
Lemma routes_updates_get nfs self k plugin :
  Dict.get k (_plugin_table self) = Some plugin ->
  exists plugin',
    Dict.get k (_plugin_table (fold_left route_gnmi_sr (map sr_update nfs) self))
    = Some plugin'
    /\ BasePlug._buffer (OcIf.base plugin')
       = BasePlug._buffer (OcIf.base plugin)
         ++ (if bypass_msg_routing (_config self) then nfs
             else filter (fun nf => String.eqb k (Utils.target (nf_prefix nf)))
                         nfs)
    /\ BasePlug._on_sync (OcIf.base plugin')
       = BasePlug._on_sync (OcIf.base plugin).
Proof.
  revert self plugin. induction nfs as [|nf nfs IH]; intros self plugin G.
  - exists plugin. simpl. split; [exact G|].
    destruct (bypass_msg_routing (_config self)); rewrite app_nil_r; auto.
  - cbn [map fold_left].
    pose proof (route_update_get self nf k) as R. rewrite G in R.
    destruct (route_gnmi_sr_frame self (sr_update nf)) as (Hc & _).
    destruct (bypass_msg_routing (_config self)
              || String.eqb k (Utils.target (nf_prefix nf))) eqn:B.
    + cbn [option_map] in R.
      destruct (IH _ _ R) as (plugin' & G' & Hb & Hs).
      exists plugin'. split; [exact G'|]. rewrite Hb, Hs, Hc.
      split; [|reflexivity].
      cbn [OcIf.gnmi_notification_handler OcIf.base OcIf.set_base
           BasePlug.gnmi_notification_handler BasePlug.set_buffer
           BasePlug._buffer].
      rewrite <- app_assoc.
      destruct (bypass_msg_routing (_config self)); [reflexivity|].
      cbn [orb] in B. cbn [filter]. rewrite B. reflexivity.
    + destruct (IH _ _ R) as (plugin' & G' & Hb & Hs).
      exists plugin'. split; [exact G'|]. rewrite Hb, Hs, Hc.
      split; [|reflexivity].
      apply orb_false_iff in B as [B1 B2]. rewrite B1.
      cbn [filter]. rewrite B2. reflexivity.
Qed.

Lemma load_plugins_routes global_cfg device_cfg names table paths exporter :
  (forall k, Dict.mem k table = true -> k = "oc_interfaces") ->
  Forall (fun gp => Dict.mem (target gp) table = true) paths ->
  let r := load_plugins global_cfg device_cfg names table paths exporter in
  (forall k, Dict.mem k (fst (fst r)) = true -> k = "oc_interfaces")
  /\ Forall (fun gp => Dict.mem (target gp) (fst (fst r)) = true)
            (snd (fst r)).
Proof.
  revert table paths exporter.
  induction names as [|plugin names IH]; intros table paths exporter Hk Hp;
    cbn [load_plugins].
  - cbn. split; assumption.
  - destruct (String.eqb plugin "oc_interfaces") eqn:E; [|now apply IH].
    apply String.eqb_eq in E. subst plugin.
    apply IH.
    + intros k Hm. unfold Dict.mem in Hm. rewrite dict_get_set in Hm.
      destruct (String.eqb k "oc_interfaces") eqn:E.
      * now apply String.eqb_eq in E.
      * apply Hk. exact Hm.
    + apply Forall_app. split.
      * eapply Forall_impl; [|exact Hp]. intros gp Hm.
        unfold Dict.mem in *. rewrite dict_get_set.
        now destruct (String.eqb (target gp) "oc_interfaces").
      * constructor; [|constructor].
        unfold Dict.mem. rewrite dict_get_set. reflexivity.
Qed.

Lemma GnmiClient_init_routes global_cfg device_cfg exporter c e :
  GnmiClient_init global_cfg device_cfg exporter = Ok (c, e) ->
  (forall k, Dict.mem k (_plugin_table c) = true -> k = "oc_interfaces")
  /\ Forall (fun gp => Dict.mem (target gp) (_plugin_table c) = true)
            (_path_list c).
Proof.
  unfold GnmiClient_init. intros H.
  destruct (_parse_config global_cfg device_cfg) as [cfg|err];
    [|discriminate].
  cbn [bind] in H.
  pose proof (@load_plugins_routes global_cfg device_cfg (plugins cfg) [] []
                exporter) as L.
  destruct (load_plugins global_cfg device_cfg (plugins cfg) [] [] exporter)
    as [[table paths] exporter1].
  inversion H; subst; clear H. cbn in *.
  apply L; [intros k Hm; discriminate Hm | constructor].
Qed.

Lemma dict_mem_keys_eq (V : Type) k (d d' : Dict.t V) :
  Dict.keys d = Dict.keys d' -> Dict.mem k d = Dict.mem k d'.
Proof.
  intros H. destruct (Dict.mem k d) eqn:M, (Dict.mem k d') eqn:M'; auto.
  - apply dict_mem_in_keys in M. rewrite H in M.
    apply dict_mem_in_keys in M. congruence.
  - apply dict_mem_in_keys in M'. rewrite <- H in M'.
    apply dict_mem_in_keys in M'. congruence.
Qed.

End RoutingFacts.

(** X19: what one notification does to the plugins of a session.  Without
    bypass_msg_routing it is appended to the buffer of the plugin whose key
    is the target of its prefix and no other plugin is touched; when no
    plugin has that key, the notification is dropped and the session is what
    it was.  With bypass_msg_routing every plugin gets it.  In every case
    the table keeps its keys in their order and nothing else of the session
    changes. *)
Theorem route_update_reaches_target_only
        (self : Client.GnmiClient) (nf : Notification) :
  let self' := Client.route_gnmi_sr self (sr_update nf) in
  let deliver := fun plugin => OcIf.gnmi_notification_handler plugin nf in
  Dict.keys (Client._plugin_table self') = Dict.keys (Client._plugin_table self)
  /\ Client._config self' = Client._config self
  /\ Client._path_list self' = Client._path_list self
  /\ Client._selected_encoding self' = Client._selected_encoding self
  /\ (Client.bypass_msg_routing (Client._config self) = false ->
      (forall k, k <> Utils.target (nf_prefix nf) ->
                 Dict.get k (Client._plugin_table self')
                 = Dict.get k (Client._plugin_table self))
      /\ Dict.get (Utils.target (nf_prefix nf)) (Client._plugin_table self')
         = option_map deliver
                      (Dict.get (Utils.target (nf_prefix nf))
                                (Client._plugin_table self))
      /\ (Dict.mem (Utils.target (nf_prefix nf)) (Client._plugin_table self)
          = false -> self' = self))
  /\ (Client.bypass_msg_routing (Client._config self) = true ->
      forall k, Dict.get k (Client._plugin_table self')
                = option_map deliver (Dict.get k (Client._plugin_table self))).
Proof.
  intros self' deliver.
  destruct (route_gnmi_sr_frame self (sr_update nf))
    as (Hc & _ & Hp & He & Hk).
  split; [exact Hk|]. split; [exact Hc|]. split; [exact Hp|].
  split; [exact He|]. split.
  - intros B. split; [|split].
    + intros k Hne. unfold self'. rewrite route_update_get, B. cbn [orb].
      apply String.eqb_neq in Hne. now rewrite Hne.
    + unfold self'. rewrite route_update_get, B. cbn [orb].
      now rewrite String.eqb_refl.
    + intros M. unfold self', Client.route_gnmi_sr. rewrite B. cbv zeta.
      unfold Dict.mem in M.
      destruct (Dict.get (Utils.target (nf_prefix nf))
                         (Client._plugin_table self)); [discriminate|].
      reflexivity.
  - intros B k. unfold self'. rewrite route_update_get, B. reflexivity.
Qed.

(** X19 at a new session with the interface plugin: a notification with
    the target of the plugin reaches its buffer, one without a target
    changes nothing. *)
Lemma route_update_reaches_target_only_witness :
  let other := mkNotification 11 false (Utils.mkPath [] "openconfig" "")
                              [Sample.u_name] [] in
  let nf := Sample.nf 10 [Sample.u_name] in
  exists c0 e plugin,
    Client.GnmiClient_init [] (Sample.device "r1" ["oc_interfaces"])
                           Sample.exporter0 = Ok (c0, e)
    /\ Client.bypass_msg_routing (Client._config c0) = false
    /\ Dict.get "oc_interfaces" (Client._plugin_table c0) = Some plugin
    /\ Dict.get "oc_interfaces"
                (Client._plugin_table (Client.route_gnmi_sr c0 (sr_update nf)))
       = Some (OcIf.gnmi_notification_handler plugin nf)
    /\ Client.route_gnmi_sr c0 (sr_update other) = c0.
Proof.
  intros other nf.
  eexists. eexists. eexists.
  match goal with
  | |- ?I /\ ?B /\ ?G /\ _ =>
      assert (Hi : I) by (vm_compute; reflexivity);
      assert (Hb : B) by reflexivity;
      assert (Hg : G) by (vm_compute; reflexivity)
  end.
  split; [exact Hi|]. split; [exact Hb|]. split; [exact Hg|].
  match goal with
  | |- _ /\ Client.route_gnmi_sr ?c _ = ?c =>
      destruct (@route_update_reaches_target_only c nf)
        as (_ & _ & _ & _ & Hoff & _);
      destruct (@route_update_reaches_target_only c other)
        as (_ & _ & _ & _ & Hoff' & _)
  end.
  destruct (Hoff Hb) as (_ & Hget & _).
  destruct (Hoff' Hb) as (_ & _ & Hdrop).
  split.
  - change (Utils.target (nf_prefix nf)) with "oc_interfaces" in Hget.
    etransitivity; [exact Hget|]. rewrite Hg. reflexivity.
  - apply Hdrop. reflexivity.
Defined.

(** X20: the collector thread delivers in order and loses nothing.  After a
    run over a stream of notifications the watchdog has been kicked and a
    plugin of the table has, behind what its buffer held, the notifications
    of the stream whose target is its key, or all of them with
    bypass_msg_routing, in the order of the stream, and its sync flag is
    what it was. *)
Theorem collector_run_delivers_in_order
        (wd : Client._WatchDog) (self : Client.GnmiClient)
        (nfs : list Notification) (k : string) (plugin : OcIf.OcInterfaces) :
  Dict.get k (Client._plugin_table self) = Some plugin ->
  let st := Client.GnmiCollector_run (map sr_update nfs) (wd, self) in
  fst st = match nfs with [] => wd | _ :: _ => Client.kick wd end
  /\ exists plugin',
      Dict.get k (Client._plugin_table (snd st)) = Some plugin'
      /\ BasePlug._buffer (OcIf.base plugin')
         = BasePlug._buffer (OcIf.base plugin)
           ++ (if Client.bypass_msg_routing (Client._config self) then nfs
               else filter (fun nf =>
                              String.eqb k (Utils.target (nf_prefix nf)))
                           nfs)
      /\ BasePlug._on_sync (OcIf.base plugin')
         = BasePlug._on_sync (OcIf.base plugin).
Proof.
  intros G st. unfold st. split.
  - rewrite collector_run_fst. now destruct nfs.
  - rewrite collector_run_snd. now apply routes_updates_get.
Qed.

(** X20 at a new session with the interface plugin and a stream of three
    notifications, the second of which carries no target. *)
Lemma collector_run_delivers_in_order_witness :
  let nf1 := Sample.nf 10 [Sample.u_name] in
  let nf2 := mkNotification 11 false (Utils.mkPath [] "openconfig" "")
                            [Sample.u_name] [] in
  let nf3 := Sample.nf 12 [Sample.u_in_octets (PyInt 7)] in
  exists c0 e plugin,
    Client.GnmiClient_init [] (Sample.device "r1" ["oc_interfaces"])
                           Sample.exporter0 = Ok (c0, e)
    /\ Dict.get "oc_interfaces" (Client._plugin_table c0) = Some plugin
    /\ exists plugin',
        Dict.get "oc_interfaces"
                 (Client._plugin_table
                    (snd (Client.GnmiCollector_run
                            (map sr_update [nf1; nf2; nf3])
                            (Client.WatchDog_init 180, c0))))
        = Some plugin'
        /\ BasePlug._buffer (OcIf.base plugin') = [nf1; nf3].
Proof.
  intros nf1 nf2 nf3.
  eexists. eexists. eexists.
  match goal with
  | |- ?I /\ ?G /\ _ =>
      assert (Hi : I) by (vm_compute; reflexivity);
      assert (Hg : G) by (vm_compute; reflexivity)
  end.
  split; [exact Hi|]. split; [exact Hg|].
  destruct (@collector_run_delivers_in_order
              (Client.WatchDog_init 180) _ [nf1; nf2; nf3] _ _ Hg)
    as (_ & plugin' & Hget & Hbuf & _).
  exists plugin'. split; [exact Hget|]. rewrite Hbuf. reflexivity.
Defined.

(** X21: the targets a session subscribes with are targets it routes.
    After [GnmiClient.__init__] and whatever the stream has brought since,
    the target of every path list of the session is a key of its plugin
    table, the one key the table can have is oc_interfaces, and without
    bypass_msg_routing a notification whose prefix has another target, or
    none, is dropped. *)
Theorem subscribed_targets_are_routed
        (global_cfg : Dict.t string) (device_cfg : Client.DeviceCfg)
        (exporter exporter' : Client.Exporter) (c : Client.GnmiClient)
        (wd : Client._WatchDog) (stream : list SubscribeResponse) :
  Client.GnmiClient_init global_cfg device_cfg exporter = Ok (c, exporter') ->
  let c' := snd (Client.GnmiCollector_run stream (wd, c)) in
  Forall (fun gp => Dict.mem (target gp) (Client._plugin_table c') = true)
         (Client._path_list c')
  /\ (forall k, Dict.mem k (Client._plugin_table c') = true ->
                k = "oc_interfaces")
  /\ (Client.bypass_msg_routing (Client._config c) = false ->
      forall nf, Utils.target (nf_prefix nf) <> "oc_interfaces" ->
                 Client.route_gnmi_sr c' (sr_update nf) = c').
Proof.
  intros Hinit c'.
  destruct (GnmiClient_init_routes _ _ _ Hinit) as [Hkeys Hpaths].
  unfold c'. rewrite collector_run_snd.
  destruct (routes_frame stream c) as (Hc & Hp & Hk).
  assert (Hmem : forall k,
             Dict.mem k (Client._plugin_table
                           (fold_left Client.route_gnmi_sr stream c))
             = Dict.mem k (Client._plugin_table c)).
  { intros k. now apply dict_mem_keys_eq. }
  split; [|split].
  - rewrite Hp. eapply Forall_impl; [|exact Hpaths].
    intros gp Hm. now rewrite Hmem.
  - intros k Hm. apply Hkeys. now rewrite <- Hmem.
  - intros B nf Hne.
    unfold Client.route_gnmi_sr at 1. rewrite Hc, B. cbv zeta.
    destruct (Dict.get (Utils.target (nf_prefix nf))
                       (Client._plugin_table
                          (fold_left Client.route_gnmi_sr stream c)))
      as [plugin|] eqn:G; [|reflexivity].
    exfalso. apply Hne. apply Hkeys. rewrite <- Hmem.
    apply dict_mem_get. eauto.
Qed.

(** X21 at a new session with the interface plugin, after a sync response
    and a notification. *)
Lemma subscribed_targets_are_routed_witness :
  let other := mkNotification 11 false (Utils.mkPath [] "openconfig" "")
                              [Sample.u_name] [] in
  exists c0 e,
    Client.GnmiClient_init [] (Sample.device "r1" ["oc_interfaces"])
                           Sample.exporter0 = Ok (c0, e)
    /\ let c' := snd (Client.GnmiCollector_run
                        [sr_sync_response true;
                         sr_update (Sample.nf 10 [Sample.u_name])]
                        (Client.WatchDog_init 180, c0)) in
       Client._path_list c' <> []
       /\ Forall (fun gp => Dict.mem (target gp) (Client._plugin_table c')
                            = true)
                 (Client._path_list c')
       /\ Client.route_gnmi_sr c' (sr_update other) = c'.
Proof.
  intros other.
  eexists. eexists.
  match goal with
  | |- ?I /\ _ => assert (Hi : I) by (vm_compute; reflexivity)
  end.
  split; [exact Hi|].
  destruct (@subscribed_targets_are_routed
              _ _ _ _ _ (Client.WatchDog_init 180)
              [sr_sync_response true;
               sr_update (Sample.nf 10 [Sample.u_name])] Hi)
    as (Hp & _ & Hdrop).
  cbv zeta. split; [vm_compute; discriminate|]. split; [exact Hp|].
  apply Hdrop; [reflexivity | discriminate].
Defined.

(** What [__init__] takes from the device entry for the routing. *)
Lemma GnmiClient_init_bypass global_cfg device_cfg exporter c e :
  Client.GnmiClient_init global_cfg device_cfg exporter = Ok (c, e) ->
  Client.bypass_msg_routing (Client._config c)
  = match Dict.get "bypass_msg_routing" (Client.dc_entries device_cfg) with
    | Some v => negb (String.eqb v "")
    | None => false
    end.
Proof.
  unfold Client.GnmiClient_init. intros H.
  destruct (Client._parse_config global_cfg device_cfg) as [cfg|err] eqn:P;
    [|discriminate].
  cbn [bind] in H.
  destruct (Client.load_plugins _ _ _ _ _ _) as [[table paths] e1].
  inversion H; subst; clear H. cbn [Client._config].
  unfold Client._parse_config, bind in P.
  repeat match type of P with
         | match ?x with _ => _ end = _ => destruct x; [|discriminate]
         end.
  inversion P. reflexivity.
Qed.

(** X26: bypass_msg_routing is switched on by any text.  A session is built
    with it exactly when the device entry has the key with a value that is
    not the empty text, whatever the value says; with the text False the
    session hands every notification to every plugin, whatever the target
    of its prefix. *)
Theorem bypass_msg_routing_set_by_any_text
        (global_cfg : Dict.t string) (device_cfg : Client.DeviceCfg)
        (exporter exporter' : Client.Exporter) (c : Client.GnmiClient) :
  Client.GnmiClient_init global_cfg device_cfg exporter = Ok (c, exporter') ->
  (Client.bypass_msg_routing (Client._config c) = true
   <-> exists v,
        Dict.get "bypass_msg_routing" (Client.dc_entries device_cfg) = Some v
        /\ v <> "")
  /\ (Dict.get "bypass_msg_routing" (Client.dc_entries device_cfg)
      = Some "False" ->
      forall nf k plugin,
        Dict.get k (Client._plugin_table c) = Some plugin ->
        Dict.get k (Client._plugin_table
                      (Client.route_gnmi_sr c (sr_update nf)))
        = Some (OcIf.gnmi_notification_handler plugin nf)).
Proof.
  intros Hinit. pose proof (GnmiClient_init_bypass _ _ _ Hinit) as Hb.
  split.
  - rewrite Hb.
    destruct (Dict.get "bypass_msg_routing" (Client.dc_entries device_cfg))
      as [v|].
    + destruct (String.eqb v "") eqn:E; cbn [negb].
      * apply String.eqb_eq in E. subst v. split; [discriminate|].
        intros (v & Hv & Hne). inversion Hv; subst. contradiction.
      * apply String.eqb_neq in E. split; [|reflexivity].
        intros _. exists v. split; [reflexivity | exact E].
    + split; [discriminate|]. intros (v & Hv & _). discriminate Hv.
  - intros Hf nf k plugin G. rewrite Hf in Hb. cbn in Hb.
    rewrite route_update_get, Hb, G. reflexivity.
Qed.

(** X26 at a device entry that says False and a notification without a
    target. *)
Lemma bypass_msg_routing_set_by_any_text_witness :
  let other := mkNotification 11 false (Utils.mkPath [] "openconfig" "")
                              [Sample.u_name] [] in
  exists c0 e plugin,
    Client.GnmiClient_init
      []
      (Client.mkDeviceCfg [("name", "r1"); ("bypass_msg_routing", "False")]
                          ["oc_interfaces"])
      Sample.exporter0 = Ok (c0, e)
    /\ Client.bypass_msg_routing (Client._config c0) = true
    /\ Dict.get "oc_interfaces" (Client._plugin_table c0) = Some plugin
    /\ Dict.get "oc_interfaces"
                (Client._plugin_table
                   (Client.route_gnmi_sr c0 (sr_update other)))
       = Some (OcIf.gnmi_notification_handler plugin other).
Proof.
  intros other.
  eexists. eexists. eexists.
  match goal with
  | |- ?I /\ _ /\ ?G /\ _ =>
      assert (Hi : I) by (vm_compute; reflexivity);
      assert (Hg : G) by (vm_compute; reflexivity)
  end.
  destruct (@bypass_msg_routing_set_by_any_text _ _ _ _ _ Hi) as [Hiff Hall].
  split; [exact Hi|].
  split; [apply Hiff; eexists; split; [reflexivity | discriminate]|].
  split; [exact Hg|].
  apply Hall; [reflexivity | exact Hg].
Defined.

(* ------------------------------------------------------------------ *)
(** ** The watchdog *)

Section WatchDogFacts.
Import Client.

Lemma wd_run_app acts1 acts2 wd :
  wd_run (acts1 ++ acts2) wd = wd_run acts2 (wd_run acts1 wd).
Proof. unfold wd_run. apply fold_left_app. Qed.

Lemma wd_run_fired acts wd :
  wd_pc wd = Fired -> wd_pc (wd_run acts wd) = Fired.
Proof.
  revert wd. induction acts as [|a acts IH]; intros wd H; [exact H|].
  cbn [wd_run fold_left]. apply IH.
  destruct a; cbn [act]; [|exact H|exact H].
  unfold run_step. now rewrite H.
Qed.

Lemma wd_run_stopped acts wd :
  wd_pc wd = Stopped -> wd_pc (wd_run acts wd) = Stopped.
Proof.
  revert wd. induction acts as [|a acts IH]; intros wd H; [exact H|].
  cbn [wd_run fold_left]. apply IH.
  destruct a; cbn [act]; [|exact H|exact H].
  unfold run_step. now rewrite H.
Qed.

(** With nothing but its own steps, the thread is back at the test after
    every second step, the counter one lower. *)
Lemma wd_run_two_steps (T j : nat) :
  j <= T ->
  wd_run (repeat Step (2 * j)) (WatchDog_init (Z.of_nat T))
  = mkWatchDog (Z.of_nat T) (Z.of_nat T - Z.of_nat j) false AtTest.
Proof.
  induction j as [|j IH]; intros Hj.
  - cbn. unfold WatchDog_init. f_equal. lia.
  - replace (2 * S j) with (2 * j + 2) by lia.
    rewrite repeat_app, wd_run_app, IH by lia.
    cbn [repeat wd_run fold_left act]. unfold run_step at 2.
    cbn [wd_pc wd_counter wd_timeout wd_exit].
    destruct (Z.eqb (Z.of_nat T - Z.of_nat j) 0) eqn:E;
      [apply Z.eqb_eq in E; lia|].
    unfold run_step. cbn [wd_pc wd_counter wd_timeout wd_exit].
    f_equal. lia.
Qed.

Lemma wd_run_odd_steps (T j : nat) :
  j < T ->
  wd_run (repeat Step (2 * j + 1)) (WatchDog_init (Z.of_nat T))
  = mkWatchDog (Z.of_nat T) (Z.of_nat T - Z.of_nat j) false AtWait.
Proof.
  intros Hj. rewrite repeat_app, wd_run_app, wd_run_two_steps by lia.
  cbn [repeat wd_run fold_left act]. unfold run_step.
  cbn [wd_pc wd_counter wd_timeout wd_exit].
  destruct (Z.eqb (Z.of_nat T - Z.of_nat j) 0) eqn:E;
    [apply Z.eqb_eq in E; lia | reflexivity].
Qed.

Lemma kicked_in_time_inv (T : nat) acts : forall since wd,
  kicked_in_time (2 * T) since acts = true ->
  wd_timeout wd = Z.of_nat T ->
  wd_pc wd <> Fired ->
  (wd_pc wd = Stopped
   \/ (2 * Z.of_nat T <= steps_left wd + Z.of_nat since)%Z) ->
  wd_pc (wd_run acts wd) <> Fired.
Proof.
  induction acts as [|a acts IH]; intros since wd K Ht Hnf Hm; [exact Hnf|].
  cbn [wd_run fold_left]. fold (wd_run acts (act wd a)).
  destruct wd as [t c x p].
  unfold steps_left in Hm.
  cbn [wd_pc wd_counter wd_timeout wd_exit] in Ht, Hnf, Hm.
  destruct a; cbn [kicked_in_time act] in *.
  - apply andb_true_iff in K as [K1 K2]. apply Nat.ltb_lt in K1.
    unfold run_step. cbn [wd_pc wd_counter wd_timeout wd_exit].
    destruct p.
    + destruct Hm as [Hs|Hm]; [discriminate Hs|].
      destruct (Z.eqb c 0) eqn:E; [apply Z.eqb_eq in E; lia|].
      apply (IH (S since)); auto; [discriminate|].
      right. unfold steps_left. cbn [wd_pc wd_counter]. lia.
    + destruct Hm as [Hs|Hm]; [discriminate Hs|].
      destruct x.
      * rewrite wd_run_stopped; [discriminate | reflexivity].
      * apply (IH (S since)); auto; [discriminate|].
        right. unfold steps_left. cbn [wd_pc wd_counter]. lia.
    + contradiction.
    + rewrite wd_run_stopped; [discriminate | reflexivity].
  - apply (IH 0); auto.
    unfold kick, steps_left. cbn [wd_pc wd_counter wd_timeout wd_exit].
    destruct p; try contradiction; auto; right; lia.
  - apply (IH since); auto.
Qed.

Lemma negative_inv acts : forall wd,
  (wd_timeout wd < 0)%Z -> (wd_counter wd < 0)%Z -> wd_pc wd <> Fired ->
  wd_pc (wd_run acts wd) <> Fired.
Proof.
  induction acts as [|a acts IH]; intros wd Ht Hc Hnf; [exact Hnf|].
  cbn [wd_run fold_left]. fold (wd_run acts (act wd a)).
  destruct wd as [t c x p]. cbn [wd_pc wd_counter wd_timeout wd_exit] in *.
  destruct a; cbn [act].
  - unfold run_step. cbn [wd_pc wd_counter wd_timeout wd_exit].
    destruct p; try contradiction.
    + destruct (Z.eqb c 0) eqn:E; [apply Z.eqb_eq in E; lia|].
      apply IH; cbn; auto; discriminate.
    + destruct x; apply IH; cbn; auto; try discriminate; lia.
    + apply IH; cbn; auto.
  - apply IH; cbn; auto.
  - apply IH; cbn; auto.
Qed.

Lemma stop_inv acts : forall wd,
  wd_exit wd = true ->
  (wd_returned (wd_run acts wd)
   \/ (wd_pc (wd_run acts wd) = AtWait /\ steps_in acts <= 1
       /\ (steps_in acts = 1 -> wd_pc wd = AtTest))
   \/ (wd_pc (wd_run acts wd) = AtTest /\ steps_in acts = 0
       /\ wd_pc wd = AtTest)).
Proof.
  unfold wd_returned.
  induction acts as [|a acts IH] using rev_ind; intros wd Hx.
  - cbn. destruct (wd_pc wd) eqn:P; auto.
    right. left. repeat split; auto. discriminate.
  - rewrite wd_run_app. unfold steps_in. rewrite filter_app, length_app.
    fold (steps_in acts).
    assert (Hx' : wd_exit (wd_run acts wd) = true).
    { clear IH. revert wd Hx. induction acts as [|b acts IHa]; intros wd Hx;
        [exact Hx|].
      cbn [wd_run fold_left]. apply IHa.
      destruct wd as [t c x p]. cbn in Hx. subst x.
      destruct b; cbn; auto.
      unfold run_step. cbn. destruct p; cbn; auto.
      now destruct (Z.eqb c 0). }
    specialize (IH wd Hx).
    remember (wd_run acts wd) as w eqn:Ew. clear Ew.
    destruct w as [t c x p]. cbn [wd_exit wd_pc] in *. subst x.
    destruct a; cbn [wd_run fold_left act filter is_step List.length].
    + unfold run_step. cbn [wd_pc wd_counter wd_timeout wd_exit].
      destruct IH as [[H|H]|[(H & Hn & Hp)|(H & Hn & Hp)]]; subst p; cbn; auto.
      destruct (Z.eqb c 0); cbn; auto.
      right. left. repeat split; auto; lia.
    + cbn. rewrite Nat.add_0_r.
      destruct IH as [[H|H]|[(H & Hn & Hp)|(H & Hn & Hp)]]; subst p; auto.
    + cbn. rewrite Nat.add_0_r.
      destruct IH as [[H|H]|[(H & Hn & Hp)|(H & Hn & Hp)]]; subst p; auto.
Qed.

End WatchDogFacts.

(** X22: left alone, a watchdog with a timeout of T calls its handler with
    step 2 T + 1 of its thread, not before: after T waits of a second with
    the test that goes before each, and one last test.  A timeout of zero
    fires at the first step. *)
Theorem watchdog_fires_after_timeout (T n : nat) :
  Client.wd_pc (wd_run (repeat Client.Step n)
                       (Client.WatchDog_init (Z.of_nat T)))
  = Client.Fired
  <-> 2 * T + 1 <= n.
Proof.
  split.
  - intros H.
    destruct (Nat.le_gt_cases (2 * T + 1) n) as [Hle|Hlt]; [exact Hle|].
    exfalso.
    destruct (Nat.Even_or_Odd n) as [[j Hj]|[j Hj]]; subst n.
    + rewrite wd_run_two_steps in H by lia. discriminate H.
    + rewrite wd_run_odd_steps in H by lia. discriminate H.
  - intros Hle.
    replace n with (2 * T + (1 + (n - (2 * T + 1)))) by lia.
    rewrite repeat_app, wd_run_app, wd_run_two_steps by lia.
    rewrite repeat_app, wd_run_app. apply wd_run_fired.
    cbn. unfold Client.run_step. cbn.
    replace (Z.of_nat T - Z.of_nat T)%Z with 0%Z by lia. reflexivity.
Qed.

(** X23: a watchdog that is kicked in time never calls its handler.  When
    its thread takes fewer than 2 T steps between two kicks, and before the
    first, the handler is not called, whenever the stop comes. *)
Theorem watchdog_kicked_in_time_never_fires
        (T : nat) (acts : list Client._WatchDog_action) :
  kicked_in_time (2 * T) 0 acts = true ->
  Client.wd_pc (wd_run acts (Client.WatchDog_init (Z.of_nat T)))
  <> Client.Fired.
Proof.
  intros K.
  apply (@kicked_in_time_inv T acts 0); auto.
  - discriminate.
  - right. unfold steps_left. cbn. lia.
Qed.

(** X23 at a timeout of 2 and a kick after every third step. *)
Lemma watchdog_kicked_in_time_never_fires_witness :
  let acts := [Client.Step; Client.Step; Client.Step; Client.Kick;
               Client.Step; Client.Step; Client.Step; Client.Kick;
               Client.Step; Client.Step] in
  kicked_in_time (2 * 2) 0 acts = true
  /\ Client.wd_pc (wd_run acts (Client.WatchDog_init 2)) <> Client.Fired.
Proof.
  intros acts.
  assert (K : kicked_in_time (2 * 2) 0 acts = true) by reflexivity.
  split; [exact K|].
  exact (@watchdog_kicked_in_time_never_fires 2 acts K).
Defined.

(** X24: a watchdog with a negative timeout never calls its handler,
    whatever happens to it: its counter stays below zero. *)
Theorem watchdog_negative_timeout_never_fires
        (timeout : Z) (acts : list Client._WatchDog_action) :
  (timeout < 0)%Z ->
  Client.wd_pc (wd_run acts (Client.WatchDog_init timeout)) <> Client.Fired.
Proof.
  intros H. apply negative_inv; cbn; auto. discriminate.
Qed.

(** X24 at a timeout of -1 and five steps. *)
Lemma watchdog_negative_timeout_never_fires_witness :
  (-1 < 0)%Z
  /\ Client.wd_pc (wd_run (repeat Client.Step 5) (Client.WatchDog_init (-1)))
     <> Client.Fired.
Proof.
  assert (H : (-1 < 0)%Z) by lia.
  split; [exact H|].
  exact (@watchdog_negative_timeout_never_fires (-1) (repeat Client.Step 5) H).
Defined.

(** X25: once [stop] has set the flag, the thread of the watchdog returns
    with its second step at the latest, whatever kicks come in between.  It
    need not return quietly: a stop that comes after the step that brought
    the counter to zero does not keep the handler from being called. *)
Theorem watchdog_stop_returns_within_two_steps :
  (forall (wd : Client._WatchDog) (acts : list Client._WatchDog_action),
      Client.wd_exit wd = true ->
      2 <= steps_in acts ->
      wd_returned (wd_run acts wd))
  /\ (forall T : nat,
         Client.wd_pc
           (wd_run (repeat Client.Step (2 * T) ++ [Client.Stop; Client.Step])
                   (Client.WatchDog_init (Z.of_nat T)))
         = Client.Fired).
Proof.
  split.
  - intros wd acts Hx Hn.
    destruct (stop_inv acts wd Hx) as [H|[(_ & H & _)|(_ & H & _)]];
      [exact H | lia | lia].
  - intros T. rewrite wd_run_app, wd_run_two_steps by lia.
    cbn. unfold Client.run_step. cbn.
    replace (Z.of_nat T - Z.of_nat T)%Z with 0%Z by lia. reflexivity.
Qed.

(** X25 at a watchdog with a timeout of 3 that is stopped at once and
    kicked between the two steps its thread still takes. *)
Lemma watchdog_stop_returns_within_two_steps_witness :
  let wd := Client.stop (Client.WatchDog_init 3) in
  let acts := [Client.Step; Client.Kick; Client.Step] in
  Client.wd_exit wd = true
  /\ 2 <= steps_in acts
  /\ wd_returned (wd_run acts wd).
Proof.
  intros wd acts.
  assert (Hx : Client.wd_exit wd = true) by reflexivity.
  assert (Hn : 2 <= steps_in acts) by (vm_compute; lia).
  split; [exact Hx|]. split; [exact Hn|].
  exact (proj1 watchdog_stop_returns_within_two_steps wd acts Hx Hn).
Defined.

(* ------------------------------------------------------------------ *)
(** ** The mutex of the collector *)


